(** * train.py: parameter reconciliation and the epoch loop

    A shallow embedding of [src/train.py]: the block of [__main__] that
    reconciles the command-line parameters with the snapshot of an earlier
    experiment, and [main], the orchestration of one run.  Python objects
    whose attributes are assigned by name ([params.__dict__], the unpickled
    snapshot) are finite maps from attribute names to values; code that
    raises is code in an error monad over the state it mutates. *)

From Stdlib Require Import ZArith Ascii String List Permutation Lia.
From stdpp Require Import base option list gmap strings fin_maps.

Local Open Scope Z_scope.
Local Open Scope string_scope.
Local Open Scope list_scope.

(** ** Exceptions and results *)

Inductive exn : Type :=
| AssertionError
| KeyError (key : string)
| AttributeError (name : string)
| TypeError
| IndexError
| SystemExit (code : option Z)      (* [exit()] raises [SystemExit(None)]: status 0 *)
| ExternalError (what : string).    (* raised inside a collaborator *)

(** What a pure fallible step or a call of a collaborator gives. *)
Inductive result (A : Type) : Type :=
| Ok (a : A)
| Raise (e : exn).

Arguments Ok {A} a.
Arguments Raise {A} e.

(** What running a piece of the program gives; [OutOfFuel] cuts off a
    [while] loop that is still running after the allotted iterations. *)
Inductive outcome (A : Type) : Type :=
| Returns (a : A)
| Raises (e : exn)
| OutOfFuel.

Arguments Returns {A} a.
Arguments Raises {A} e.
Arguments OutOfFuel {A}.

(** ** A state and error monad

    [M S A] is a computation over a mutable state [S] that returns an [A],
    raises, or is cut off.  The state reached is kept in every case: what a
    Python program has assigned before it raises stays assigned. *)

Definition M (S A : Type) : Type := S → S * outcome A.

Definition ret {S A} (a : A) : M S A := λ s, (s, Returns a).

Definition bind {S A B} (c : M S A) (k : A → M S B) : M S B :=
  λ s, match c s with
       | (s', Returns a) => k a s'
       | (s', Raises e) => (s', Raises e)
       | (s', OutOfFuel) => (s', OutOfFuel)
       end.

Definition raise {S A} (e : exn) : M S A := λ s, (s, Raises e).

Definition modify {S} (f : S → S) : M S unit := λ s, (f s, Returns tt).

(** [assert c] *)
Definition assert_ {S} (c : bool) : M S unit :=
  if c then ret tt else raise AssertionError.

(** A pure fallible step, run inside the monad. *)
Definition lift {S A} (r : result A) : M S A :=
  λ s, match r with
       | Ok a => (s, Returns a)
       | Raise e => (s, Raises e)
       end.

Declare Scope py_scope.
Delimit Scope py_scope with py.
Notation "x <- c ;; k" := (bind c (λ x, k))
  (at level 100, c at next level, right associativity) : py_scope.
Notation "c ;;; k" := (bind c (λ _, k))
  (at level 100, right associativity) : py_scope.
Local Open Scope py_scope.

(** ** Values and namespaces *)

(** The values an [argparse.Namespace] of this parser holds: [str], [int],
    [float] and [bool] options, and [None].  A float is carried as its
    IEEE-754 bit pattern; no arithmetic is done on it here. *)
Inductive value : Type :=
| VNone
| VBool (b : bool)
| VInt (z : Z)
| VFloat (bits : Z)
| VStr (s : string).

#[global] Instance value_eq_dec : EqDecision value.
Proof. solve_decision. Defined.

(** [params.__dict__] and [pk.__dict__] *)
Abbreviation namespace := (gmap string value).

(** Python truth value of [v]. *)
Definition truthy (v : value) : bool :=
  match v with
  | VNone => false
  | VBool b => b
  | VInt z => negb (Z.eqb z 0)
  | VFloat bits => negb (Z.eqb bits 0) && negb (Z.eqb bits (2 ^ 63))
  | VStr s => negb (String.eqb s "")
  end.

(** [v != ""] *)
Definition ne_empty (v : value) : bool :=
  match v with
  | VStr s => negb (String.eqb s "")
  | _ => true
  end.

(** [a + b] where one operand is a [str]: concatenation of two strings, a
    [TypeError] otherwise. *)
Definition add (a b : value) : result value :=
  match a, b with
  | VStr x, VStr y => Ok (VStr (String.append x y))
  | _, _ => Raise TypeError
  end.

(** [params.name] *)
Definition getattr (name : string) : M namespace value :=
  λ ns, match ns !! name with
        | Some v => (ns, Returns v)
        | None => (ns, Raises (AttributeError name))
        end.

(** [params.name = v] *)
Definition setattr (name : string) (v : value) : M namespace unit :=
  modify (λ ns, <[name := v]> ns).

(** [del d[key]] on a dict held in a local variable. *)
Definition del_item (d : namespace) (key : string) : result namespace :=
  match d !! key with
  | Some _ => Ok (delete key d)
  | None => Raise (KeyError key)
  end.

(** ** The files reconciliation reads *)

Record filesystem : Type := {
  isfile : string → bool;                         (* os.path.isfile *)
  pickle_load : string → result namespace          (* pickle.load(open(f, "rb")).__dict__ *)
}.

(** [os.path.isfile(v)]; every path it is given here is the result of a
    concatenation, a [str]. *)
Definition path_isfile (fs : filesystem) (v : value) : bool :=
  match v with
  | VStr p => isfile fs p
  | _ => false
  end.

Definition load_snapshot (fs : filesystem) (v : value) : result namespace :=
  match v with
  | VStr p => pickle_load fs p
  | _ => Raise TypeError
  end.

(** ** Reconciliation ([__main__], lines 206-241) *)

Definition identity_fields : list string :=
  ["exp_id"; "dump_path"; "exp_name"].

Definition per_run_fields : list string :=
  ["eval_data"; "batch_size_eval"; "local_rank"; "beam_eval"; "beam_size";
   "eval_verbose"; "eval_verbose_print"; "master_port"; "max_len";
   "max_output_len"; "lyap_SOS_checker"].

Definition excluded_fields : list string := identity_fields ++ per_run_fields.

(** [for key in [...]: if key in pickled_args: del pickled_args[key]] *)
Fixpoint del_if_present (keys : list string) (pickled_args : namespace) : namespace :=
  match keys with
  | [] => pickled_args
  | key :: keys' =>
      del_if_present keys'
        (match pickled_args !! key with
         | Some _ => delete key pickled_args
         | None => pickled_args
         end)
  end.

(** Lines 213-230: the three unconditional [del]s, then the guarded ones. *)
Definition strip_snapshot (pickled_args : namespace) : result namespace :=
  match del_item pickled_args "exp_id" with
  | Ok d1 =>
      match del_item d1 "dump_path" with
      | Ok d2 =>
          match del_item d2 "exp_name" with
          | Ok d3 => Ok (del_if_present per_run_fields d3)
          | Raise e => Raise e
          end
      | Raise e => Raise e
      end
  | Raise e => Raise e
  end.

(** Lines 232-234: [for p in params.__dict__: if p in pickled_args: ...].
    The keys are those of [params.__dict__] when the loop starts; the body
    assigns to existing keys only, so the dict keeps its keys. *)
Fixpoint merge_loop (keys : list string) (pickled_args : namespace)
    (params : namespace) : namespace :=
  match keys with
  | [] => params
  | p :: keys' =>
      merge_loop keys' pickled_args
        (match pickled_args !! p with
         | Some v => <[p := v]> params
         | None => params
         end)
  end.

Definition keys_of (ns : namespace) : list string := (map_to_list ns).*1.

(** Lines 207-234: returns [exp_str]. *)
Definition merge_snapshot (fs : filesystem) : M namespace value :=
  exp_from <- getattr "eval_from_exp" ;;
  pickle_file <- lift (add exp_from (VStr "/params.pkl")) ;;
  exp_str <- getattr "eval_from_exp" ;;
  assert_ (path_isfile fs pickle_file) ;;;
  pk <- lift (load_snapshot fs pickle_file) ;;
  pickled_args <- lift (strip_snapshot pk) ;;
  modify (λ params, merge_loop (keys_of params) pickled_args params) ;;;
  ret exp_str.

(** Lines 236-241. *)
Definition after_merge (fs : filesystem) (exp_str : value) : M namespace unit :=
  setattr "eval_only" (VBool true) ;;;
  s1 <- lift (add exp_str (VStr "/best-")) ;;
  validation_metrics <- getattr "validation_metrics" ;;
  s2 <- lift (add s1 validation_metrics) ;;
  reload_model <- lift (add s2 (VStr ".pth")) ;;
  setattr "reload_model" reload_model ;;;
  reload_model' <- getattr "reload_model" ;;
  assert_ (path_isfile fs reload_model') ;;;
  eval_data <- getattr "eval_data" ;;
  if ne_empty eval_data then
    setattr "eval_size" VNone ;;;
    tasks <- getattr "tasks" ;;
    t1 <- lift (add tasks (VStr ",")) ;;
    eval_data1 <- getattr "eval_data" ;;
    t2 <- lift (add t1 eval_data1) ;;
    t3 <- lift (add t2 (VStr ",")) ;;
    eval_data2 <- getattr "eval_data" ;;
    t4 <- lift (add t3 eval_data2) ;;
    setattr "reload_data" t4
  else ret tt.

(** [params.eval_only and params.eval_from_exp != ""] *)
Definition resuming : M namespace bool :=
  eval_only <- getattr "eval_only" ;;
  if truthy eval_only then
    eval_from_exp <- getattr "eval_from_exp" ;;
    ret (ne_empty eval_from_exp)
  else ret false.

(** Lines 206-241. *)
Definition reconcile (fs : filesystem) : M namespace unit :=
  active <- resuming ;;
  if active then
    exp_str <- merge_snapshot fs ;;
    after_merge fs exp_str
  else ret tt.

(** ** The reload-data string *)

(** [s.split(sep)] for a separator of one character. *)
Fixpoint split_on (sep : ascii) (s : string) : list string :=
  match s with
  | EmptyString => [EmptyString]
  | String c s' =>
      if Ascii.eqb c sep then EmptyString :: split_on sep s'
      else match split_on sep s' with
           | [] => [String c EmptyString]
           | w :: ws => String c w :: ws
           end
  end.

Record reload_entry : Type := {
  re_task : string;
  re_train : string;
  re_valid : string;
  re_tests : list string
}.

(** Modelled from the spec: the reader of the reload-data string is not part
    of train.py.  The string is a list of entries separated by [;], each
    entry [task,train_path,valid_path,test_path_1,...]: a task, its train
    and valid paths, and its test paths in order (so says the help text of
    [--reload_data] as well). *)
Definition parse_reload_entry (s : string) : option reload_entry :=
  match split_on "," s with
  | task :: train :: valid :: tests =>
      Some {| re_task := task; re_train := train; re_valid := valid; re_tests := tests |}
  | _ => None
  end.

Definition parse_reload_data (s : string) : option (list reload_entry) :=
  mapM parse_reload_entry
    (filter (λ x, x ≠ EmptyString) (split_on ";" s)).

(** Every split of the entry, train, valid and test, reads [path]. *)
Definition all_splits_at (path : string) (e : reload_entry) : bool :=
  String.eqb (re_train e) path && String.eqb (re_valid e) path
  && negb (Nat.eqb (length (re_tests e)) 0)
  && forallb (String.eqb path) (re_tests e).

(** The train and valid splits read [path], and no test path is listed. *)
Definition train_valid_at (path : string) (e : reload_entry) : bool :=
  String.eqb (re_train e) path && String.eqb (re_valid e) path
  && Nat.eqb (length (re_tests e)) 0.

(** The path line 237 computes. *)
Definition best_path (dir metric : string) : string :=
  String.append (String.append (String.append dir "/best-") metric) ".pth".

(** The reload-data string line 241 computes. *)
Definition reload_spec (tasks path : string) : string :=
  String.append (String.append (String.append (String.append tasks ",") path) ",") path.


(** [c in s] *)
Fixpoint occurs (c : ascii) (s : string) : bool :=
  match s with
  | EmptyString => false
  | String c' s' => Ascii.eqb c' c || occurs c s'
  end.

(** What C5 asks of the rewritten reload-data string: it parses, and every
    split of every entry, train, valid and test, reads [path]. *)
Definition every_split_reloads_from (params : namespace) (path : string) : Prop :=
  ∃ s entries,
    params !! "reload_data" = Some (VStr s)
    ∧ parse_reload_data s = Some entries
    ∧ entries ≠ []
    ∧ Forall (λ e, all_splits_at path e = true) entries.


(** ** An experiment directory to run reconciliation on *)

Definition cli_params : namespace :=
  list_to_map
    [("eval_only", VBool true); ("eval_from_exp", VStr "/exp/run1");
     ("eval_data", VStr "/data/new"); ("tasks", VStr "ode_lyapunov");
     ("validation_metrics", VStr ""); ("exp_id", VStr "e2");
     ("dump_path", VStr "/dump"); ("exp_name", VStr "eval");
     ("eval_size", VInt 10000); ("reload_data", VStr "");
     ("reload_model", VStr ""); ("emb_dim", VInt 640); ("beam_size", VInt 5);
     ("dropout", VFloat 0)].

Definition saved_snapshot : namespace :=
  list_to_map
    [("eval_only", VBool false); ("eval_from_exp", VStr "");
     ("eval_data", VStr ""); ("tasks", VStr "ode_lyapunov");
     ("validation_metrics", VStr "acc"); ("exp_id", VStr "e1");
     ("dump_path", VStr "/exp"); ("exp_name", VStr "run1");
     ("eval_size", VInt 10000); ("reload_data", VStr "");
     ("reload_model", VStr ""); ("emb_dim", VInt 512); ("beam_size", VInt 1);
     ("is_master", VBool true)].

Definition exp_files : filesystem :=
  {| isfile p :=
       String.eqb p "/exp/run1/params.pkl" || String.eqb p "/exp/run1/best-acc.pth";
     pickle_load p :=
       if String.eqb p "/exp/run1/params.pkl" then Ok saved_snapshot
       else Raise (ExternalError "open") |}.

(** The same experiment directory without its best checkpoint. *)
Definition exp_files_no_best : filesystem :=
  {| isfile p := String.eqb p "/exp/run1/params.pkl";
     pickle_load p :=
       if String.eqb p "/exp/run1/params.pkl" then Ok saved_snapshot
       else Raise (ExternalError "open") |}.

(** A snapshot without [exp_name], and without several per-run fields. *)
Definition exp_files_no_name : filesystem :=
  {| isfile p :=
       String.eqb p "/exp/run1/params.pkl" || String.eqb p "/exp/run1/best-acc.pth";
     pickle_load p :=
       if String.eqb p "/exp/run1/params.pkl" then Ok (delete "exp_name" saved_snapshot)
       else Raise (ExternalError "open") |}.


(** ** The run: what [main] sees of its collaborators *)

(** The attributes of [params] that [main] reads, as they stand when it reads
    them: [multi_gpu] and [is_master] are filled in by
    [init_distributed_mode], [tasks] is the list of task names. *)
Record run_params : Type := {
  cpu : bool;
  multi_gpu : bool;
  eval_only : bool;
  export_data : bool;
  is_master : bool;
  max_epoch : Z;
  tasks : list string
}.

(** The state of the process outside [main]'s own variables: the three
    attributes of the trainer that [main] reads or assigns, the state of
    numpy's global generator, and everything else the collaborators keep. *)
Record process (Rng Other : Type) : Type := {
  trainer_n_equations : Z;
  trainer_epoch_size : Z;
  trainer_epoch : Z;
  np_random_state : Rng;
  rest : Other
}.

Arguments trainer_n_equations {Rng Other} p.
Arguments trainer_epoch_size {Rng Other} p.
Arguments trainer_epoch {Rng Other} p.
Arguments np_random_state {Rng Other} p.
Arguments rest {Rng Other} p.

(** [trainer.n_equations = z] *)
Definition set_n_equations {Rng Other} (z : Z) (p : process Rng Other) : process Rng Other :=
  {| trainer_n_equations := z;
     trainer_epoch_size := trainer_epoch_size p;
     trainer_epoch := trainer_epoch p;
     np_random_state := np_random_state p;
     rest := rest p |}.

Definition set_np_random_state {Rng Other} (g : Rng) (p : process Rng Other) : process Rng Other :=
  {| trainer_n_equations := trainer_n_equations p;
     trainer_epoch_size := trainer_epoch_size p;
     trainer_epoch := trainer_epoch p;
     np_random_state := g;
     rest := rest p |}.

(** The calls [main] makes and the lines it logs, in the order it makes
    them.  A score report is a dict from metric names to scores, kept in the
    order of its items. *)
Inductive event (Score : Type) : Type :=
| CallInitDistributedMode
| CallInitializeExp
| CallInitSignalHandler
| SetCUDA (b : bool)
| CallBuildEnv
| CallBuildModules
| CallTrainer
| CallEvaluator
| CallRunAllEvals
| LogScores (scores : list (string * Score))        (* logger.info(scores) *)
| LogMetric (k : string) (v : Score)                (* logger.info("%s -> %.6f" % (k, v)) *)
| LogJson (scores : list (string * Score))          (* logger.info("__log__:%s" % json.dumps(scores)) *)
| CallExit
| LogStartEpoch (epoch : Z)
| LogEndEpoch (epoch : Z)
| CallPermutation (n : nat) (order : list nat)      (* np.random.permutation(n) gave order *)
| CallExportData (task : string)
| CallEncDecStep (task : string)
| CallIter
| CallSaveBestModel (scores : list (string * Score))
| CallSavePeriodic
| CallEndEpoch (scores : list (string * Score)).

Arguments CallInitDistributedMode {Score}.
Arguments CallInitializeExp {Score}.
Arguments CallInitSignalHandler {Score}.
Arguments SetCUDA {Score} b.
Arguments CallBuildEnv {Score}.
Arguments CallBuildModules {Score}.
Arguments CallTrainer {Score}.
Arguments CallEvaluator {Score}.
Arguments CallRunAllEvals {Score}.
Arguments LogScores {Score} scores.
Arguments LogMetric {Score} k v.
Arguments LogJson {Score} scores.
Arguments CallExit {Score}.
Arguments LogStartEpoch {Score} epoch.
Arguments LogEndEpoch {Score} epoch.
Arguments CallPermutation {Score} n order.
Arguments CallExportData {Score} task.
Arguments CallEncDecStep {Score} task.
Arguments CallIter {Score}.
Arguments CallSaveBestModel {Score} scores.
Arguments CallSavePeriodic {Score}.
Arguments CallEndEpoch {Score} scores.

(** The collaborators: each call acts on the process and returns or
    raises.  With them goes what Python's formatting makes of the scores
    that the evaluator reports: whether ["%.6f" % v] takes the score [v] (it
    raises a [TypeError] on what is not a real number), and whether
    [json.dumps] encodes it (it raises a [TypeError] on what it cannot
    serialize, a [numpy.float32] for one). *)
Record collaborators (Score Rng Other : Type) : Type := {
  init_distributed_mode : process Rng Other → result (process Rng Other);
  initialize_exp : process Rng Other → result (process Rng Other);
  init_signal_handler : process Rng Other → result (process Rng Other);
  cuda_is_available : process Rng Other → bool;
  build_env : process Rng Other → result (process Rng Other);
  build_modules : process Rng Other → result (process Rng Other);
  new_trainer : process Rng Other → result (process Rng Other);
  new_evaluator : process Rng Other → result (process Rng Other);
  run_all_evals : process Rng Other → result (list (string * Score) * process Rng Other);
  trainer_export_data : string → process Rng Other → result (process Rng Other);
  trainer_enc_dec_step : string → process Rng Other → result (process Rng Other);
  trainer_iter : process Rng Other → result (process Rng Other);
  trainer_save_best_model : list (string * Score) → process Rng Other → result (process Rng Other);
  trainer_save_periodic : process Rng Other → result (process Rng Other);
  trainer_end_epoch : list (string * Score) → process Rng Other → result (process Rng Other);
  np_random_permutation : nat → Rng → list nat * Rng;
  formats_as_float : Score → bool;
  json_encodes : Score → bool
}.

Arguments init_distributed_mode {Score Rng Other} c p.
Arguments initialize_exp {Score Rng Other} c p.
Arguments init_signal_handler {Score Rng Other} c p.
Arguments cuda_is_available {Score Rng Other} c p.
Arguments build_env {Score Rng Other} c p.
Arguments build_modules {Score Rng Other} c p.
Arguments new_trainer {Score Rng Other} c p.
Arguments new_evaluator {Score Rng Other} c p.
Arguments run_all_evals {Score Rng Other} c p.
Arguments trainer_export_data {Score Rng Other} c task p.
Arguments trainer_enc_dec_step {Score Rng Other} c task p.
Arguments trainer_iter {Score Rng Other} c p.
Arguments trainer_save_best_model {Score Rng Other} c scores p.
Arguments trainer_save_periodic {Score Rng Other} c p.
Arguments trainer_end_epoch {Score Rng Other} c scores p.
Arguments np_random_permutation {Score Rng Other} c n g.
Arguments formats_as_float {Score Rng Other} c v.
Arguments json_encodes {Score Rng Other} c v.

(** ** A monad for the run: events, process state, errors *)

Definition Run (Score Rng Other A : Type) : Type :=
  process Rng Other → list (event Score) * process Rng Other * outcome A.

Section RunMonad.
Context {Score Rng Other : Type}.

Definition rret {A} (a : A) : Run Score Rng Other A :=
  λ p, ([], p, Returns a).

Definition rbind {A B} (c : Run Score Rng Other A) (k : A → Run Score Rng Other B)
    : Run Score Rng Other B :=
  λ p, match c p with
       | (d1, p1, Returns a) =>
           match k a p1 with
           | (d2, p2, r) => (d1 ++ d2, p2, r)
           end
       | (d1, p1, Raises e) => (d1, p1, Raises e)
       | (d1, p1, OutOfFuel) => (d1, p1, OutOfFuel)
       end.

Definition rraise {A} (e : exn) : Run Score Rng Other A :=
  λ p, ([], p, Raises e).

Definition out_of_fuel {A} : Run Score Rng Other A :=
  λ p, ([], p, OutOfFuel).

(** [logger.info(...)] *)
Definition log (ev : event Score) : Run Score Rng Other unit :=
  λ p, ([ev], p, Returns tt).

(** Reading an attribute. *)
Definition read {A} (f : process Rng Other → A) : Run Score Rng Other A :=
  λ p, ([], p, Returns (f p)).

(** Assigning one. *)
Definition assign (f : process Rng Other → process Rng Other) : Run Score Rng Other unit :=
  λ p, ([], f p, Returns tt).

(** A call of a collaborator, entered in the trace when it is made. *)
Definition call (ev : event Score)
    (f : process Rng Other → result (process Rng Other)) : Run Score Rng Other unit :=
  λ p, match f p with
       | Ok p' => ([ev], p', Returns tt)
       | Raise e => ([ev], p, Raises e)
       end.

Definition call_ret {A} (ev : event Score)
    (f : process Rng Other → result (A * process Rng Other)) : Run Score Rng Other A :=
  λ p, match f p with
       | Ok (a, p') => ([ev], p', Returns a)
       | Raise e => ([ev], p, Raises e)
       end.

Definition rassert (c : bool) : Run Score Rng Other unit :=
  if c then rret tt else rraise AssertionError.
End RunMonad.

Declare Scope run_scope.
Delimit Scope run_scope with run.
Notation "x <- c ;; k" := (rbind c (λ x, k))
  (at level 100, c at next level, right associativity) : run_scope.
Notation "c ;;; k" := (rbind c (λ _, k))
  (at level 100, right associativity) : run_scope.

(** ** [main] *)

Section Orchestrator.
Context {Score Rng Other : Type}.
Variable C : collaborators Score Rng Other.
Variable params : run_params.

Local Close Scope py_scope.
Local Open Scope run_scope.

(** Lines 139-154: up to the construction of the evaluator. *)
Definition startup : Run Score Rng Other unit :=
  call CallInitDistributedMode (init_distributed_mode C) ;;;
  call CallInitializeExp (initialize_exp C) ;;;
  call CallInitSignalHandler (init_signal_handler C) ;;;
  (if cpu params then rassert (negb (multi_gpu params))
   else (available <- read (cuda_is_available C) ;; rassert available)) ;;;
  log (SetCUDA (negb (cpu params))) ;;;
  call CallBuildEnv (build_env C) ;;;
  call CallBuildModules (build_modules C) ;;;
  call CallTrainer (new_trainer C) ;;;
  call CallEvaluator (new_evaluator C).

(** [logger.info("%s -> %.6f" % (k, v))]: the line is formatted, then
    logged. *)
Definition log_metric (k : string) (v : Score) : Run Score Rng Other unit :=
  if formats_as_float C v then log (LogMetric k v) else rraise TypeError.

(** [for k, v in scores.items(): logger.info("%s -> %.6f" % (k, v))] *)
Fixpoint log_items (items : list (string * Score)) : Run Score Rng Other unit :=
  match items with
  | [] => rret tt
  | (k, v) :: items' => log_metric k v ;;; log_items items'
  end.

(** [logger.info("__log__:%s" % json.dumps(scores))]; the keys of a score
    report are strings. *)
Definition log_json (scores : list (string * Score)) : Run Score Rng Other unit :=
  if forallb (λ kv, json_encodes C kv.2) scores then log (LogJson scores)
  else rraise TypeError.

(** Lines 157-162. *)
Definition evaluate_and_exit : Run Score Rng Other unit :=
  scores <- call_ret CallRunAllEvals (run_all_evals C) ;;
  log_items scores ;;;
  log_json scores ;;;
  log CallExit ;;;
  rraise (SystemExit None).

(** [params.tasks[task_id]] *)
Definition task_at (task_id : nat) : Run Score Rng Other string :=
  match tasks params !! task_id with
  | Some task => rret task
  | None => rraise IndexError
  end.

(** Lines 174-180, for the task ids still to come. *)
Fixpoint for_task_ids (order : list nat) : Run Score Rng Other unit :=
  match order with
  | [] => rret tt
  | task_id :: order' =>
      task <- task_at task_id ;;
      (if export_data params
       then call (CallExportData task) (trainer_export_data C task)
       else call (CallEncDecStep task) (trainer_enc_dec_step C task)) ;;;
      call CallIter (trainer_iter C) ;;;
      for_task_ids order'
  end.

(** [np.random.permutation(n)] *)
Definition permutation (n : nat) : Run Score Rng Other (list nat) :=
  λ p, match np_random_permutation C n (np_random_state p) with
       | (order, g) => ([CallPermutation n order], set_np_random_state g p, Returns order)
       end.

(** One inner step: the body of the [while], lines 173-180. *)
Definition inner_step : Run Score Rng Other unit :=
  order <- permutation (length (tasks params)) ;;
  for_task_ids order.

(** Lines 171-180; [fuel] bounds the number of inner steps. *)
Fixpoint while_loop (fuel : nat) : Run Score Rng Other unit :=
  n_equations <- read trainer_n_equations ;;
  epoch_size <- read trainer_epoch_size ;;
  if Z.ltb n_equations epoch_size then
    match fuel with
    | O => out_of_fuel
    | S fuel' => inner_step ;;; while_loop fuel'
    end
  else rret tt.

(** Lines 185-197. *)
Definition end_of_epoch : Run Score Rng Other unit :=
  if is_master params then
    scores <- call_ret CallRunAllEvals (run_all_evals C) ;;
    log (LogScores scores) ;;;
    log_items scores ;;;
    log_json scores ;;;
    call (CallSaveBestModel scores) (trainer_save_best_model C scores) ;;;
    call CallSavePeriodic (trainer_save_periodic C) ;;;
    call (CallEndEpoch scores) (trainer_end_epoch C scores)
  else rret tt.

(** Lines 167-169. *)
Definition start_epoch : Run Score Rng Other unit :=
  epoch <- read trainer_epoch ;;
  log (LogStartEpoch epoch) ;;;
  assign (set_n_equations 0).

(** The body of the [for], lines 167-197. *)
Definition epoch_body (fuel : nat) : Run Score Rng Other unit :=
  start_epoch ;;;
  while_loop fuel ;;;
  epoch <- read trainer_epoch ;;
  log (LogEndEpoch epoch) ;;;
  end_of_epoch.

(** [for _ in range(n): body] *)
Fixpoint for_range (n : nat) (body : Run Score Rng Other unit) : Run Score Rng Other unit :=
  match n with
  | O => rret tt
  | S n' => body ;;; for_range n' body
  end.

(** Lines 165-197. *)
Definition training (fuel : nat) : Run Score Rng Other unit :=
  for_range (Z.to_nat (max_epoch params)) (epoch_body fuel).

(** [main(params)]; every [while] loop may take up to [fuel] inner steps. *)
Definition main (fuel : nat) : Run Score Rng Other unit :=
  startup ;;;
  (if eval_only params then evaluate_and_exit else rret tt) ;;;
  training fuel.
End Orchestrator.

(** ** Reading a trace *)

Section Traces.
Context {Score Rng Other : Type}.

(** The events [d] followed by a run. *)
Definition emit_before {A} (d : list (event Score))
    (x : list (event Score) * process Rng Other * outcome A)
    : list (event Score) * process Rng Other * outcome A :=
  (d ++ x.1.1, x.1.2, x.2).

Definition is_start_epoch (ev : event Score) : bool :=
  match ev with LogStartEpoch _ => true | _ => false end.

Definition is_run_all_evals (ev : event Score) : bool :=
  match ev with CallRunAllEvals => true | _ => false end.

Definition is_permutation_call (ev : event Score) : bool :=
  match ev with CallPermutation _ _ => true | _ => false end.

(** The events of the training loop, lines 165-197. *)
Definition is_training_event (ev : event Score) : bool :=
  match ev with
  | LogStartEpoch _ | LogEndEpoch _ | CallPermutation _ _
  | CallExportData _ | CallEncDecStep _ | CallIter | LogScores _
  | CallSaveBestModel _ | CallSavePeriodic | CallEndEpoch _ => true
  | _ => false
  end.

(** What happens at the end of an epoch, without the score reports. *)
Inductive epoch_end_call : Type :=
| EpochEnded
| Evaluated
| SavedBest
| SavedPeriodic
| StoppingUpdated.

Definition epoch_end_kind (ev : event Score) : option epoch_end_call :=
  match ev with
  | LogEndEpoch _ => Some EpochEnded
  | CallRunAllEvals => Some Evaluated
  | CallSaveBestModel _ => Some SavedBest
  | CallSavePeriodic => Some SavedPeriodic
  | CallEndEpoch _ => Some StoppingUpdated
  | _ => None
  end.

Definition epoch_end_block (master : bool) : list epoch_end_call :=
  EpochEnded ::
  (if master then [Evaluated; SavedBest; SavedPeriodic; StoppingUpdated] else []).

(** The calls that write checkpoints or decide on stopping, and the
    evaluation that feeds them. *)
Definition is_master_call (ev : event Score) : bool :=
  match ev with
  | CallRunAllEvals | CallSaveBestModel _ | CallSavePeriodic | CallEndEpoch _ => true
  | _ => false
  end.

Definition startup_calls : list (event Score) :=
  [CallInitDistributedMode; CallInitializeExp; CallInitSignalHandler].

(** The lines logged for a score report, lines 159-161. *)
Definition report_lines (scores : list (string * Score)) : list (event Score) :=
  map (λ kv, LogMetric kv.1 kv.2) scores ++ [LogJson scores].
End Traces.

Section InnerStepTrace.
Context {Score : Type}.
Variable params : run_params.

(** One unit of work, by mode (lines 176-179). *)
Definition work_event (task : string) : event Score :=
  if export_data params then CallExportData task else CallEncDecStep task.

(** The events of one inner step over the tasks [ts]. *)
Definition work_and_iter (ts : list string) : list (event Score) :=
  flat_map (λ task, [work_event task; CallIter]) ts.

(** The tasks the ids of [order] name. *)
Definition tasks_of (order : list nat) : list string :=
  omap (λ task_id, tasks params !! task_id) order.

(** A whole inner step that drew [order]. *)
Definition step_block (order : list nat) : list (event Score) :=
  CallPermutation (length (tasks params)) order :: work_and_iter (tasks_of order).
End InnerStepTrace.

(** The contract of [np.random.permutation]: a rearrangement of [range(n)]. *)
Definition permutes {Score Rng Other} (C : collaborators Score Rng Other) : Prop :=
  ∀ n g, (np_random_permutation C n g).1 ≡ₚ seq 0 n.



Section Drawn.
Context {Score Rng Other : Type}.
Variable C : collaborators Score Rng Other.
Variable params : run_params.

(** The unit of work of a task, by mode. *)
Definition work_call (task : string) : process Rng Other → result (process Rng Other) :=
  if export_data params then trainer_export_data C task else trainer_enc_dec_step C task.

(** An order that [np.random.permutation] gave for the task list. *)
Definition drawn (order : list nat) : Prop :=
  ∃ g, order = (np_random_permutation C (length (tasks params)) g).1.

End Drawn.

(** Every score of the report is taken by ["%.6f"] and encoded by
    [json.dumps]. *)
Definition formattable {Score Rng Other} (C : collaborators Score Rng Other)
    (scores : list (string * Score)) : bool :=
  forallb (λ kv, formats_as_float C kv.2) scores
  && forallb (λ kv, json_encodes C kv.2) scores.

(** The lines logged for the items of a score report, lines 159-160. *)
Definition metric_lines {Score} (scores : list (string * Score)) : list (event Score) :=
  map (λ kv, LogMetric kv.1 kv.2) scores.

(** How many events of a kind a trace holds. *)
Definition count_events {Score} (kind : event Score → bool) (d : list (event Score)) : nat :=
  length (List.filter kind d).

(** ** A trainer to run [main] on

    Scores are whole numbers here; the process keeps a count of the draws
    as its generator state and nothing else. *)

Definition fresh_process (epoch_size : Z) : process nat unit :=
  {| trainer_n_equations := 0;
     trainer_epoch_size := epoch_size;
     trainer_epoch := 0;
     np_random_state := 0%nat;
     rest := tt |}.

(** Every bookkeeping call counts four work units; each draw reverses
    [range(n)]. *)
Definition counting_trainer : collaborators Z nat unit :=
  {| init_distributed_mode p := Ok p;
     initialize_exp p := Ok p;
     init_signal_handler p := Ok p;
     cuda_is_available _ := true;
     build_env p := Ok p;
     build_modules p := Ok p;
     new_trainer p := Ok p;
     new_evaluator p := Ok p;
     run_all_evals p := Ok ([("valid_acc", 1%Z); ("valid_loss", 7%Z)], p);
     trainer_export_data _ p := Ok p;
     trainer_enc_dec_step _ p := Ok p;
     trainer_iter p := Ok (set_n_equations (trainer_n_equations p + 4) p);
     trainer_save_best_model _ p := Ok p;
     trainer_save_periodic p := Ok p;
     trainer_end_epoch _ p := Ok p;
     np_random_permutation n g := (rev (seq 0 n), S g);
     formats_as_float _ := true;
     json_encodes _ := true |}.

(** The same on a host without an accelerator. *)
Definition no_accelerator : collaborators Z nat unit :=
  {| init_distributed_mode := init_distributed_mode counting_trainer;
     initialize_exp := initialize_exp counting_trainer;
     init_signal_handler := init_signal_handler counting_trainer;
     cuda_is_available _ := false;
     build_env := build_env counting_trainer;
     build_modules := build_modules counting_trainer;
     new_trainer := new_trainer counting_trainer;
     new_evaluator := new_evaluator counting_trainer;
     run_all_evals := run_all_evals counting_trainer;
     trainer_export_data := trainer_export_data counting_trainer;
     trainer_enc_dec_step := trainer_enc_dec_step counting_trainer;
     trainer_iter := trainer_iter counting_trainer;
     trainer_save_best_model := trainer_save_best_model counting_trainer;
     trainer_save_periodic := trainer_save_periodic counting_trainer;
     trainer_end_epoch := trainer_end_epoch counting_trainer;
     np_random_permutation := np_random_permutation counting_trainer;
     formats_as_float := formats_as_float counting_trainer;
     json_encodes := json_encodes counting_trainer |}.

(** An evaluator whose scores are [numpy.float32]: ["%.6f"] takes them,
    [json.dumps] does not. *)
Definition float32_evaluator : collaborators Z nat unit :=
  {| init_distributed_mode := init_distributed_mode counting_trainer;
     initialize_exp := initialize_exp counting_trainer;
     init_signal_handler := init_signal_handler counting_trainer;
     cuda_is_available := cuda_is_available counting_trainer;
     build_env := build_env counting_trainer;
     build_modules := build_modules counting_trainer;
     new_trainer := new_trainer counting_trainer;
     new_evaluator := new_evaluator counting_trainer;
     run_all_evals := run_all_evals counting_trainer;
     trainer_export_data := trainer_export_data counting_trainer;
     trainer_enc_dec_step := trainer_enc_dec_step counting_trainer;
     trainer_iter := trainer_iter counting_trainer;
     trainer_save_best_model := trainer_save_best_model counting_trainer;
     trainer_save_periodic := trainer_save_periodic counting_trainer;
     trainer_end_epoch := trainer_end_epoch counting_trainer;
     np_random_permutation := np_random_permutation counting_trainer;
     formats_as_float _ := true;
     json_encodes _ := false |}.


(** One epoch over two tasks, on the master. *)
Definition two_tasks : run_params :=
  {| cpu := false; multi_gpu := false; eval_only := false; export_data := false;
     is_master := true; max_epoch := 1; tasks := ["t1"; "t2"] |}.

Definition two_tasks_worker : run_params :=
  {| cpu := false; multi_gpu := false; eval_only := false; export_data := false;
     is_master := false; max_epoch := 2; tasks := ["t1"; "t2"] |}.

Definition two_tasks_eval : run_params :=
  {| cpu := false; multi_gpu := false; eval_only := true; export_data := false;
     is_master := true; max_epoch := 1; tasks := ["t1"; "t2"] |}.


Definition cpu_and_multi_gpu : run_params :=
  {| cpu := true; multi_gpu := true; eval_only := false; export_data := false;
     is_master := true; max_epoch := 1; tasks := ["t1"; "t2"] |}.

(** ** Traces seen through a classification of events *)

Section Follows.
Context {Score Rng Other : Type}.

(** Seen through [kind], what [c] emits is always a first part of [l], and
    the whole of [l] when [c] returns. *)
Definition follows {K A} (kind : event Score → option K)
    (c : Run Score Rng Other A) (l : list K) : Prop :=
  ∀ p d p' r, c p = (d, p', r) →
    omap kind d `prefix_of` l ∧ (∀ a, r = Returns a → omap kind d = l).

Definition never_returns {A} (c : Run Score Rng Other A) : Prop :=
  ∀ p d p' r a, c p = (d, p', r) → r ≠ Returns a.

(** What the end of an epoch adds to a classified trace, by role. *)
Definition end_of_epoch_kinds {K} (master : bool)
    (k_eval k_best k_periodic k_stop : list K) : list K :=
  if master then k_eval ++ k_best ++ k_periodic ++ k_stop else [].

Definition start_epoch_kind (ev : event Score) : option unit :=
  if is_start_epoch ev then Some tt else None.

Definition run_all_evals_kind (ev : event Score) : option unit :=
  if is_run_all_evals ev then Some tt else None.

Definition training_kind (ev : event Score) : option (event Score) :=
  if is_training_event ev then Some ev else None.

Definition master_call_kind (ev : event Score) : option (event Score) :=
  if is_master_call ev then Some ev else None.
End Follows.

(** ** The parser ([get_parser], lines 28-132) *)

(** The [type] or the [action] of an option. *)
Inductive arg_type : Type :=
| ArgStr          (* type=str *)
| ArgInt          (* type=int *)
| ArgFloat        (* type=float *)
| ArgBoolFlag     (* type=bool_flag *)
| ArgStoreTrue.   (* action="store_true" *)

Record argument : Type := {
  arg_dest : string;
  arg_kind : arg_type;
  arg_default : value
}.

(** The options [get_parser] adds itself, in the order of its
    [add_argument] calls; those the environment registers at line 91 are
    not of this file.  A default that is not a string is kept as it is
    written: the [default=0] of a [float] option stays the [int] 0.  A
    [store_true] option defaults to [False]. *)
Definition get_parser : list argument :=
  [ {| arg_dest := "dump_path"; arg_kind := ArgStr; arg_default := VStr "/path/to/your/storage" |};
    {| arg_dest := "exp_name"; arg_kind := ArgStr; arg_default := VStr "debug" |};
    {| arg_dest := "save_periodic"; arg_kind := ArgInt; arg_default := VInt 0 |};
    {| arg_dest := "exp_id"; arg_kind := ArgStr; arg_default := VStr "" |};
    {| arg_dest := "fp16"; arg_kind := ArgBoolFlag; arg_default := VBool true |};
    {| arg_dest := "amp"; arg_kind := ArgInt; arg_default := VInt 2 |};
    {| arg_dest := "emb_dim"; arg_kind := ArgInt; arg_default := VInt 640 |};
    {| arg_dest := "n_enc_layers"; arg_kind := ArgInt; arg_default := VInt 6 |};
    {| arg_dest := "n_dec_layers"; arg_kind := ArgInt; arg_default := VInt 6 |};
    {| arg_dest := "n_heads"; arg_kind := ArgInt; arg_default := VInt 10 |};
    {| arg_dest := "dropout"; arg_kind := ArgFloat; arg_default := VInt 0 |};
    {| arg_dest := "attention_dropout"; arg_kind := ArgFloat; arg_default := VInt 0 |};
    {| arg_dest := "share_inout_emb"; arg_kind := ArgBoolFlag; arg_default := VBool true |};
    {| arg_dest := "sinusoidal_embeddings"; arg_kind := ArgBoolFlag; arg_default := VBool false |};
    {| arg_dest := "max_src_len"; arg_kind := ArgInt; arg_default := VInt 0 |};
    {| arg_dest := "env_base_seed"; arg_kind := ArgInt; arg_default := VInt (-1) |};
    {| arg_dest := "max_len"; arg_kind := ArgInt; arg_default := VInt 512 |};
    {| arg_dest := "max_output_len"; arg_kind := ArgInt; arg_default := VInt 512 |};
    {| arg_dest := "batch_size"; arg_kind := ArgInt; arg_default := VInt 32 |};
    {| arg_dest := "batch_size_eval"; arg_kind := ArgInt; arg_default := VInt 128 |};
    {| arg_dest := "eval_size"; arg_kind := ArgInt; arg_default := VInt 10000 |};
    {| arg_dest := "optimizer"; arg_kind := ArgStr; arg_default := VStr "adam,lr=0.0001" |};
    {| arg_dest := "clip_grad_norm"; arg_kind := ArgFloat; arg_default := VInt 5 |};
    {| arg_dest := "epoch_size"; arg_kind := ArgInt; arg_default := VInt 300000 |};
    {| arg_dest := "max_epoch"; arg_kind := ArgInt; arg_default := VInt 100000 |};
    {| arg_dest := "stopping_criterion"; arg_kind := ArgStr; arg_default := VStr "" |};
    {| arg_dest := "validation_metrics"; arg_kind := ArgStr; arg_default := VStr "" |};
    {| arg_dest := "accumulate_gradients"; arg_kind := ArgInt; arg_default := VInt 1 |};
    {| arg_dest := "num_workers"; arg_kind := ArgInt; arg_default := VInt 10 |};
    {| arg_dest := "export_data"; arg_kind := ArgBoolFlag; arg_default := VBool false |};
    {| arg_dest := "reload_data"; arg_kind := ArgStr; arg_default := VStr "" |};
    {| arg_dest := "reload_size"; arg_kind := ArgInt; arg_default := VInt (-1) |};
    {| arg_dest := "env_name"; arg_kind := ArgStr; arg_default := VStr "ode" |};
    {| arg_dest := "tasks"; arg_kind := ArgStr; arg_default := VStr "ode_lyapunov" |};
    {| arg_dest := "beam_eval"; arg_kind := ArgBoolFlag; arg_default := VBool false |};
    {| arg_dest := "beam_size"; arg_kind := ArgInt; arg_default := VInt 1 |};
    {| arg_dest := "beam_length_penalty"; arg_kind := ArgFloat; arg_default := VInt 1 |};
    {| arg_dest := "beam_early_stopping"; arg_kind := ArgBoolFlag; arg_default := VBool true |};
    {| arg_dest := "reload_model"; arg_kind := ArgStr; arg_default := VStr "" |};
    {| arg_dest := "reload_checkpoint"; arg_kind := ArgStr; arg_default := VStr "" |};
    {| arg_dest := "eval_only"; arg_kind := ArgBoolFlag; arg_default := VBool false |};
    {| arg_dest := "eval_from_exp"; arg_kind := ArgStr; arg_default := VStr "" |};
    {| arg_dest := "eval_data"; arg_kind := ArgStr; arg_default := VStr "" |};
    {| arg_dest := "eval_verbose"; arg_kind := ArgInt; arg_default := VInt 0 |};
    {| arg_dest := "eval_verbose_print"; arg_kind := ArgBoolFlag; arg_default := VBool false |};
    {| arg_dest := "debug_slurm"; arg_kind := ArgBoolFlag; arg_default := VBool false |};
    {| arg_dest := "debug"; arg_kind := ArgStoreTrue; arg_default := VBool false |};
    {| arg_dest := "cpu"; arg_kind := ArgBoolFlag; arg_default := VBool false |};
    {| arg_dest := "local_rank"; arg_kind := ArgInt; arg_default := VInt (-1) |};
    {| arg_dest := "master_port"; arg_kind := ArgInt; arg_default := VInt (-1) |} ].

(** A value that the [type] of an option returns for an argument of the
    command line, or that its [action] stores. *)
Definition converted (t : arg_type) (v : value) : bool :=
  match t, v with
  | ArgStr, VStr _ => true
  | ArgInt, VInt _ => true
  | ArgFloat, VFloat _ => true
  | ArgBoolFlag, VBool _ => true
  | ArgStoreTrue, VBool _ => true
  | _, _ => false
  end.

(** What [parse_args] leaves in an attribute: the default of the option,
    or a value given on the command line and converted. *)
Definition parsed_value (a : argument) (v : value) : Prop :=
  v = arg_default a ∨ converted (arg_kind a) v = true.

(** A namespace that [parser.parse_args()] can return: every option of the
    parser is an attribute (it may hold others, the environment's). *)
Definition parsed_by (parser : list argument) (ns : namespace) : Prop :=
  ∀ a, a ∈ parser → ∃ v, ns !! arg_dest a = Some v ∧ parsed_value a v.

(** [parsed_by], computed. *)
Definition parsed_byb (parser : list argument) (ns : namespace) : bool :=
  forallb (λ a, match ns !! arg_dest a with
                | Some v => bool_decide (v = arg_default a) || converted (arg_kind a) v
                | None => false
                end) parser.

(** [parser.parse_args([])] *)
Definition parse_defaults (parser : list argument) : namespace :=
  list_to_map (map (λ a, (arg_dest a, arg_default a)) parser).

(** ** Debug mode ([__main__], lines 244-248) *)

(** The decimal digit [d]. *)
Definition digit_char (d : N) : ascii := ascii_of_N (48 + d).

(** The decimal digits of [n] before [acc], most significant first;
    [fuel] bounds their number. *)
Fixpoint decimal_go (fuel : nat) (n : N) (acc : string) : string :=
  match fuel with
  | O => acc
  | S fuel' =>
      let acc' := String (digit_char (n mod 10)) acc in
      if (n <? 10)%N then acc' else decimal_go fuel' (n / 10) acc'
  end.

(** [str(n)] for [n >= 0]; a number has no more decimal than binary
    digits. *)
Definition decimal (n : N) : string :=
  decimal_go (S (N.to_nat (N.log2 n))) n "".

Fixpoint zeros (n : nat) : string :=
  match n with
  | O => EmptyString
  | S n' => String "0"%char (zeros n')
  end.

(** Zeros before [s] up to [width] characters. *)
Definition zero_pad (width : nat) (s : string) : string :=
  String.append (zeros (width - String.length s)) s.

(** ["%08i" % z]: at least eight characters, the sign first. *)
Definition format_08i (z : Z) : string :=
  if (z <? 0)%Z then String "-"%char (zero_pad 7 (decimal (Z.to_N (- z))))
  else zero_pad 8 (decimal (Z.to_N z)).

(** The number a string of decimal digits writes, [int(s)]. *)
Definition digit_value (c : ascii) : option N :=
  if (48 <=? N_of_ascii c)%N && (N_of_ascii c <=? 57)%N
  then Some (N_of_ascii c - 48)%N else None.

Fixpoint digits_value (s : string) : option N :=
  match s with
  | EmptyString => Some 0%N
  | String c s' =>
      match digit_value c, digits_value s' with
      | Some d, Some v => Some (d * 10 ^ N.of_nat (String.length s') + v)%N
      | _, _ => None
      end
  end.

(** Lines 244-248.  [drawn_id] is what [random.randint(0, 100000000)]
    returns if it is called. *)
Definition debug_mode (drawn_id : Z) : M namespace unit :=
  debug <- getattr "debug" ;;
  if truthy debug then
    setattr "exp_name" (VStr "debug") ;;;
    exp_id <- getattr "exp_id" ;;
    (if ne_empty exp_id then ret tt
     else setattr "exp_id" (VStr (String.append "debug_" (format_08i drawn_id)))) ;;;
    setattr "debug_slurm" (VBool true)
  else ret tt.

(** Lines 206-248: reconciliation, then debug mode. *)
Definition prepare_params (fs : filesystem) (drawn_id : Z) : M namespace unit :=
  reconcile fs ;;;
  debug_mode drawn_id.

(** A command line that asks for debug mode and for an evaluation from the
    experiment of [saved_snapshot], and that snapshot with a [debug] of its
    own. *)
Definition cli_debug_params : namespace :=
  <["debug" := VBool true]> (<["debug_slurm" := VBool false]> cli_params).

Definition saved_debug_snapshot (debug : bool) : namespace :=
  <["debug" := VBool debug]> saved_snapshot.

Definition exp_files_debug (debug : bool) : filesystem :=
  {| isfile p :=
       String.eqb p "/exp/run1/params.pkl" || String.eqb p "/exp/run1/best-acc.pth";
     pickle_load p :=
       if String.eqb p "/exp/run1/params.pkl" then Ok (saved_debug_snapshot debug)
       else Raise (ExternalError "open") |}.

(** The command line [--eval_only true --eval_from_exp /exp/run1] as this
    parser reads it, and the directory of an experiment that was run with
    [--validation_metrics valid_acc] and the defaults. *)
Definition parsed_cli : namespace :=
  <["eval_only" := VBool true]>
    (<["eval_from_exp" := VStr "/exp/run1"]> (parse_defaults get_parser)).

Definition parsed_snapshot : namespace :=
  <["validation_metrics" := VStr "valid_acc"]> (parse_defaults get_parser).

Definition parsed_files : filesystem :=
  {| isfile p :=
       String.eqb p "/exp/run1/params.pkl" || String.eqb p "/exp/run1/best-valid_acc.pth";
     pickle_load p :=
       if String.eqb p "/exp/run1/params.pkl" then Ok parsed_snapshot
       else Raise (ExternalError "open") |}.

(** An experiment directory without its snapshot. *)
Definition no_files : filesystem :=
  {| isfile _ := false;
     pickle_load _ := Raise (ExternalError "open") |}.

(** A snapshot whose validation metric is [None]. *)
Definition exp_files_no_metric : filesystem :=
  {| isfile p :=
       String.eqb p "/exp/run1/params.pkl" || String.eqb p "/exp/run1/best-acc.pth";
     pickle_load p :=
       if String.eqb p "/exp/run1/params.pkl"
       then Ok (<["validation_metrics" := VNone]> saved_snapshot)
       else Raise (ExternalError "open") |}.

(** ** More ways to read a trace *)

Definition is_iter {Score} (ev : event Score) : bool :=
  match ev with CallIter => true | _ => false end.

Definition is_export_data {Score} (ev : event Score) : bool :=
  match ev with CallExportData _ => true | _ => false end.

Definition is_enc_dec_step {Score} (ev : event Score) : bool :=
  match ev with CallEncDecStep _ => true | _ => false end.

(** A unit of work, of either mode. *)
Definition is_work {Score} (ev : event Score) : bool :=
  is_export_data ev || is_enc_dec_step ev.

(** The two lines that frame an epoch. *)
Inductive epoch_mark : Type :=
| Started
| Ended.

Definition epoch_mark_kind {Score} (ev : event Score) : option epoch_mark :=
  match ev with
  | LogStartEpoch _ => Some Started
  | LogEndEpoch _ => Some Ended
  | _ => None
  end.

(** Every event that [c] emits is one of [P]. *)
Definition emits_only {Score Rng Other A} (P : event Score → Prop)
    (c : Run Score Rng Other A) : Prop :=
  ∀ p d p' r, c p = (d, p', r) → Forall P d.

(** What a successful start-up has entered in the trace. *)
Definition startup_trace {Score} (params : run_params) : list (event Score) :=
  startup_calls ++ [SetCUDA (negb (cpu params)); CallBuildEnv; CallBuildModules;
                    CallTrainer; CallEvaluator].

(** One epoch over two tasks, in export mode. *)
Definition two_tasks_export : run_params :=
  {| cpu := false; multi_gpu := false; eval_only := false; export_data := true;
     is_master := true; max_epoch := 1; tasks := ["t1"; "t2"] |}.

(** A negative number of epochs. *)
Definition two_tasks_no_epoch : run_params :=
  {| cpu := false; multi_gpu := false; eval_only := false; export_data := false;
     is_master := true; max_epoch := -3; tasks := ["t1"; "t2"] |}.

(** An evaluation on a worker, in export mode, with no task. *)
Definition eval_on_worker : run_params :=
  {| cpu := false; multi_gpu := false; eval_only := true; export_data := true;
     is_master := false; max_epoch := 0; tasks := [] |}.

(** A trainer whose bookkeeping fails. *)
Definition failing_trainer : collaborators Z nat unit :=
  {| init_distributed_mode := init_distributed_mode counting_trainer;
     initialize_exp := initialize_exp counting_trainer;
     init_signal_handler := init_signal_handler counting_trainer;
     cuda_is_available := cuda_is_available counting_trainer;
     build_env := build_env counting_trainer;
     build_modules := build_modules counting_trainer;
     new_trainer := new_trainer counting_trainer;
     new_evaluator := new_evaluator counting_trainer;
     run_all_evals := run_all_evals counting_trainer;
     trainer_export_data := trainer_export_data counting_trainer;
     trainer_enc_dec_step := trainer_enc_dec_step counting_trainer;
     trainer_iter _ := Raise (ExternalError "iter");
     trainer_save_best_model := trainer_save_best_model counting_trainer;
     trainer_save_periodic := trainer_save_periodic counting_trainer;
     trainer_end_epoch := trainer_end_epoch counting_trainer;
     np_random_permutation := np_random_permutation counting_trainer;
     formats_as_float := formats_as_float counting_trainer;
     json_encodes := json_encodes counting_trainer |}.

(** Membership, or not, in a list of names that is written out. *)
Ltac name_listed :=
  unfold excluded_fields, identity_fields, per_run_fields; cbn [app];
  repeat first [apply list_elem_of_here | apply list_elem_of_further].

Ltac name_not_listed_in Hin :=
  unfold excluded_fields, identity_fields, per_run_fields in Hin;
  cbn [app] in Hin;
  repeat (apply elem_of_cons in Hin as [?|Hin]; [done|]);
  by apply elem_of_nil in Hin.

Ltac name_not_listed :=
  let Hin := fresh "Hin" in intros Hin; name_not_listed_in Hin.

(** An option of [get_parser]. *)
Ltac option_listed :=
  unfold get_parser; repeat first [apply list_elem_of_here | apply list_elem_of_further].

(** ** Tactics *)

(** Looking an attribute up after a run of assignments. *)
Ltac lookup_inserted :=
  repeat first [rewrite lookup_insert_eq | rewrite lookup_insert_ne by done]; done.

(** Reading off the three components of a finished run. *)
Ltac run_inv H :=
  unfold emit_before, rret, rraise, out_of_fuel in H; cbn [fst snd app] in H;
  injection H as <- <- <-.

(** Membership in a list that is written out. *)
Ltac elem_listed :=
  unfold startup_calls; cbn [app];
  repeat first [apply list_elem_of_here | apply list_elem_of_further].

(** The side conditions of the classification lemmas, for a classification
    that is written out. *)
Ltac kinds_done :=
  try done;
  try (let ev := fresh "ev" in
       let Hev := fresh "Hev" in
       intros ev Hev;
       repeat (apply elem_of_cons in Hev as [->|Hev]; [done|]);
       by apply elem_of_nil in Hev).

(** * Reconciliation: what the stripping and the merge loop leave *)

Section ReconcileFacts.
Implicit Types (params pickled_args pk d : namespace) (k key : string).

Lemma Ok_inj {A} (a b : A) : Ok a = Ok b → a = b.
Proof. intros H. by inversion H. Qed.

Lemma del_if_present_lookup keys d k :
  del_if_present keys d !! k = if decide (k ∈ keys) then None else d !! k.
Proof.
  revert d; induction keys as [|key keys IH]; intros d; cbn [del_if_present].
  - by rewrite decide_False by apply not_elem_of_nil.
  - rewrite IH. destruct (decide (k ∈ keys)) as [Hin|Hout].
    + rewrite decide_True by (by right). done.
    + destruct (decide (k = key)) as [->|Hne].
      * rewrite decide_True by left.
        destruct (d !! key) eqn:E; [by rewrite lookup_delete_eq | done].
      * rewrite decide_False by (intros [?|?]%elem_of_cons; done).
        destruct (d !! key); [by rewrite lookup_delete_ne | done].
Qed.

Lemma del_item_Ok d key d' :
  del_item d key = Ok d' ↔ is_Some (d !! key) ∧ d' = delete key d.
Proof.
  unfold del_item. destruct (d !! key) eqn:E; split.
  - intros <-%Ok_inj. eauto.
  - by intros [_ ->].
  - done.
  - by intros [[? [=]] _].
Qed.

Lemma strip_snapshot_Ok pk pickled_args :
  strip_snapshot pk = Ok pickled_args ↔
    (is_Some (pk !! "exp_id") ∧ is_Some (pk !! "dump_path") ∧ is_Some (pk !! "exp_name"))
    ∧ pickled_args =
        del_if_present per_run_fields
          (delete "exp_name" (delete "dump_path" (delete "exp_id" pk))).
Proof.
  unfold strip_snapshot. split.
  - intros H.
    destruct (del_item pk "exp_id") as [d1|] eqn:E1; [|done].
    destruct (del_item d1 "dump_path") as [d2|] eqn:E2; [|done].
    destruct (del_item d2 "exp_name") as [d3|] eqn:E3; [|done].
    apply del_item_Ok in E1 as [H1 ->], E2 as [H2 ->], E3 as [H3 ->].
    rewrite lookup_delete_ne in H2 by done.
    rewrite !lookup_delete_ne in H3 by done.
    by apply Ok_inj in H as <-.
  - intros [(H1 & H2 & H3) ->].
    assert (del_item pk "exp_id" = Ok (delete "exp_id" pk)) as ->
      by by apply del_item_Ok.
    assert (del_item (delete "exp_id" pk) "dump_path"
            = Ok (delete "dump_path" (delete "exp_id" pk))) as ->.
    { apply del_item_Ok. by rewrite lookup_delete_ne. }
    assert (del_item (delete "dump_path" (delete "exp_id" pk)) "exp_name"
            = Ok (delete "exp_name" (delete "dump_path" (delete "exp_id" pk)))) as ->.
    { apply del_item_Ok. by rewrite !lookup_delete_ne. }
    done.
Qed.

(** A snapshot missing an identity field stops at the first missing one. *)
Lemma strip_snapshot_missing pk :
  ¬ (is_Some (pk !! "exp_id") ∧ is_Some (pk !! "dump_path") ∧ is_Some (pk !! "exp_name")) →
  ∃ key, key ∈ identity_fields ∧ pk !! key = None ∧ strip_snapshot pk = Raise (KeyError key).
Proof.
  intros Hmiss. unfold strip_snapshot, del_item, identity_fields.
  destruct (pk !! "exp_id") eqn:E1.
  - rewrite lookup_delete_ne by done.
    destruct (pk !! "dump_path") eqn:E2.
    + rewrite !lookup_delete_ne by done.
      destruct (pk !! "exp_name") eqn:E3.
      * destruct Hmiss; eauto.
      * exists "exp_name". repeat split; [set_solver|done].
    + exists "dump_path". repeat split; [set_solver|done].
  - exists "exp_id". repeat split; [set_solver|done].
Qed.

Lemma stripped_lookup pk pickled_args k :
  strip_snapshot pk = Ok pickled_args →
  pickled_args !! k = if decide (k ∈ excluded_fields) then None else pk !! k.
Proof.
  intros [_ ->]%strip_snapshot_Ok. rewrite del_if_present_lookup.
  unfold excluded_fields, identity_fields.
  destruct (decide (k ∈ per_run_fields)) as [Hin|Hout].
  - rewrite decide_True; [done|]. apply elem_of_app. by right.
  - destruct (decide (k = "exp_name")) as [->|?];
      [by rewrite lookup_delete_eq, decide_True by set_solver|].
    rewrite lookup_delete_ne by done.
    destruct (decide (k = "dump_path")) as [->|?];
      [by rewrite lookup_delete_eq, decide_True by set_solver|].
    rewrite lookup_delete_ne by done.
    destruct (decide (k = "exp_id")) as [->|?];
      [by rewrite lookup_delete_eq, decide_True by set_solver|].
    rewrite lookup_delete_ne by done.
    rewrite decide_False; [done|].
    intros [Hid|?]%elem_of_app; [|done].
    apply elem_of_cons in Hid as [?|Hid]; [done|].
    apply elem_of_cons in Hid as [?|Hid]; [done|].
    apply elem_of_cons in Hid as [?|Hid]; [done|].
    by apply elem_of_nil in Hid.
Qed.

Lemma merge_loop_lookup keys pickled_args params k :
  merge_loop keys pickled_args params !! k =
    match pickled_args !! k with
    | Some v => if decide (k ∈ keys) then Some v else params !! k
    | None => params !! k
    end.
Proof.
  revert params; induction keys as [|p keys IH]; intros params; cbn [merge_loop].
  - destruct (pickled_args !! k); [|done].
    by rewrite decide_False by apply not_elem_of_nil.
  - rewrite IH. destruct (pickled_args !! k) as [v|] eqn:Ek.
    + destruct (decide (k ∈ keys)) as [Hin|Hout].
      * by rewrite decide_True by (by right).
      * destruct (decide (k = p)) as [->|Hne].
        -- rewrite decide_True by left. by rewrite Ek, lookup_insert_eq.
        -- rewrite decide_False by (intros [?|?]%elem_of_cons; done).
           destruct (pickled_args !! p); [by rewrite lookup_insert_ne|done].
    + destruct (pickled_args !! p) eqn:Ep; [|done].
      rewrite lookup_insert_ne; [done|]. intros ->. congruence.
Qed.

Lemma elem_of_keys_of params k : k ∈ keys_of params ↔ is_Some (params !! k).
Proof.
  unfold keys_of. rewrite list_elem_of_fmap. split.
  - intros [[k' v] [-> Hin]]. apply elem_of_map_to_list in Hin. eauto.
  - intros [v Hv]. exists (k, v). split; [done|]. by apply elem_of_map_to_list.
Qed.

(** The merge loop, key by key. *)
Lemma merged_lookup pickled_args params k :
  merge_loop (keys_of params) pickled_args params !! k =
    match params !! k with
    | Some v => Some (default v (pickled_args !! k))
    | None => None
    end.
Proof.
  rewrite merge_loop_lookup.
  destruct (params !! k) as [v|] eqn:Ek.
  - destruct (pickled_args !! k); simpl; [|done].
    rewrite decide_True; [done|]. apply elem_of_keys_of. by rewrite Ek.
  - destruct (pickled_args !! k); [|done].
    rewrite decide_False; [done|]. rewrite elem_of_keys_of, Ek. by intros [? [=]].
Qed.
End ReconcileFacts.

(** * Reconciliation, step by step *)

Section ReconcileSteps.
Context {A : Type}.
Implicit Types (ns params : namespace) (k : M namespace A).

Lemma bind_getattr name (f : value → M namespace A) ns :
  (v <- getattr name ;; f v) ns =
    match ns !! name with
    | Some v => f v ns
    | None => (ns, Raises (AttributeError name))
    end.
Proof. unfold bind, getattr. by destruct (ns !! name). Qed.

Lemma bind_setattr name v k ns :
  (setattr name v ;;; k) ns = k (<[name := v]> ns).
Proof. done. Qed.

Lemma bind_assert c k ns :
  (assert_ c ;;; k) ns = if c then k ns else (ns, Raises AssertionError).
Proof. by destruct c. Qed.

Lemma bind_lift {B} (r : result B) (f : B → M namespace A) ns :
  (x <- lift r ;; f x) ns =
    match r with
    | Ok x => f x ns
    | Raise e => (ns, Raises e)
    end.
Proof. by destruct r. Qed.
End ReconcileSteps.

(** The test of line 206 reads two attributes and assigns none. *)
Lemma resuming_run params :
  resuming params =
    match params !! "eval_only" with
    | None => (params, Raises (AttributeError "eval_only"))
    | Some eval_only =>
        if truthy eval_only then
          match params !! "eval_from_exp" with
          | None => (params, Raises (AttributeError "eval_from_exp"))
          | Some eval_from_exp => (params, Returns (ne_empty eval_from_exp))
          end
        else (params, Returns false)
    end.
Proof.
  unfold resuming. rewrite bind_getattr.
  destruct (params !! "eval_only") as [v|]; [|done].
  destruct (truthy v); [|done].
  unfold bind, getattr, ret. by destruct (params !! "eval_from_exp").
Qed.

(** Lines 207-234 on a string-valued [eval_from_exp]. *)
Lemma merge_snapshot_run fs params dir :
  params !! "eval_from_exp" = Some (VStr dir) →
  merge_snapshot fs params =
    if isfile fs (String.append dir "/params.pkl") then
      match pickle_load fs (String.append dir "/params.pkl") with
      | Ok pk =>
          match strip_snapshot pk with
          | Ok pickled_args =>
              (merge_loop (keys_of params) pickled_args params, Returns (VStr dir))
          | Raise e => (params, Raises e)
          end
      | Raise e => (params, Raises e)
      end
    else (params, Raises AssertionError).
Proof.
  intros Hdir. unfold merge_snapshot.
  rewrite bind_getattr, Hdir. cbn [add]. rewrite bind_lift, bind_getattr, Hdir.
  rewrite bind_assert. cbn [path_isfile].
  destruct (isfile fs _); [|done].
  rewrite bind_lift. cbn [load_snapshot].
  destruct (pickle_load fs _) as [pk|e]; [|done].
  rewrite bind_lift. by destruct (strip_snapshot pk).
Qed.

(** Whatever [merge_snapshot] returns is the directory it was given. *)
Lemma merge_snapshot_returns fs params merged exp_str :
  merge_snapshot fs params = (merged, Returns exp_str) →
  ∃ dir pk pickled_args,
    exp_str = VStr dir ∧ params !! "eval_from_exp" = Some (VStr dir)
    ∧ isfile fs (String.append dir "/params.pkl") = true
    ∧ pickle_load fs (String.append dir "/params.pkl") = Ok pk
    ∧ strip_snapshot pk = Ok pickled_args
    ∧ merged = merge_loop (keys_of params) pickled_args params.
Proof.
  intros Hrun.
  destruct (params !! "eval_from_exp") as [v|] eqn:Hdir.
  - destruct v as [| | | |dir];
      try (exfalso; unfold merge_snapshot in Hrun;
           rewrite bind_getattr, Hdir in Hrun; cbn [add] in Hrun;
           rewrite bind_lift in Hrun; congruence).
    rewrite (merge_snapshot_run fs params dir Hdir) in Hrun.
    destruct (isfile fs _) eqn:Hfile; [|congruence].
    destruct (pickle_load fs _) as [pk|] eqn:Hload; [|congruence].
    destruct (strip_snapshot pk) as [pickled_args|] eqn:Hstrip; [|congruence].
    exists dir, pk, pickled_args. repeat split; congruence.
  - exfalso. unfold merge_snapshot in Hrun.
    rewrite bind_getattr, Hdir in Hrun. congruence.
Qed.

(** Lines 236-238, then 239-241, on string-valued attributes. *)
Lemma after_merge_run fs dir metric ns :
  ns !! "validation_metrics" = Some (VStr metric) →
  after_merge fs (VStr dir) ns =
    let ns2 := <["reload_model" := VStr (best_path dir metric)]>
                 (<["eval_only" := VBool true]> ns) in
    if isfile fs (best_path dir metric) then
      match ns !! "eval_data" with
      | None => (ns2, Raises (AttributeError "eval_data"))
      | Some eval_data =>
          if ne_empty eval_data then
            let ns3 := <["eval_size" := VNone]> ns2 in
            match ns !! "tasks" with
            | None => (ns3, Raises (AttributeError "tasks"))
            | Some (VStr tasks) =>
                match eval_data with
                | VStr path => (<["reload_data" := VStr (reload_spec tasks path)]> ns3, Returns tt)
                | _ => (ns3, Raises TypeError)
                end
            | Some _ => (ns3, Raises TypeError)
            end
          else (ns2, Returns tt)
      end
    else (ns2, Raises AssertionError).
Proof.
  intros Hmetric. unfold after_merge.
  rewrite bind_setattr. cbn [add].
  rewrite bind_lift, bind_getattr, lookup_insert_ne, Hmetric by done.
  cbn [add]. rewrite !bind_lift. cbn [add]. rewrite ?bind_lift, bind_setattr.
  rewrite bind_getattr, lookup_insert_eq, bind_assert. cbn [path_isfile].
  fold (best_path dir metric). cbv zeta.
  destruct (isfile fs _); [|done].
  rewrite bind_getattr, !lookup_insert_ne by done.
  destruct (ns !! "eval_data") as [eval_data|] eqn:Hdata; [|done].
  destruct (ne_empty eval_data) eqn:Hne; [|done].
  rewrite bind_setattr, bind_getattr, !lookup_insert_ne by done.
  destruct (ns !! "tasks") as [tasks|]; [|done].
  destruct tasks as [| | | |tasks]; try (cbn [add]; by rewrite bind_lift).
  cbn [add]. rewrite bind_lift, bind_getattr, !lookup_insert_ne, Hdata by done.
  destruct eval_data as [| | | |path]; try (cbn [add]; by rewrite bind_lift).
  cbn [add]. rewrite !bind_lift. cbn [add].
  rewrite bind_getattr, !lookup_insert_ne, Hdata by done.
  cbn [add]. by rewrite bind_lift.
Qed.

(** [after_merge] returns only on a string-valued metric name. *)
Lemma after_merge_returns fs dir ns ns' :
  after_merge fs (VStr dir) ns = (ns', Returns tt) →
  ∃ metric, ns !! "validation_metrics" = Some (VStr metric).
Proof.
  intros Hrun. unfold after_merge in Hrun.
  rewrite bind_setattr in Hrun. cbn [add] in Hrun.
  rewrite bind_lift, bind_getattr, lookup_insert_ne in Hrun by done.
  destruct (ns !! "validation_metrics") as [v|]; [|congruence].
  destruct v as [| | | |metric]; [| | | |by eauto];
    cbn [add] in Hrun; rewrite !bind_lift in Hrun; cbn [add] in Hrun;
    rewrite ?bind_lift in Hrun; congruence.
Qed.

(** The whole block when the test of line 206 holds. *)
Lemma reconcile_active fs params :
  resuming params = (params, Returns true) →
  reconcile fs params =
    match merge_snapshot fs params with
    | (merged, Returns exp_str) => after_merge fs exp_str merged
    | (s, Raises e) => (s, Raises e)
    | (s, OutOfFuel) => (s, OutOfFuel)
    end.
Proof. intros Hresume. unfold reconcile, bind at 1. by rewrite Hresume. Qed.

Lemma reconcile_inactive fs params :
  resuming params = (params, Returns false) →
  reconcile fs params = (params, Returns tt).
Proof. intros Hresume. unfold reconcile, bind at 1. by rewrite Hresume. Qed.

(** A run is its final state and its outcome; the test of line 206 leaves the state. *)
Lemma run_eq {S A} (x : S * outcome A) (r : outcome A) : x.2 = r → x = (x.1, r).
Proof. destruct x as [s r']. cbn. by intros ->. Qed.

Lemma resuming_eq params b :
  (resuming params).2 = Returns b → resuming params = (params, Returns b).
Proof.
  rewrite resuming_run.
  destruct (params !! "eval_only") as [v|]; cbn; [|by intros ->].
  destruct (truthy v); cbn; [|by intros ->].
  destruct (params !! "eval_from_exp"); cbn; by intros ->.
Qed.

Lemma after_merge_frame fs dir ns ns' k :
  after_merge fs (VStr dir) ns = (ns', Returns tt) →
  k ∉ ["eval_only"; "reload_model"; "eval_size"; "reload_data"] →
  ns' !! k = ns !! k.
Proof.
  intros Hrun Hk.
  destruct (after_merge_returns _ _ _ _ Hrun) as [metric Hmetric].
  rewrite (after_merge_run fs dir metric ns Hmetric) in Hrun. cbv zeta in Hrun.
  assert (k ≠ "eval_only" ∧ k ≠ "reload_model" ∧ k ≠ "eval_size" ∧ k ≠ "reload_data")
    as (? & ? & ? & ?).
  { repeat split; intros ->; apply Hk; repeat constructor. }
  destruct (isfile fs _); [|congruence].
  destruct (ns !! "eval_data") as [eval_data|]; [|congruence].
  destruct (ne_empty eval_data).
  - destruct (ns !! "tasks") as [[| | | |tasks]|]; try congruence.
    destruct eval_data as [| | | |path]; try congruence.
    assert (ns' = <["reload_data":=VStr (reload_spec tasks path)]>
                    (<["eval_size":=VNone]>
                       (<["reload_model":=VStr (best_path dir metric)]>
                          (<["eval_only":=VBool true]> ns)))) as -> by congruence.
    by rewrite !lookup_insert_ne.
  - assert (ns' = <["reload_model":=VStr (best_path dir metric)]>
                    (<["eval_only":=VBool true]> ns)) as -> by congruence.
    by rewrite !lookup_insert_ne.
Qed.

Lemma excluded_not_assigned k :
  k ∈ excluded_fields → k ∉ ["eval_only"; "reload_model"; "eval_size"; "reload_data"].
Proof.
  intros Hin Hk. revert Hin. unfold excluded_fields, identity_fields, per_run_fields.
  repeat (apply elem_of_cons in Hk as [->|Hk];
          [intros Hin; cbn [app] in Hin;
           repeat (apply elem_of_cons in Hin as [?|Hin]; [done|]);
           by apply elem_of_nil in Hin|]).
  by apply elem_of_nil in Hk.
Qed.

(** The merge loop leaves the excluded fields to the current configuration. *)
Lemma merge_keeps_excluded fs params merged exp_str k :
  merge_snapshot fs params = (merged, Returns exp_str) →
  k ∈ excluded_fields → merged !! k = params !! k.
Proof.
  intros Hmerge Hk.
  destruct (merge_snapshot_returns _ _ _ _ Hmerge)
    as (dir & pk & pickled_args & _ & _ & _ & _ & Hstrip & ->).
  rewrite merged_lookup, (stripped_lookup _ _ _ Hstrip).
  rewrite decide_True by done. by destruct (params !! k).
Qed.

(** C3.  Once the merge loop (lines 206-234) has run, every excluded field
    (exp_id, dump_path, exp_name and the eleven per-run fields) still holds
    the value of the current configuration, and every other field that both
    the current configuration and the snapshot have holds the snapshot's
    value.  The excluded fields keep the current value to the end of
    reconciliation as well. *)
Theorem merge_keeps_excluded_and_takes_shared fs params merged exp_str :
  resuming params = (params, Returns true) →
  merge_snapshot fs params = (merged, Returns exp_str) →
  ∃ dir pk,
    exp_str = VStr dir
    ∧ pickle_load fs (String.append dir "/params.pkl") = Ok pk
    ∧ (∀ k, k ∈ excluded_fields → merged !! k = params !! k)
    ∧ (∀ k v, k ∉ excluded_fields → is_Some (params !! k) → pk !! k = Some v →
              merged !! k = Some v)
    ∧ (∀ params', reconcile fs params = (params', Returns tt) →
                  ∀ k, k ∈ excluded_fields → params' !! k = params !! k).
Proof.
  intros Hresume Hmerge.
  pose proof (λ k, merge_keeps_excluded fs params merged exp_str k Hmerge) as Hkeep.
  destruct (merge_snapshot_returns _ _ _ _ Hmerge)
    as (dir & pk & pickled_args & -> & Hdir & Hfile & Hload & Hstrip & ->).
  exists dir, pk. split; [done|]. split; [done|]. split; [done|]. split.
  - intros k v Hk [w Hw] Hv.
    rewrite merged_lookup, (stripped_lookup _ _ _ Hstrip), Hw.
    rewrite decide_False by done. by rewrite Hv.
  - intros params' Hrun k Hk.
    rewrite (reconcile_active _ _ Hresume), Hmerge in Hrun.
    rewrite (after_merge_frame _ _ _ _ k Hrun (excluded_not_assigned k Hk)).
    by apply Hkeep.
Qed.

Lemma merge_keeps_excluded_and_takes_shared_witness :
  ∃ dir pk,
    VStr "/exp/run1" = VStr dir
    ∧ pickle_load exp_files (String.append dir "/params.pkl") = Ok pk
    ∧ (∀ k, k ∈ excluded_fields →
            (merge_snapshot exp_files cli_params).1 !! k = cli_params !! k)
    ∧ (∀ k v, k ∉ excluded_fields → is_Some (cli_params !! k) → pk !! k = Some v →
              (merge_snapshot exp_files cli_params).1 !! k = Some v)
    ∧ (∀ params', reconcile exp_files cli_params = (params', Returns tt) →
                  ∀ k, k ∈ excluded_fields → params' !! k = cli_params !! k).
Proof.
  apply (merge_keeps_excluded_and_takes_shared exp_files cli_params
           (merge_snapshot exp_files cli_params).1 (VStr "/exp/run1")).
  - apply resuming_eq. vm_compute. reflexivity.
  - apply run_eq. vm_compute. reflexivity.
Defined.

(** C4.  When resuming from an earlier experiment, a reconciliation that
    returns has set eval_only to True and reload_model to
    <eval_from_exp>/best-<validation_metrics>.pth, with the directory the
    current configuration names and the metric name of the merged
    configuration, and that file exists; when the file does not exist,
    reconciliation raises an AssertionError. *)
Theorem reload_model_is_best_checkpoint fs params merged exp_str :
  resuming params = (params, Returns true) →
  merge_snapshot fs params = (merged, Returns exp_str) →
  ∃ dir,
    exp_str = VStr dir
    ∧ params !! "eval_from_exp" = Some (VStr dir)
    ∧ (∀ params', reconcile fs params = (params', Returns tt) →
         ∃ metric,
           merged !! "validation_metrics" = Some (VStr metric)
           ∧ params' !! "eval_only" = Some (VBool true)
           ∧ params' !! "reload_model" = Some (VStr (best_path dir metric))
           ∧ isfile fs (best_path dir metric) = true)
    ∧ (∀ metric, merged !! "validation_metrics" = Some (VStr metric) →
         isfile fs (best_path dir metric) = false →
         ∃ s, reconcile fs params = (s, Raises AssertionError)
              ∧ s !! "eval_only" = Some (VBool true)
              ∧ s !! "reload_model" = Some (VStr (best_path dir metric))).
Proof.
  intros Hresume Hmerge.
  destruct (merge_snapshot_returns _ _ _ _ Hmerge)
    as (dir & pk & pickled_args & -> & Hdir & _ & _ & _ & Hmerged).
  exists dir. split; [done|]. split; [done|].
  rewrite (reconcile_active _ _ Hresume), Hmerge. split.
  - intros params' Hrun.
    destruct (after_merge_returns _ _ _ _ Hrun) as [metric Hmetric].
    exists metric. split; [done|].
    rewrite (after_merge_run fs dir metric merged Hmetric) in Hrun. cbv zeta in Hrun.
    destruct (isfile fs (best_path dir metric)); [|congruence].
    destruct (merged !! "eval_data") as [eval_data|]; [|congruence].
    destruct (ne_empty eval_data).
    + destruct (merged !! "tasks") as [[| | | |tasks]|]; try congruence.
      destruct eval_data as [| | | |path]; try congruence.
      assert (params' = <["reload_data":=VStr (reload_spec tasks path)]>
                          (<["eval_size":=VNone]>
                             (<["reload_model":=VStr (best_path dir metric)]>
                                (<["eval_only":=VBool true]> merged)))) as -> by congruence.
      repeat split; lookup_inserted.
    + assert (params' = <["reload_model":=VStr (best_path dir metric)]>
                          (<["eval_only":=VBool true]> merged)) as -> by congruence.
      repeat split; lookup_inserted.
  - intros metric Hmetric Hfile.
    rewrite (after_merge_run fs dir metric merged Hmetric). cbv zeta. rewrite Hfile.
    eexists. repeat split; lookup_inserted.
Qed.

Lemma reload_model_is_best_checkpoint_witness :
  best_path "/exp/run1" "acc" = "/exp/run1/best-acc.pth"
  ∧ (∃ metric,
       (merge_snapshot exp_files cli_params).1 !! "validation_metrics" = Some (VStr metric)
       ∧ (reconcile exp_files cli_params).1 !! "eval_only" = Some (VBool true)
       ∧ (reconcile exp_files cli_params).1 !! "reload_model"
         = Some (VStr (best_path "/exp/run1" metric))
       ∧ isfile exp_files (best_path "/exp/run1" metric) = true)
  ∧ (∃ s, reconcile exp_files_no_best cli_params = (s, Raises AssertionError)
          ∧ s !! "eval_only" = Some (VBool true)
          ∧ s !! "reload_model" = Some (VStr (best_path "/exp/run1" "acc"))).
Proof.
  split; [reflexivity|]. split.
  - assert (resuming cli_params = (cli_params, Returns true)) as Hresume
      by (apply resuming_eq; vm_compute; reflexivity).
    assert (merge_snapshot exp_files cli_params
            = ((merge_snapshot exp_files cli_params).1, Returns (VStr "/exp/run1")))
      as Hmerge by (apply run_eq; vm_compute; reflexivity).
    destruct (reload_model_is_best_checkpoint exp_files cli_params _ _ Hresume Hmerge)
      as (dir & Hdir & _ & Hreturns & _).
    injection Hdir as <-.
    apply Hreturns. apply run_eq. vm_compute. reflexivity.
  - assert (resuming cli_params = (cli_params, Returns true)) as Hresume
      by (apply resuming_eq; vm_compute; reflexivity).
    assert (merge_snapshot exp_files_no_best cli_params
            = ((merge_snapshot exp_files_no_best cli_params).1, Returns (VStr "/exp/run1")))
      as Hmerge by (apply run_eq; vm_compute; reflexivity).
    destruct (reload_model_is_best_checkpoint exp_files_no_best cli_params _ _ Hresume Hmerge)
      as (dir & Hdir & _ & _ & Hfails).
    injection Hdir as <-.
    apply Hfails; vm_compute; reflexivity.
Defined.

(** C9.  When the test of line 206 holds and the snapshot is loaded, reconciliation returns
    only if the snapshot has exp_id, dump_path and exp_name; a snapshot
    without one of them raises a KeyError for it and leaves the current
    configuration as it was; a snapshot with the three is stripped and
    merged whichever per-run fields it has. *)
Theorem identity_fields_required fs params dir pk :
  resuming params = (params, Returns true) →
  params !! "eval_from_exp" = Some (VStr dir) →
  isfile fs (String.append dir "/params.pkl") = true →
  pickle_load fs (String.append dir "/params.pkl") = Ok pk →
  (∀ params', reconcile fs params = (params', Returns tt) →
     Forall (λ key, is_Some (pk !! key)) identity_fields)
  ∧ (¬ Forall (λ key, is_Some (pk !! key)) identity_fields →
     ∃ key, key ∈ identity_fields ∧ pk !! key = None
            ∧ reconcile fs params = (params, Raises (KeyError key)))
  ∧ (Forall (λ key, is_Some (pk !! key)) identity_fields →
     ∃ pickled_args,
       strip_snapshot pk = Ok pickled_args
       ∧ (∀ key, key ∈ per_run_fields → pickled_args !! key = None)
       ∧ merge_snapshot fs params
           = (merge_loop (keys_of params) pickled_args params, Returns (VStr dir))).
Proof.
  intros Hresume Hdir Hfile Hload.
  assert (Forall (λ key, is_Some (pk !! key)) identity_fields ↔
          is_Some (pk !! "exp_id") ∧ is_Some (pk !! "dump_path")
          ∧ is_Some (pk !! "exp_name")) as Hall.
  { unfold identity_fields. rewrite !Forall_cons. rewrite Forall_nil. tauto. }
  pose proof (merge_snapshot_run fs params dir Hdir) as Hrun.
  rewrite Hfile, Hload in Hrun.
  repeat split.
  - intros params' Hret. apply Hall.
    rewrite (reconcile_active _ _ Hresume), Hrun in Hret.
    destruct (strip_snapshot pk) as [pickled_args|e] eqn:Hstrip; [|congruence].
    by apply strip_snapshot_Ok in Hstrip as [? _].
  - intros Hmiss. rewrite Hall in Hmiss.
    destruct (strip_snapshot_missing pk Hmiss) as (key & Hkey & Hnone & Hstrip).
    exists key. split; [done|]. split; [done|].
    by rewrite (reconcile_active _ _ Hresume), Hrun, Hstrip.
  - intros Hpresent%Hall.
    destruct (strip_snapshot pk) as [pickled_args|e] eqn:Hstrip.
    + exists pickled_args. split; [done|]. split; [|done].
      intros key Hkey. rewrite (stripped_lookup _ _ _ Hstrip).
      rewrite decide_True; [done|]. apply elem_of_app. by right.
    + assert (strip_snapshot pk =
              Ok (del_if_present per_run_fields
                    (delete "exp_name" (delete "dump_path" (delete "exp_id" pk)))))
        as Hok by by apply strip_snapshot_Ok.
      congruence.
Qed.

Lemma identity_fields_required_witness :
  (∃ key, key ∈ identity_fields ∧ delete "exp_name" saved_snapshot !! key = None
          ∧ reconcile exp_files_no_name cli_params = (cli_params, Raises (KeyError key)))
  ∧ (∃ pickled_args,
       strip_snapshot saved_snapshot = Ok pickled_args
       ∧ (∀ key, key ∈ per_run_fields → pickled_args !! key = None)
       ∧ merge_snapshot exp_files cli_params
           = (merge_loop (keys_of cli_params) pickled_args cli_params,
              Returns (VStr "/exp/run1"))).
Proof.
  split.
  - apply (identity_fields_required exp_files_no_name cli_params "/exp/run1"
             (delete "exp_name" saved_snapshot));
      [apply resuming_eq; vm_compute; reflexivity | reflexivity .. |].
    intros Hall. apply Forall_cons in Hall as [_ Hall].
    apply Forall_cons in Hall as [_ Hall]. apply Forall_cons in Hall as [[v Hv] _].
    vm_compute in Hv. discriminate Hv.
  - apply (identity_fields_required exp_files cli_params "/exp/run1" saved_snapshot);
      [apply resuming_eq; vm_compute; reflexivity | reflexivity .. |].
    repeat apply Forall_cons_2; [vm_compute; eauto .. | apply Forall_nil_2].
Defined.

(** * The reload-data string that line 241 writes *)

Lemma append_cons c (a b : string) : String c a +:+ b = String c (a +:+ b).
Proof. done. Qed.

Lemma append_empty (b : string) : "" +:+ b = b.
Proof. done. Qed.

Lemma append_assoc (a b c : string) : (a +:+ b) +:+ c = a +:+ (b +:+ c).
Proof.
  induction a as [|x a IH]; [done|]. by rewrite !append_cons, IH.
Qed.

Lemma split_on_absent sep s : occurs sep s = false → split_on sep s = [s].
Proof.
  induction s as [|c s IH]; simpl; [done|].
  intros [Hc Hs]%orb_false_elim. rewrite Hc, (IH Hs). done.
Qed.

Lemma split_on_app sep a b :
  occurs sep a = false →
  split_on sep (a +:+ String sep b) = a :: split_on sep b.
Proof.
  induction a as [|c a IH].
  - intros _. rewrite append_empty. simpl. by rewrite Ascii.eqb_refl.
  - intros [Hc Ha]%orb_false_elim. rewrite append_cons. simpl.
    by rewrite Hc, (IH Ha).
Qed.

Lemma occurs_app c a b : occurs c (a +:+ b) = occurs c a || occurs c b.
Proof.
  induction a as [|x a IH]; [done|].
  rewrite append_cons. simpl. by rewrite IH, orb_assoc.
Qed.

Lemma reload_spec_fields tasks path :
  occurs "," tasks = false → occurs "," path = false →
  split_on "," (reload_spec tasks path) = [tasks; path; path].
Proof.
  intros Ht Hp. unfold reload_spec. rewrite !append_assoc.
  rewrite !append_cons, !append_empty.
  rewrite (split_on_app "," tasks _ Ht), (split_on_app "," path _ Hp).
  by rewrite (split_on_absent "," path Hp).
Qed.

Lemma reload_spec_entry tasks path :
  occurs "," tasks = false → occurs "," path = false →
  occurs ";" tasks = false → occurs ";" path = false →
  parse_reload_data (reload_spec tasks path)
  = Some [{| re_task := tasks; re_train := path; re_valid := path; re_tests := [] |}].
Proof.
  intros Ht Hp Ht' Hp'. unfold parse_reload_data.
  rewrite split_on_absent.
  - rewrite filter_cons_True, filter_nil.
    + simpl. unfold parse_reload_entry. by rewrite reload_spec_fields.
    + unfold reload_spec. rewrite !append_assoc. by destruct tasks.
  - unfold reload_spec. rewrite !occurs_app, Ht', Hp'. done.
Qed.

(** C5, as the code has it.  When an evaluation-data path is supplied and
    reconciliation returns, eval_size is None and reload_data is the merged
    tasks string followed by the supplied path twice, separated by commas.
    When neither the tasks string nor the path holds a comma or a
    semicolon (one task name, one plain path), this reads, as an entry
    task,train,valid,tests..., as one entry of that task whose train and
    valid splits are the supplied path and which lists no test path. *)
Theorem eval_data_rewrites_reload_data fs params merged exp_str params' eval_data :
  resuming params = (params, Returns true) →
  merge_snapshot fs params = (merged, Returns exp_str) →
  params !! "eval_data" = Some eval_data →
  ne_empty eval_data = true →
  reconcile fs params = (params', Returns tt) →
  ∃ tasks path,
    eval_data = VStr path
    ∧ merged !! "tasks" = Some (VStr tasks)
    ∧ params' !! "eval_size" = Some VNone
    ∧ params' !! "reload_data" = Some (VStr (reload_spec tasks path))
    ∧ (occurs "," tasks = false → occurs "," path = false →
       occurs ";" tasks = false → occurs ";" path = false →
       ∃ e, parse_reload_data (reload_spec tasks path) = Some [e]
            ∧ re_task e = tasks ∧ train_valid_at path e = true).
Proof.
  intros Hresume Hmerge Hdata Hne Hrun.
  assert (merged !! "eval_data" = Some eval_data) as Hdata'.
  { rewrite (merge_keeps_excluded _ _ _ _ "eval_data" Hmerge); [done|].
    unfold excluded_fields, identity_fields, per_run_fields.
    cbn [app]. do 3 apply list_elem_of_further. apply list_elem_of_here. }
  destruct (merge_snapshot_returns _ _ _ _ Hmerge)
    as (dir & _ & _ & -> & _ & _ & _ & _ & _).
  rewrite (reconcile_active _ _ Hresume), Hmerge in Hrun.
  destruct (after_merge_returns _ _ _ _ Hrun) as [metric Hmetric].
  rewrite (after_merge_run fs dir metric merged Hmetric) in Hrun. cbv zeta in Hrun.
  destruct (isfile fs (best_path dir metric)); [|congruence].
  rewrite Hdata', Hne in Hrun.
  destruct (merged !! "tasks") as [[| | | |tasks]|]; try congruence.
  destruct eval_data as [| | | |path]; try congruence.
  assert (params' = <["reload_data":=VStr (reload_spec tasks path)]>
                      (<["eval_size":=VNone]>
                         (<["reload_model":=VStr (best_path dir metric)]>
                            (<["eval_only":=VBool true]> merged)))) as -> by congruence.
  exists tasks, path. repeat split; try lookup_inserted.
  intros Ht Hp Ht' Hp'. eexists. split; [by apply reload_spec_entry|].
  split; [done|]. unfold train_valid_at. simpl. by rewrite String.eqb_refl.
Qed.

Lemma eval_data_rewrites_reload_data_witness :
  (reconcile exp_files cli_params).1 !! "eval_size" = Some VNone
  ∧ (reconcile exp_files cli_params).1 !! "reload_data"
    = Some (VStr (reload_spec "ode_lyapunov" "/data/new"))
  ∧ ∃ e, parse_reload_data (reload_spec "ode_lyapunov" "/data/new") = Some [e]
         ∧ re_task e = "ode_lyapunov" ∧ train_valid_at "/data/new" e = true.
Proof.
  destruct (eval_data_rewrites_reload_data exp_files cli_params
              (merge_snapshot exp_files cli_params).1 (VStr "/exp/run1")
              (reconcile exp_files cli_params).1 (VStr "/data/new"))
    as (tasks & path & Hpath & Htasks & Hsize & Hdata & Hread).
  - apply resuming_eq. vm_compute. reflexivity.
  - apply run_eq. vm_compute. reflexivity.
  - reflexivity.
  - reflexivity.
  - apply run_eq. vm_compute. reflexivity.
  - injection Hpath as <-.
    assert ((merge_snapshot exp_files cli_params).1 !! "tasks"
            = Some (VStr "ode_lyapunov")) as Hmerged by (vm_compute; reflexivity).
    rewrite Hmerged in Htasks. injection Htasks as <-.
    split; [exact Hsize|]. split; [exact Hdata|].
    apply Hread; reflexivity.
Defined.

(** C5 as stated fails: with eval_data supplied, the rewritten reload-data
    string names the supplied path for train and valid only, so its entry
    has no test split that reads it. *)
Lemma reload_data_lists_no_test_path :
  ∃ params',
    reconcile exp_files cli_params = (params', Returns tt)
    ∧ cli_params !! "eval_data" = Some (VStr "/data/new")
    ∧ params' !! "eval_size" = Some VNone
    ∧ params' !! "reload_data" = Some (VStr "ode_lyapunov,/data/new,/data/new")
    ∧ ¬ every_split_reloads_from params' "/data/new".
Proof.
  exists (reconcile exp_files cli_params).1.
  split; [apply run_eq; vm_compute; reflexivity|]. split; [reflexivity|].
  split; [vm_compute; reflexivity|].
  assert ((reconcile exp_files cli_params).1 !! "reload_data"
          = Some (VStr "ode_lyapunov,/data/new,/data/new")) as Hspec
    by (vm_compute; reflexivity).
  split; [done|].
  intros (s & entries & Hs & Hparse & _ & Hall).
  rewrite Hspec in Hs. apply (inj Some) in Hs.
  assert (s = "ode_lyapunov,/data/new,/data/new") as -> by congruence.
  vm_compute in Hparse. apply (inj Some) in Hparse. subst entries.
  apply Forall_cons in Hall as [Hall _]. vm_compute in Hall. discriminate Hall.
Qed.
Local Close Scope py_scope.
Local Open Scope run_scope.

(** * Running [main], step by step *)

Section RunSteps.
Context {Score Rng Other : Type}.
Implicit Types (p : process Rng Other) (ev : event Score).

Lemma emit_before_nil {A} (x : list (event Score) * process Rng Other * outcome A) :
  emit_before [] x = x.
Proof. by destruct x as [[??]?]. Qed.

Lemma emit_before_app {A} d1 d2
    (x : list (event Score) * process Rng Other * outcome A) :
  emit_before d1 (emit_before d2 x) = emit_before (d1 ++ d2) x.
Proof. unfold emit_before. simpl. by rewrite app_assoc. Qed.

Lemma rbind_run {A B} (c : Run Score Rng Other B) (f : B → Run Score Rng Other A) p :
  (x <- c ;; f x) p =
    match c p with
    | (d, p', Returns a) => emit_before d (f a p')
    | (d, p', Raises e) => (d, p', Raises e)
    | (d, p', OutOfFuel) => (d, p', OutOfFuel)
    end.
Proof.
  unfold rbind, emit_before. destruct (c p) as [[d p'] [a|e|]]; [|done..].
  by destruct (f a p') as [[??]?].
Qed.

Lemma rbind_log {A} ev (k : Run Score Rng Other A) p :
  (log ev ;;; k) p = emit_before [ev] (k p).
Proof. by rewrite rbind_run. Qed.

Lemma rbind_read {A B} (g : process Rng Other → B) (f : B → Run Score Rng Other A) p :
  (x <- read g ;; f x) p = f (g p) p.
Proof. rewrite rbind_run. unfold read. by rewrite emit_before_nil. Qed.

Lemma rbind_assign {A} g (k : Run Score Rng Other A) p : (assign g ;;; k) p = k (g p).
Proof. rewrite rbind_run. unfold assign. by rewrite emit_before_nil. Qed.

Lemma rbind_rret {A B} (b : B) (f : B → Run Score Rng Other A) p :
  (x <- rret b ;; f x) p = f b p.
Proof. rewrite rbind_run. unfold rret. by rewrite emit_before_nil. Qed.

Lemma rbind_call {A} ev g (k : Run Score Rng Other A) p :
  (call ev g ;;; k) p =
    match g p with
    | Ok p' => emit_before [ev] (k p')
    | Raise e => ([ev], p, Raises e)
    end.
Proof. rewrite rbind_run. unfold call. by destruct (g p). Qed.

Lemma rbind_call_ret {A B} ev (g : process Rng Other → result (B * process Rng Other))
    (f : B → Run Score Rng Other A) p :
  (x <- call_ret ev g ;; f x) p =
    match g p with
    | Ok (b, p') => emit_before [ev] (f b p')
    | Raise e => ([ev], p, Raises e)
    end.
Proof. rewrite rbind_run. unfold call_ret. by destruct (g p) as [[??]|]. Qed.

Lemma rbind_rassert {A} c (k : Run Score Rng Other A) p :
  (rassert c ;;; k) p = if c then k p else ([], p, Raises AssertionError).
Proof.
  rewrite rbind_run. unfold rassert, rret, rraise.
  destruct c; [by rewrite emit_before_nil|done].
Qed.

Lemma rbind_assoc {A B D} (c : Run Score Rng Other B) (f : B → Run Score Rng Other D)
    (g : D → Run Score Rng Other A) p :
  (y <- (x <- c ;; f x) ;; g y) p = (x <- c ;; y <- f x ;; g y) p.
Proof.
  rewrite (rbind_run (rbind c f) g), (rbind_run c f), (rbind_run c).
  destruct (c p) as [[d1 p1] [b|e|]]; [|done..].
  rewrite rbind_run. destruct (f b p1) as [[d2 p2] [y|e|]]; cbn; [|done..].
  by rewrite emit_before_app.
Qed.
End RunSteps.

(** * The inner loops *)

Section InnerLoops.
Context {Score Rng Other : Type}.
Variable C : collaborators Score Rng Other.
Variable params : run_params.
Implicit Types (p : process Rng Other) (order : list nat) (d : list (event Score)).

Lemma tasks_of_cons_Some task_id order task :
  tasks params !! task_id = Some task →
  tasks_of params (task_id :: order) = task :: tasks_of params order.
Proof. intros H. unfold tasks_of. simpl. by rewrite H. Qed.

Lemma for_task_ids_cons task_id order p :
  for_task_ids C params (task_id :: order) p =
    match tasks params !! task_id with
    | None => ([], p, Raises IndexError)
    | Some task =>
        match work_call C params task p with
        | Raise e => ([work_event params task], p, Raises e)
        | Ok p1 =>
            match trainer_iter C p1 with
            | Raise e => ([work_event params task; CallIter], p1, Raises e)
            | Ok p2 =>
                emit_before [work_event params task; CallIter]
                  (for_task_ids C params order p2)
            end
        end
    end.
Proof.
  cbn [for_task_ids]. unfold task_at, work_call, work_event.
  destruct (tasks params !! task_id) as [task|]; [|done].
  rewrite rbind_rret.
  destruct (export_data params); rewrite rbind_call.
  - destruct (trainer_export_data C task p) as [p1|e]; [|done].
    rewrite rbind_call. destruct (trainer_iter C p1) as [p2|e]; [|done].
    by rewrite emit_before_app.
  - destruct (trainer_enc_dec_step C task p) as [p1|e]; [|done].
    rewrite rbind_call. destruct (trainer_iter C p1) as [p2|e]; [|done].
    by rewrite emit_before_app.
Qed.

(** What the [for] over the drawn task ids emits: for each id in turn the
    unit of work of its task, then the bookkeeping call; all of them when
    it returns, a first part of them when a call raises. *)
Lemma for_task_ids_trace order p d p' r :
  for_task_ids C params order p = (d, p', r) →
  d `prefix_of` work_and_iter params (tasks_of params order)
  ∧ r ≠ OutOfFuel
  ∧ (r = Returns tt →
     d = work_and_iter params (tasks_of params order)
     ∧ length (tasks_of params order) = length order).
Proof.
  revert p d p' r. induction order as [|task_id order IH]; intros p d p' r Hrun.
  - cbn [for_task_ids] in Hrun. run_inv Hrun.
    done.
  - rewrite for_task_ids_cons in Hrun.
    destruct (tasks params !! task_id) as [task|] eqn:Htask.
    + rewrite (tasks_of_cons_Some _ _ _ Htask). cbn [work_and_iter flat_map app].
      destruct (work_call C params task p) as [p1|e].
      * destruct (trainer_iter C p1) as [p2|e].
        -- destruct (for_task_ids C params order p2) as [[d2 p3] r2] eqn:Hrest.
           destruct (IH _ _ _ _ Hrest) as (Hpre & Hfuel & Hret).
           run_inv Hrun.
           split; [by do 2 apply prefix_cons|]. split; [done|].
           intros Hr. destruct (Hret Hr) as [-> Hlen]. split; [done|].
           cbn [length]. by rewrite Hlen.
        -- run_inv Hrun.
           split; [|done]. do 2 apply prefix_cons. apply prefix_nil.
      * run_inv Hrun.
        split; [|done]. apply prefix_cons. apply prefix_nil.
    + run_inv Hrun.
      split; [apply prefix_nil|done].
Qed.

(** One inner step draws, then works through what it drew. *)
Lemma inner_step_run p :
  inner_step C params p =
    emit_before
      [CallPermutation (length (tasks params))
         (np_random_permutation C (length (tasks params)) (np_random_state p)).1]
      (for_task_ids C params
         (np_random_permutation C (length (tasks params)) (np_random_state p)).1
         (set_np_random_state
            (np_random_permutation C (length (tasks params)) (np_random_state p)).2 p)).
Proof.
  unfold inner_step. rewrite rbind_run. unfold permutation.
  by destruct (np_random_permutation C _ _) as [order g].
Qed.

Lemma inner_step_trace p d p' r :
  inner_step C params p = (d, p', r) →
  ∃ order,
    drawn C params order
    ∧ d `prefix_of` step_block params order
    ∧ d ≠ []
    ∧ r ≠ OutOfFuel
    ∧ (r = Returns tt →
       d = step_block params order
       ∧ length (tasks_of params order) = length order).
Proof.
  rewrite inner_step_run. intros Hrun.
  set (order := (np_random_permutation C _ _).1) in Hrun.
  destruct (for_task_ids C params order _) as [[d2 p2] r2] eqn:Hfor.
  destruct (for_task_ids_trace _ _ _ _ _ Hfor) as (Hpre & Hfuel & Hret).
  run_inv Hrun.
  exists order. split; [by eexists|]. split; [by apply prefix_cons|].
  split; [done|]. split; [done|].
  intros Hr. destruct (Hret Hr) as [-> Hlen]. done.
Qed.

Lemma while_loop_unfold fuel p :
  while_loop C params fuel p =
    if Z.ltb (trainer_n_equations p) (trainer_epoch_size p) then
      match fuel with
      | O => ([], p, OutOfFuel)
      | S fuel' => (inner_step C params ;;; while_loop C params fuel') p
      end
    else ([], p, Returns tt).
Proof.
  destruct fuel; cbn [while_loop]; rewrite !rbind_read;
    by destruct (Z.ltb _ _).
Qed.

(** The trace of the [while] loop is a run of whole inner steps, each with
    a draw of its own, followed, when a call raised, by the first part of
    one more.  The loop returns only with the counter at the epoch size or
    beyond, and runs out of fuel only with the counter still below it. *)
Lemma while_loop_trace fuel p d p' r :
  while_loop C params fuel p = (d, p', r) →
  ∃ orders rest,
    d = concat (map (step_block params) orders) ++ rest
    ∧ Forall (drawn C params) orders
    ∧ Forall (λ order, length (tasks_of params order) = length order) orders
    ∧ (length orders ≤ fuel)%nat
    ∧ match r with
      | Returns _ =>
          rest = [] ∧ (trainer_epoch_size p' ≤ trainer_n_equations p')%Z
      | OutOfFuel =>
          rest = [] ∧ length orders = fuel
          ∧ (trainer_n_equations p' < trainer_epoch_size p')%Z
      | Raises _ =>
          rest ≠ [] ∧ ∃ order, drawn C params order ∧ rest `prefix_of` step_block params order
      end.
Proof.
  revert p d p' r. induction fuel as [|fuel IH]; intros p d p' r;
    rewrite while_loop_unfold;
    destruct (Z.ltb_spec (trainer_n_equations p) (trainer_epoch_size p)) as [Hlt|Hge];
    intros Hrun.
  - run_inv Hrun.
    exists [], []. repeat split; try done; cbn; lia.
  - run_inv Hrun.
    exists [], []. repeat split; try done; cbn; lia.
  - rewrite rbind_run in Hrun.
    destruct (inner_step C params p) as [[d1 p1] r1] eqn:Hstep.
    destruct (inner_step_trace _ _ _ _ Hstep) as (order & Hdrawn & Hpre & Hne & Hfuel & Hret).
    destruct r1 as [[]|e|]; [| |done].
    + destruct (Hret eq_refl) as [-> Hlen].
      destruct (while_loop C params fuel p1) as [[d2 p2] r2] eqn:Hloop.
      destruct (IH _ _ _ _ Hloop) as (orders & rest & -> & Hdr & Hlens & Hbound & Hr).
      run_inv Hrun.
      exists (order :: orders), rest. cbn [map concat length].
      split; [by rewrite app_assoc|]. split; [by constructor|].
      split; [by constructor|]. split; [lia|].
      destruct r2 as [[]|e|]; [done|done|].
      destruct Hr as (? & ? & ?). repeat split; [done|lia|done].
    + run_inv Hrun.
      exists [], d1. repeat split; try done; [cbn; lia|by eauto].
  - run_inv Hrun.
    exists [], []. repeat split; try done; cbn; lia.
Qed.
End InnerLoops.

(** * The counter across the inner loops *)

Section Counter.
Context {Score Rng Other : Type}.
Variable C : collaborators Score Rng Other.
Variable params : run_params.
Implicit Types (p : process Rng Other) (order : list nat) (d : list (event Score)).

(** A relation between process states that every call of the trainer in
    the inner loop respects, and that does not look at the generator. *)
Variable R : process Rng Other → process Rng Other → Prop.
Hypothesis R_refl : ∀ p, R p p.
Hypothesis R_trans : ∀ p1 p2 p3, R p1 p2 → R p2 p3 → R p1 p3.
Hypothesis R_draw : ∀ g p, R p (set_np_random_state g p).
Hypothesis R_iter : ∀ p p', trainer_iter C p = Ok p' → R p p'.
Hypothesis R_work : ∀ task p p', work_call C params task p = Ok p' → R p p'.



End Counter.

Section Termination.
Context {Score Rng Other : Type}.
Variable C : collaborators Score Rng Other.
Variable params : run_params.
Implicit Types (p : process Rng Other) (order : list nat) (d : list (event Score)).











End Termination.

(** * The epoch loop: claims *)

Section DrawnOrders.
Context {Score Rng Other : Type}.
Variable C : collaborators Score Rng Other.
Variable params : run_params.

Lemma lookup_ids_from {A} (pre l : list A) :
  omap (λ i, (pre ++ l) !! i) (seq (length pre) (length l)) = l.
Proof.
  revert pre. induction l as [|a l IH]; intros pre; [done|].
  cbn [length seq]. change (omap ?f (?x :: ?xs))
    with (match f x with Some y => y :: omap f xs | None => omap f xs end).
  cbv beta. rewrite list_lookup_middle by done. f_equal.
  specialize (IH (pre ++ [a])). rewrite length_app, Nat.add_1_r in IH.
  by rewrite <- app_assoc in IH.
Qed.

Lemma lookup_all_ids {A} (l : list A) :
  omap (λ i, l !! i) (seq 0 (length l)) = l.
Proof. exact (lookup_ids_from [] l). Qed.

(** A rearrangement of the task ids visits every task once. *)
Lemma tasks_of_permutation order :
  order ≡ₚ seq 0 (length (tasks params)) →
  tasks_of params order ≡ₚ tasks params
  ∧ length (tasks_of params order) = length order.
Proof.
  intros Hperm. unfold tasks_of.
  assert (omap (λ task_id, tasks params !! task_id) order ≡ₚ tasks params) as Hts.
  { rewrite Hperm. by rewrite lookup_all_ids. }
  split; [done|].
  rewrite (Permutation_length Hts), (Permutation_length Hperm). by rewrite length_seq.
Qed.

Lemma count_events_app (kind : event Score → bool) d1 d2 :
  count_events kind (d1 ++ d2) = (count_events kind d1 + count_events kind d2)%nat.
Proof. unfold count_events. by rewrite List.filter_app, length_app. Qed.

Lemma count_permutation_calls_block order :
  count_events is_permutation_call (step_block (Score:=Score) params order) = 1%nat.
Proof.
  unfold count_events, step_block, work_and_iter. cbn [List.filter is_permutation_call length].
  f_equal. induction (tasks_of params order) as [|task ts IH]; [done|].
  cbn [flat_map app List.filter]. unfold work_event at 1.
  destruct (export_data params); exact IH.
Qed.

Lemma count_permutation_calls_blocks orders :
  count_events is_permutation_call
    (concat (map (step_block (Score:=Score) params) orders)) = length orders.
Proof.
  induction orders as [|order orders IH]; [done|].
  cbn [map concat length].
  by rewrite count_events_app, IH, count_permutation_calls_block.
Qed.
End DrawnOrders.

Section LoopClaims.
Context {Score Rng Other : Type}.
Variable C : collaborators Score Rng Other.
Variable params : run_params.

(** C1.  In training mode [main] is the start-up followed by the epochs.
    Each epoch first sets the counter to zero; the [while] loop takes one
    more inner step whenever the counter is below the epoch size; the
    events of a loop that returned are whole inner steps, each a draw
    followed, for every task id drawn and in that order, by one unit of
    work (export_data or enc_dec_step, by mode) and then one call of
    iter; and a loop that returned has its counter at the epoch size or
    beyond. *)
Theorem training_epoch_inner_steps fuel p :
  eval_only params = false →
  main C params fuel p = (startup C params ;;; training C params fuel) p
  ∧ epoch_body C params fuel p
    = emit_before [LogStartEpoch (trainer_epoch p)]
        ((while_loop C params fuel ;;;
          epoch <- read trainer_epoch ;;
          log (LogEndEpoch epoch) ;;;
          end_of_epoch C params) (set_n_equations 0 p))
  ∧ trainer_n_equations (set_n_equations 0 p) = 0%Z
  ∧ ((trainer_n_equations p < trainer_epoch_size p)%Z →
     while_loop C params (S fuel) p
     = (inner_step C params ;;; while_loop C params fuel) p)
  ∧ (∀ order,
       step_block (Score:=Score) params order
       = CallPermutation (length (tasks params)) order
           :: flat_map (λ task, [if export_data params then CallExportData task
                                 else CallEncDecStep task; CallIter])
                (tasks_of params order))
  ∧ (∀ d p', while_loop C params fuel p = (d, p', Returns tt) →
       (trainer_epoch_size p' ≤ trainer_n_equations p')%Z
       ∧ ∃ orders,
           d = concat (map (step_block params) orders)
           ∧ Forall (drawn C params) orders
           ∧ Forall (λ order, length (tasks_of params order) = length order) orders).
Proof.
  intros Hmode. split.
  { unfold main. rewrite !rbind_run. destruct (startup C params p) as [[d1 p1] [[]|e|]];
      [|done..]. by rewrite Hmode, rbind_rret. }
  split.
  { unfold epoch_body, start_epoch.
    by rewrite rbind_assoc, rbind_read, rbind_assoc, rbind_log, rbind_assign. }
  split; [done|]. split.
  { intros Hlt. rewrite (while_loop_unfold C params (S fuel)).
    by destruct (Z.ltb_spec (trainer_n_equations p) (trainer_epoch_size p)); [|lia]. }
  split; [done|].
  intros d p' Hrun.
  destruct (while_loop_trace _ _ _ _ _ _ _ Hrun)
    as (orders & rest & -> & Hdrawn & Hlens & _ & -> & Hexit).
  split; [done|]. exists orders. by rewrite app_nil_r.
Qed.

(** C2.  Whatever [np.random.permutation] returns being a rearrangement
    of [range(n)], every order drawn for the task list is a permutation of
    its ids and visits every configured task exactly once; every inner
    step calls the generator on the state it finds and leaves it
    advanced; and the trace of the [while] loop, however it ends, consists
    of inner steps that each begin with a draw of their own, so that it
    holds as many draws as inner steps. *)
Theorem drawn_order_is_permutation :
  permutes C →
  (∀ order, drawn C params order →
     order ≡ₚ seq 0 (length (tasks params))
     ∧ tasks_of params order ≡ₚ tasks params)
  ∧ (∀ p, inner_step C params p
          = emit_before
              [CallPermutation (length (tasks params))
                 (np_random_permutation C (length (tasks params)) (np_random_state p)).1]
              (for_task_ids C params
                 (np_random_permutation C (length (tasks params)) (np_random_state p)).1
                 (set_np_random_state
                    (np_random_permutation C (length (tasks params))
                       (np_random_state p)).2 p)))
  ∧ (∀ fuel p d p' r, while_loop C params fuel p = (d, p', r) →
       ∃ orders rest,
         d = concat (map (step_block params) orders) ++ rest
         ∧ Forall (λ order, drawn C params order
                            ∧ tasks_of params order ≡ₚ tasks params) orders
         ∧ count_events is_permutation_call
             (concat (map (step_block (Score:=Score) params) orders)) = length orders
         ∧ (rest = []
            ∨ ∃ order, drawn C params order
                       ∧ tasks_of params order ≡ₚ tasks params
                       ∧ rest ≠ [] ∧ rest `prefix_of` step_block params order)).
Proof.
  intros Hperm.
  assert (∀ order, drawn C params order →
            order ≡ₚ seq 0 (length (tasks params))
            ∧ tasks_of params order ≡ₚ tasks params) as Hdrawn.
  { intros order [g ->]. split; [apply Hperm|].
    by apply tasks_of_permutation. }
  split; [done|]. split; [apply inner_step_run|].
  intros fuel p d p' r Hrun.
  destruct (while_loop_trace _ _ _ _ _ _ _ Hrun)
    as (orders & rest & -> & Hdr & _ & _ & Hr).
  exists orders, rest. split; [done|]. split.
  { eapply Forall_impl; [exact Hdr|]. intros order Ho. split; [done|].
    by apply Hdrawn. }
  split; [apply count_permutation_calls_blocks|].
  destruct r as [[]|e|].
  - left. by destruct Hr.
  - right. destruct Hr as (Hne & order & Ho & Hpre).
    exists order. repeat split; try done. by apply Hdrawn.
  - left. by destruct Hr.
Qed.

End LoopClaims.

Lemma counting_trainer_permutes : permutes counting_trainer.
Proof. intros n g. cbn. by rewrite <- Permutation_rev. Qed.




Lemma training_epoch_inner_steps_witness :
  (trainer_epoch_size (while_loop counting_trainer two_tasks 5 (fresh_process 10)).1.2
   ≤ trainer_n_equations (while_loop counting_trainer two_tasks 5 (fresh_process 10)).1.2)%Z
  ∧ ∃ orders,
      (while_loop counting_trainer two_tasks 5 (fresh_process 10)).1.1
      = concat (map (step_block two_tasks) orders)
      ∧ Forall (drawn counting_trainer two_tasks) orders
      ∧ Forall (λ order, length (tasks_of two_tasks order) = length order) orders.
Proof.
  assert (eval_only two_tasks = false) as Hmode by reflexivity.
  destruct (training_epoch_inner_steps counting_trainer two_tasks 5 (fresh_process 10) Hmode)
    as (_ & _ & _ & _ & _ & Hloop).
  apply Hloop. vm_compute. reflexivity.
Defined.

Lemma drawn_order_is_permutation_witness :
  [1; 0]%nat ≡ₚ seq 0 (length (tasks two_tasks))
  ∧ tasks_of two_tasks [1; 0]%nat ≡ₚ tasks two_tasks.
Proof.
  destruct (drawn_order_is_permutation counting_trainer two_tasks counting_trainer_permutes)
    as (Hdrawn & _).
  apply Hdrawn. exists 0%nat. reflexivity.
Defined.



(** * Traces through a classification *)

Section FollowsFacts.
Context {Score Rng Other K : Type}.
Variable kind : event Score → option K.
Implicit Types (p : process Rng Other) (ev : event Score) (l : list K).

Lemma follows_rret {A} (a : A) : follows (Rng:=Rng) (Other:=Other) kind (rret a) [].
Proof. intros p d p' r Hrun. run_inv Hrun. done. Qed.

Lemma follows_stops {A} (c : Run Score Rng Other A) l :
  (∀ p, ∃ p' r, c p = ([], p', r) ∧ ∀ a, r ≠ Returns a) → follows kind c l.
Proof.
  intros Hc p d p' r Hrun. destruct (Hc p) as (p1 & r1 & Hp & Hr).
  rewrite Hp in Hrun. injection Hrun as <- <- <-.
  split; [apply prefix_nil|]. intros a ->. by destruct (Hr a).
Qed.

Lemma follows_rraise {A} e l : follows kind (rraise (A:=A) (Rng:=Rng) (Other:=Other) e) l.
Proof. apply follows_stops. intros p. by exists p, (Raises e). Qed.

Lemma follows_out_of_fuel {A} l :
  follows kind (out_of_fuel (A:=A) (Rng:=Rng) (Other:=Other)) l.
Proof. apply follows_stops. intros p. by exists p, OutOfFuel. Qed.

Lemma follows_log ev : follows (Rng:=Rng) (Other:=Other) kind (log ev) (omap kind [ev]).
Proof. intros p d p' r Hrun. unfold log in Hrun. injection Hrun as <- <- <-. done. Qed.

Lemma follows_read {A} (g : process Rng Other → A) :
  follows (Score:=Score) kind (read g) [].
Proof. intros p d p' r Hrun. unfold read in Hrun. injection Hrun as <- <- <-. done. Qed.

Lemma follows_assign (g : process Rng Other → process Rng Other) :
  follows (Score:=Score) kind (assign g) [].
Proof. intros p d p' r Hrun. unfold assign in Hrun. injection Hrun as <- <- <-. done. Qed.

Lemma follows_rassert c : follows (Rng:=Rng) (Other:=Other) kind (rassert c) [].
Proof. destruct c; [apply follows_rret|apply follows_rraise]. Qed.

Lemma follows_call ev (g : process Rng Other → result (process Rng Other)) :
  follows kind (call ev g) (omap kind [ev]).
Proof.
  intros p d p' r Hrun. unfold call in Hrun.
  destruct (g p); injection Hrun as <- <- <-; done.
Qed.

Lemma follows_call_ret {A} ev (g : process Rng Other → result (A * process Rng Other)) :
  follows kind (call_ret ev g) (omap kind [ev]).
Proof.
  intros p d p' r Hrun. unfold call_ret in Hrun.
  destruct (g p) as [[a p1]|e]; injection Hrun as <- <- <-; done.
Qed.

Lemma follows_log_none ev : kind ev = None → follows (Rng:=Rng) (Other:=Other) kind (log ev) [].
Proof. intros H. pose proof (follows_log ev) as Hlog. cbn in Hlog. by rewrite H in Hlog. Qed.

Lemma follows_call_none ev (g : process Rng Other → result (process Rng Other)) :
  kind ev = None → follows kind (call ev g) [].
Proof. intros H. pose proof (follows_call ev g) as Hc. cbn in Hc. by rewrite H in Hc. Qed.

Lemma follows_rbind {A B} (c : Run Score Rng Other A) (k : A → Run Score Rng Other B)
    l1 l2 :
  follows kind c l1 → (∀ a, follows kind (k a) l2) →
  follows kind (x <- c ;; k x) (l1 ++ l2).
Proof.
  intros Hc Hk p d p' r. rewrite rbind_run.
  destruct (c p) as [[d1 p1] r1] eqn:Hcp. destruct (Hc _ _ _ _ Hcp) as [Hpre Hall].
  destruct r1 as [a|e|].
  - destruct (k a p1) as [[d2 p2] r2] eqn:Hkp. destruct (Hk a _ _ _ _ Hkp) as [Hpre2 Hall2].
    intros Hrun. run_inv Hrun. rewrite omap_app, (Hall a eq_refl). split.
    + by apply prefix_app.
    + intros b Hb. by rewrite (Hall2 b Hb).
  - intros Hrun. injection Hrun as <- <- <-. split; [by apply prefix_app_r|done].
  - intros Hrun. injection Hrun as <- <- <-. split; [by apply prefix_app_r|done].
Qed.

(** What comes after a computation that never returns is not run. *)
Lemma follows_rbind_stops {A B} (c : Run Score Rng Other A)
    (k : A → Run Score Rng Other B) l :
  follows kind c l → never_returns c → follows kind (x <- c ;; k x) l.
Proof.
  intros Hc Hnever p d p' r. rewrite rbind_run.
  destruct (c p) as [[d1 p1] r1] eqn:Hcp. destruct (Hc _ _ _ _ Hcp) as [Hpre Hall].
  destruct r1 as [a|e|].
  - by destruct (Hnever _ _ _ _ a Hcp).
  - intros Hrun. injection Hrun as <- <- <-. done.
  - intros Hrun. injection Hrun as <- <- <-. done.
Qed.

Lemma never_returns_rbind_l {A B} (c : Run Score Rng Other A)
    (k : A → Run Score Rng Other B) :
  never_returns c → never_returns (x <- c ;; k x).
Proof.
  intros Hnever p d p' r b. rewrite rbind_run.
  destruct (c p) as [[d1 p1] [a|e|]] eqn:Hcp; [|by intros [= <- <- <-]..].
  by destruct (Hnever _ _ _ _ a Hcp).
Qed.

Lemma never_returns_rbind_r {A B} (c : Run Score Rng Other A)
    (k : A → Run Score Rng Other B) :
  (∀ a, never_returns (k a)) → never_returns (x <- c ;; k x).
Proof.
  intros Hnever p d p' r b. rewrite rbind_run.
  destruct (c p) as [[d1 p1] [a|e|]] eqn:Hcp; [|by intros [= <- <- <-]..].
  destruct (k a p1) as [[d2 p2] r2] eqn:Hkp. intros Hrun. run_inv Hrun.
  by apply (Hnever a _ _ _ _ b Hkp).
Qed.

Lemma follows_for_range n (body : Run Score Rng Other unit) l :
  follows kind body l → follows kind (for_range n body) (concat (replicate n l)).
Proof.
  intros Hbody. induction n as [|n IH]; cbn [for_range replicate concat].
  - apply follows_rret.
  - by apply follows_rbind.
Qed.
End FollowsFacts.

(** Events that the inner loop emits have none of the kinds in question. *)
Section InnerLoopKinds.
Context {Score Rng Other K : Type}.
Variable C : collaborators Score Rng Other.
Variable params : run_params.
Variable kind : event Score → option K.
Hypothesis kind_permutation : ∀ n order, kind (CallPermutation n order) = None.
Hypothesis kind_export_data : ∀ task, kind (CallExportData task) = None.
Hypothesis kind_enc_dec_step : ∀ task, kind (CallEncDecStep task) = None.
Hypothesis kind_iter : kind CallIter = None.
Hypothesis kind_metric : ∀ k v, kind (LogMetric k v) = None.

Lemma follows_log_items items : follows kind (log_items C items) [].
Proof.
  induction items as [|[k v] items IH]; cbn [log_items]; [apply follows_rret|].
  change (@nil K) with (@nil K ++ @nil K).
  apply follows_rbind; [|done]. unfold log_metric.
  destruct (formats_as_float C v); [by apply follows_log_none|apply follows_rraise].
Qed.

Lemma follows_for_task_ids order : follows kind (for_task_ids C params order) [].
Proof.
  induction order as [|task_id order IH]; cbn [for_task_ids]; [apply follows_rret|].
  change (@nil K) with (@nil K ++ (@nil K ++ (@nil K ++ @nil K))).
  apply follows_rbind.
  { unfold task_at. destruct (tasks params !! task_id);
      [apply follows_rret|apply follows_rraise]. }
  intros task. apply follows_rbind.
  { destruct (export_data params); by apply follows_call_none. }
  intros _. apply follows_rbind; [by apply follows_call_none|done].
Qed.

Lemma follows_inner_step : follows kind (inner_step C params) [].
Proof.
  unfold inner_step. change (@nil K) with (@nil K ++ @nil K).
  apply follows_rbind; [|intros; apply follows_for_task_ids].
  intros p d p' r Hrun. unfold permutation in Hrun.
  destruct (np_random_permutation C _ _) as [order g].
  injection Hrun as <- <- <-. cbn. by rewrite kind_permutation.
Qed.

Lemma follows_while_loop fuel : follows kind (while_loop C params fuel) [].
Proof.
  induction fuel as [|fuel IH]; cbn [while_loop];
    change (@nil K) with (@nil K ++ (@nil K ++ @nil K));
    (apply follows_rbind; [apply follows_read|]); intros n;
    (apply follows_rbind; [apply follows_read|]); intros size;
    destruct (Z.ltb n size); try apply follows_rret.
  - apply follows_out_of_fuel.
  - change (@nil K) with (@nil K ++ @nil K).
    apply follows_rbind; [apply follows_inner_step|done].
Qed.
End InnerLoopKinds.

(** * [main] through a classification that does not look inside events *)

Section UniformKinds.
Context {Score Rng Other K : Type}.
Variable C : collaborators Score Rng Other.
Variable params : run_params.
Variable kind : event Score → option K.
Variables k_start k_end k_eval k_best k_periodic k_stop : list K.

Hypothesis kind_startup :
  ∀ ev, ev ∈ startup_calls ++ [SetCUDA (negb (cpu params)); CallBuildEnv;
                               CallBuildModules; CallTrainer; CallEvaluator] →
        kind ev = None.
Hypothesis kind_permutation : ∀ n order, kind (CallPermutation n order) = None.
Hypothesis kind_export_data : ∀ task, kind (CallExportData task) = None.
Hypothesis kind_enc_dec_step : ∀ task, kind (CallEncDecStep task) = None.
Hypothesis kind_iter : kind CallIter = None.
Hypothesis kind_metric : ∀ k v, kind (LogMetric k v) = None.
Hypothesis kind_json : ∀ scores, kind (LogJson scores) = None.
Hypothesis kind_scores : ∀ scores, kind (LogScores scores) = None.
Hypothesis kind_exit : kind CallExit = None.
Hypothesis kind_start : ∀ epoch, omap kind [LogStartEpoch epoch] = k_start.
Hypothesis kind_end : ∀ epoch, omap kind [LogEndEpoch epoch] = k_end.
Hypothesis kind_eval : omap kind [CallRunAllEvals] = k_eval.
Hypothesis kind_best : ∀ scores, omap kind [CallSaveBestModel scores] = k_best.
Hypothesis kind_periodic : omap kind [CallSavePeriodic] = k_periodic.
Hypothesis kind_stop : ∀ scores, omap kind [CallEndEpoch scores] = k_stop.

Lemma follows_startup : follows kind (startup C params) [].
Proof.
  assert (∀ ev (g : process Rng Other → result (process Rng Other)),
            ev ∈ startup_calls ++ [SetCUDA (negb (cpu params)); CallBuildEnv;
                                          CallBuildModules; CallTrainer; CallEvaluator] →
                  follows kind (call ev g) []) as Hcall.
  { intros ev g Hev. apply follows_call_none. by apply kind_startup. }
  unfold startup.
  change (@nil K) with (@nil K ++ (@nil K ++ (@nil K ++ (@nil K ++ (@nil K ++
                        (@nil K ++ (@nil K ++ (@nil K ++ @nil K)))))))).
  apply follows_rbind; [apply Hcall; elem_listed|intros _].
  apply follows_rbind; [apply Hcall; elem_listed|intros _].
  apply follows_rbind; [apply Hcall; elem_listed|intros _].
  apply follows_rbind.
  { destruct (cpu params); [apply follows_rassert|].
    change (@nil K) with (@nil K ++ @nil K).
    apply follows_rbind; [apply follows_read|intros; apply follows_rassert]. }
  intros _. apply follows_rbind.
  { apply follows_log_none, kind_startup. elem_listed. }
  intros _. apply follows_rbind; [apply Hcall; elem_listed|intros _].
  apply follows_rbind; [apply Hcall; elem_listed|intros _].
  apply follows_rbind; [apply Hcall; elem_listed|intros _].
  apply Hcall; elem_listed.
Qed.

Lemma evaluate_and_exit_never_returns : never_returns (evaluate_and_exit C).
Proof.
  unfold evaluate_and_exit.
  apply never_returns_rbind_r. intros scores.
  apply never_returns_rbind_r. intros _.
  apply never_returns_rbind_r. intros _.
  apply never_returns_rbind_r. intros _.
  intros p d p' r a Hrun. unfold rraise in Hrun. by injection Hrun as <- <- <-.
Qed.

Lemma follows_log_json scores : follows kind (log_json C scores) [].
Proof.
  unfold log_json.
  destruct (forallb _ scores); [by apply follows_log_none|apply follows_rraise].
Qed.

Lemma follows_evaluate_and_exit : follows kind (evaluate_and_exit C) k_eval.
Proof.
  unfold evaluate_and_exit.
  replace k_eval with (k_eval ++ ([] ++ ([] ++ ([] ++ [])))) by by rewrite app_nil_r.
  apply follows_rbind; [rewrite <- kind_eval; apply follows_call_ret|intros scores].
  apply follows_rbind; [by apply follows_log_items|intros _].
  apply follows_rbind; [apply follows_log_json|intros _].
  apply follows_rbind; [by apply follows_log_none|intros _].
  apply follows_rraise.
Qed.

Local Abbreviation end_kinds :=
  (end_of_epoch_kinds (is_master params) k_eval k_best k_periodic k_stop).

Lemma follows_end_of_epoch : follows kind (end_of_epoch C params) end_kinds.
Proof.
  unfold end_of_epoch, end_of_epoch_kinds.
  destruct (is_master params); [|apply follows_rret].
  replace (k_eval ++ k_best ++ k_periodic ++ k_stop)
    with (k_eval ++ ([] ++ ([] ++ ([] ++ (k_best ++ (k_periodic ++ k_stop))))))
    by done.
  apply follows_rbind; [rewrite <- kind_eval; apply follows_call_ret|intros scores].
  apply follows_rbind; [by apply follows_log_none|intros _].
  apply follows_rbind; [by apply follows_log_items|intros _].
  apply follows_rbind; [apply follows_log_json|intros _].
  apply follows_rbind; [rewrite <- (kind_best scores); apply follows_call|intros _].
  apply follows_rbind; [rewrite <- kind_periodic; apply follows_call|intros _].
  rewrite <- (kind_stop scores). apply follows_call.
Qed.

Lemma follows_epoch_body fuel :
  follows kind (epoch_body C params fuel) (k_start ++ k_end ++ end_kinds).
Proof.
  unfold epoch_body, start_epoch.
  replace (k_start ++ k_end ++ end_kinds)
    with (([] ++ (k_start ++ [])) ++ ([] ++ ([] ++ (k_end ++ end_kinds))))
    by by rewrite app_nil_r.
  apply follows_rbind.
  { apply follows_rbind; [apply follows_read|intros epoch].
    apply follows_rbind; [rewrite <- (kind_start epoch); apply follows_log|intros _].
    apply follows_assign. }
  intros _. apply follows_rbind; [by apply follows_while_loop|intros _].
  apply follows_rbind; [apply follows_read|intros epoch].
  apply follows_rbind; [rewrite <- (kind_end epoch); apply follows_log|intros _].
  apply follows_end_of_epoch.
Qed.

Lemma follows_main_training fuel :
  eval_only params = false →
  follows kind (main C params fuel)
    (concat (replicate (Z.to_nat (max_epoch params))
               (k_start ++ k_end ++ end_kinds))).
Proof.
  intros Hmode. unfold main, training. rewrite Hmode.
  change (concat ?l) with ([] ++ ([] ++ concat l)).
  apply follows_rbind; [apply follows_startup|intros _].
  apply follows_rbind; [apply follows_rret|intros _].
  apply follows_for_range, follows_epoch_body.
Qed.

Lemma follows_main_eval_only fuel :
  eval_only params = true →
  follows kind (main C params fuel) k_eval ∧ never_returns (main C params fuel).
Proof.
  intros Hmode. unfold main. rewrite Hmode. split.
  - change k_eval with ([] ++ k_eval).
    apply follows_rbind; [apply follows_startup|intros _].
    apply follows_rbind_stops;
      [apply follows_evaluate_and_exit|apply evaluate_and_exit_never_returns].
  - apply never_returns_rbind_r. intros _.
    apply never_returns_rbind_l, evaluate_and_exit_never_returns.
Qed.
End UniformKinds.

(** * [main]: claims *)

Section MainClaims.
Context {Score Rng Other : Type}.
Variable C : collaborators Score Rng Other.
Variable params : run_params.
Implicit Types (p : process Rng Other) (d : list (event Score)).

Lemma count_events_omap (f : event Score → bool) d :
  count_events f d = length (omap (λ ev, if f ev then Some tt else None) d).
Proof.
  unfold count_events. induction d as [|ev d IH]; [done|].
  cbn [List.filter]. change (omap ?g (?x :: ?xs))
    with (match g x with Some y => y :: omap g xs | None => omap g xs end).
  cbv beta. destruct (f ev); cbn [length]; by rewrite IH.
Qed.

Lemma length_concat_replicate {A} n (l : list A) :
  length (concat (replicate n l)) = (n * length l)%nat.
Proof.
  induction n as [|n IH]; [done|].
  cbn [replicate concat]. rewrite length_app, IH. lia.
Qed.

Lemma log_items_run (items : list (string * Score)) p :
  forallb (λ kv, formats_as_float C kv.2) items = true →
  log_items C items p = (map (λ kv, LogMetric kv.1 kv.2) items, p, Returns tt).
Proof.
  induction items as [|[k v] items IH]; [done|].
  cbn [forallb snd log_items map]. intros [Hv Hitems]%andb_true_iff.
  unfold log_metric. by rewrite Hv, rbind_log, IH.
Qed.

(** The loop of lines 159-160 on a report with a score that ["%.6f"] does
    not take: the lines before that score, then a [TypeError]. *)
Lemma log_items_raises (items : list (string * Score)) p :
  forallb (λ kv, formats_as_float C kv.2) items = false →
  ∃ lines, log_items C items p = (lines, p, Raises TypeError)
           ∧ lines `prefix_of` metric_lines items.
Proof.
  unfold metric_lines. induction items as [|[k v] items IH]; [done|].
  cbn [forallb snd log_items map]. unfold log_metric.
  destruct (formats_as_float C v) eqn:Hv; cbn [andb].
  - intros Hitems. destruct (IH Hitems) as (lines & Hrun & Hpre).
    exists (LogMetric k v :: lines). rewrite rbind_log, Hrun. split; [done|].
    by apply prefix_cons.
  - intros _. exists []. split; [done|]. apply prefix_nil.
Qed.

Lemma count_metric_lines (items : list (string * Score)) :
  count_events is_run_all_evals (map (λ kv, LogMetric kv.1 kv.2) items) = 0%nat.
Proof. by induction items as [|[k v] items IH]. Qed.

Lemma evaluate_and_exit_run p scores p1 :
  run_all_evals C p = Ok (scores, p1) →
  formattable C scores = true →
  ∀ k : unit → Run Score Rng Other unit,
    (x <- evaluate_and_exit C ;; k x) p
    = (CallRunAllEvals :: report_lines scores ++ [CallExit], p1, Raises (SystemExit None)).
Proof.
  intros Heval [Hfloat Hjson]%andb_true_iff k. rewrite rbind_run. unfold evaluate_and_exit.
  rewrite rbind_call_ret, Heval, rbind_run, (log_items_run _ _ Hfloat).
  unfold log_json. rewrite Hjson, rbind_log, rbind_log.
  unfold rraise, emit_before, report_lines. cbn [fst snd app].
  by rewrite <- !app_assoc.
Qed.

(** Lines 158-162 on a report that cannot be formatted: the evaluation,
    lines for some of the metrics, and a [TypeError] from line 160 or from
    [json.dumps] at line 161. *)
Lemma evaluate_and_exit_raises p scores p1 :
  run_all_evals C p = Ok (scores, p1) →
  formattable C scores = false →
  ∀ k : unit → Run Score Rng Other unit,
    ∃ lines,
      (x <- evaluate_and_exit C ;; k x) p = (CallRunAllEvals :: lines, p1, Raises TypeError)
      ∧ lines `prefix_of` metric_lines scores.
Proof.
  intros Heval Hformat k. rewrite rbind_run. unfold evaluate_and_exit.
  rewrite rbind_call_ret, Heval, rbind_run.
  destruct (forallb (λ kv, formats_as_float C kv.2) scores) eqn:Hfloat.
  - unfold formattable in Hformat. rewrite Hfloat in Hformat. cbn [andb] in Hformat.
    rewrite (log_items_run _ _ Hfloat). unfold log_json. rewrite Hformat.
    exists (metric_lines scores). split; [|done].
    rewrite rbind_run. unfold rraise, emit_before, metric_lines. cbn [fst snd app].
    by rewrite app_nil_r.
  - destruct (log_items_raises scores p1 Hfloat) as (lines & -> & Hpre).
    exists lines. split; [|done]. unfold emit_before. by cbn [fst snd app].
Qed.

(** C6.  In evaluation-only mode [main] never returns and never starts an
    epoch, and calls run_all_evals at most once, and once when the start-up
    and the evaluation go through.  If then every score of the report is
    taken by ["%.6f"] and encoded by [json.dumps], it logs
    one line per metric of the report in the order of its items, then one
    line with the whole report, and exits with status 0.  With a score that
    is not so formatted it raises a [TypeError] after the lines of some of
    the metrics: there is no line with the whole report, and no exit.  In
    training mode it starts at most max_epoch epochs. *)
Theorem eval_only_evaluates_once_and_exits fuel p d p' r :
  main C params fuel p = (d, p', r) →
  (eval_only params = true →
     r ≠ Returns tt
     ∧ (count_events is_run_all_evals d ≤ 1)%nat
     ∧ count_events is_start_epoch d = 0%nat
     ∧ (∀ d0 p0 scores p1,
          startup C params p = (d0, p0, Returns tt) →
          run_all_evals C p0 = Ok (scores, p1) →
          count_events is_run_all_evals d = 1%nat
          ∧ (formattable C scores = true →
             d = d0 ++ CallRunAllEvals :: report_lines scores ++ [CallExit]
             ∧ count_events is_run_all_evals
                 (CallRunAllEvals :: report_lines scores ++ [CallExit]) = 1%nat
             ∧ p' = p1
             ∧ r = Raises (SystemExit None))
          ∧ (formattable C scores = false →
             r = Raises TypeError
             ∧ p' = p1
             ∧ ∃ lines, d = d0 ++ CallRunAllEvals :: lines
                        ∧ lines `prefix_of` metric_lines scores)))
  ∧ (eval_only params = false →
     (count_events is_start_epoch d ≤ Z.to_nat (max_epoch params))%nat).
Proof.
  intros Hrun. split.
  - intros Hmode. split; [|split; [|split]].
    + assert (never_returns (main C params fuel)) as Hnever
        by (eapply (follows_main_eval_only C params start_epoch_kind []); kinds_done).
      by apply (Hnever _ _ _ _ tt Hrun).
    + assert (follows run_all_evals_kind (main C params fuel) [tt]) as Hfollows
        by (eapply (follows_main_eval_only C params run_all_evals_kind [tt]); kinds_done).
      destruct (Hfollows _ _ _ _ Hrun) as [Hpre _].
      rewrite count_events_omap. apply prefix_length in Hpre. exact Hpre.
    + assert (follows start_epoch_kind (main C params fuel) []) as Hfollows
        by (eapply (follows_main_eval_only C params start_epoch_kind []); kinds_done).
      destruct (Hfollows _ _ _ _ Hrun) as [Hpre _].
      rewrite count_events_omap. apply prefix_nil_inv in Hpre.
      unfold start_epoch_kind in Hpre. by rewrite Hpre.
    + intros d0 p0 scores p1 Hstart Heval.
      assert (count_events is_run_all_evals d ≤ 1)%nat as Hle.
      { assert (follows run_all_evals_kind (main C params fuel) [tt]) as Hfollows
          by (eapply (follows_main_eval_only C params run_all_evals_kind [tt]); kinds_done).
        destruct (Hfollows _ _ _ _ Hrun) as [Hpre _].
        rewrite count_events_omap. apply prefix_length in Hpre. exact Hpre. }
      unfold main in Hrun. rewrite rbind_run, Hstart, Hmode in Hrun.
      assert (∀ l, count_events is_run_all_evals (d0 ++ CallRunAllEvals (Score:=Score) :: l)
                   ≤ 1 →
                   count_events is_run_all_evals (d0 ++ CallRunAllEvals (Score:=Score) :: l)
                   = 1)%nat as Hone.
      { intros l. change (CallRunAllEvals :: l) with ([CallRunAllEvals (Score:=Score)] ++ l).
        rewrite !count_events_app. cbn. lia. }
      split; [|split].
      * destruct (formattable C scores) eqn:Hformat.
        -- rewrite (evaluate_and_exit_run _ _ _ Heval Hformat) in Hrun.
           run_inv Hrun. by apply Hone.
        -- destruct (evaluate_and_exit_raises _ _ _ Heval Hformat
                       (λ _, training C params fuel)) as (lines & Hraise & Hpre).
           rewrite Hraise in Hrun. run_inv Hrun. by apply Hone.
      * intros Hformat.
        rewrite (evaluate_and_exit_run _ _ _ Heval Hformat) in Hrun.
        run_inv Hrun. repeat split; try done.
        change (CallRunAllEvals :: ?l) with ([CallRunAllEvals (Score:=Score)] ++ l).
        unfold report_lines. by rewrite !count_events_app, count_metric_lines.
      * intros Hformat.
        destruct (evaluate_and_exit_raises _ _ _ Heval Hformat
                    (λ _, training C params fuel)) as (lines & Hraise & Hpre).
        rewrite Hraise in Hrun. run_inv Hrun.
        split; [done|]. split; [done|]. by exists lines.
  - intros Hmode.
    assert (follows start_epoch_kind (main C params fuel)
              (concat (replicate (Z.to_nat (max_epoch params))
                         ([tt] ++ [] ++ end_of_epoch_kinds (is_master params) [] [] [] []))))
      as Hfollows by (apply follows_main_training; kinds_done).
    destruct (Hfollows _ _ _ _ Hrun) as [Hpre _].
    rewrite count_events_omap. apply prefix_length in Hpre.
    rewrite length_concat_replicate in Hpre. unfold start_epoch_kind in Hpre.
    assert (length ([()] ++ [] ++ end_of_epoch_kinds (is_master params) [] [] [] [])
            = 1%nat) as Hone
      by (unfold end_of_epoch_kinds; by destruct (is_master params)).
    rewrite Hone in Hpre. lia.
Qed.

(** C7.  When CPU-only and multi-GPU execution are both requested, or the
    accelerator is requested and none is available, [main] raises after at
    most its three start-up calls, each made once: as soon as those have
    returned it raises an AssertionError, with no environment, modules,
    trainer or evaluator built. *)
Theorem bad_device_request_fails_at_startup fuel p :
  (cpu params = true ∧ multi_gpu params = true)
  ∨ (cpu params = false ∧ ∀ q, cuda_is_available C q = false) →
  (∃ d p' e, main C params fuel p = (d, p', Raises e) ∧ d `prefix_of` startup_calls)
  ∧ (∀ p1 p2 p3,
       init_distributed_mode C p = Ok p1 →
       initialize_exp C p1 = Ok p2 →
       init_signal_handler C p2 = Ok p3 →
       main C params fuel p = (startup_calls, p3, Raises AssertionError)).
Proof.
  intros Hbad.
  assert (∀ p3 (k : unit → Run Score Rng Other unit),
            (x <- (if cpu params then rassert (negb (multi_gpu params))
                   else (available <- read (cuda_is_available C) ;; rassert available)) ;;
             k x) p3
            = ([], p3, Raises AssertionError)) as Hguard.
  { intros p3 k. rewrite rbind_run.
    destruct Hbad as [[-> ->]|[-> Hcuda]]; [done|].
    by rewrite rbind_read, Hcuda. }
  unfold main, startup, startup_calls. rewrite rbind_run.
  rewrite rbind_call. destruct (init_distributed_mode C p) as [p1|e1] eqn:E1.
  - rewrite rbind_call. destruct (initialize_exp C p1) as [p2|e2] eqn:E2.
    + rewrite rbind_call. destruct (init_signal_handler C p2) as [p3|e3] eqn:E3.
      * rewrite Hguard. cbn. split.
        -- by eexists _, _, _.
        -- intros q1 q2 q3 H1 H2 H3.
           apply Ok_inj in H1 as <-. rewrite E2 in H2.
           apply Ok_inj in H2 as <-. rewrite E3 in H3.
           by apply Ok_inj in H3 as <-.
      * cbn. split.
        -- by eexists _, _, _.
        -- intros q1 q2 q3 H1 H2 H3.
           apply Ok_inj in H1 as <-. rewrite E2 in H2.
           apply Ok_inj in H2 as <-. rewrite E3 in H3. discriminate H3.
    + cbn. split.
      * eexists _, _, _. split; [done|]. by exists [CallInitSignalHandler].
      * intros q1 q2 q3 H1 H2 H3. apply Ok_inj in H1 as <-.
        rewrite E2 in H2. discriminate H2.
  - cbn. split.
    + eexists _, _, _. split; [done|]. by exists [CallInitializeExp; CallInitSignalHandler].
    + intros q1 q2 q3 H1 H2 H3. discriminate H1.
Qed.

Lemma only_epoch_ends n (k : epoch_end_call) :
  k ∈ concat (replicate n [EpochEnded]) → k = EpochEnded.
Proof.
  induction n as [|n IH]; cbn [replicate concat app].
  - by intros ?%elem_of_nil.
  - intros [->|?]%elem_of_cons; [done|by apply IH].
Qed.

(** C8.  In training mode, seen through the end-of-epoch calls, the trace
    of [main] is a sequence of epoch ends, each followed on the master by
    one evaluation, one save_best_model, one save_periodic and one
    end_epoch in this order, and by none of them on any other process;
    there are max_epoch of these groups when [main] returns, and a first
    part of them otherwise.  A process that is not the master makes none
    of these four calls. *)
Theorem epoch_end_calls_are_the_masters fuel p d p' r :
  eval_only params = false →
  main C params fuel p = (d, p', r) →
  epoch_end_block (is_master params)
  = EpochEnded :: (if is_master params
                   then [Evaluated; SavedBest; SavedPeriodic; StoppingUpdated] else [])
  ∧ omap epoch_end_kind d
    `prefix_of` concat (replicate (Z.to_nat (max_epoch params))
                          (epoch_end_block (is_master params)))
  ∧ (r = Returns tt →
     omap epoch_end_kind d
     = concat (replicate (Z.to_nat (max_epoch params))
                 (epoch_end_block (is_master params))))
  ∧ (is_master params = false → Forall (λ ev, is_master_call ev = false) d).
Proof.
  intros Hmode Hrun. split; [done|].
  assert (follows epoch_end_kind (main C params fuel)
            (concat (replicate (Z.to_nat (max_epoch params))
                       ([] ++ [EpochEnded]
                        ++ end_of_epoch_kinds (is_master params)
                             [Evaluated] [SavedBest] [SavedPeriodic] [StoppingUpdated]))))
    as Hfollows by (apply follows_main_training; kinds_done).
  assert ([] ++ [EpochEnded]
          ++ end_of_epoch_kinds (is_master params)
               [Evaluated] [SavedBest] [SavedPeriodic] [StoppingUpdated]
          = epoch_end_block (is_master params)) as Hblock
    by (unfold epoch_end_block, end_of_epoch_kinds; by destruct (is_master params)).
  rewrite Hblock in Hfollows.
  destruct (Hfollows _ _ _ _ Hrun) as [Hpre Hall].
  split; [done|]. split; [by apply Hall|].
  intros Hworker. rewrite Hworker in Hpre. unfold epoch_end_block in Hpre.
  apply Forall_forall. intros ev Hev.
  destruct (is_master_call ev) eqn:Hcall; [exfalso|done].
  assert (∃ k, epoch_end_kind ev = Some k ∧ k ≠ EpochEnded) as (k & Hk & Hne)
    by (destruct ev; try discriminate Hcall; by eexists).
  apply Hne, (only_epoch_ends (Z.to_nat (max_epoch params))).
  destruct Hpre as [tail ->]. apply elem_of_app. left.
  apply list_elem_of_omap. by exists ev.
Qed.
End MainClaims.

(** * The claims of [main] on the counting trainer *)

Lemma eval_only_evaluates_once_and_exits_witness :
  ((main counting_trainer two_tasks_eval 5 (fresh_process 10)).2 ≠ Returns tt
   ∧ (count_events is_run_all_evals
        (main counting_trainer two_tasks_eval 5 (fresh_process 10)).1.1 ≤ 1)%nat
   ∧ count_events is_start_epoch
       (main counting_trainer two_tasks_eval 5 (fresh_process 10)).1.1 = 0%nat
   ∧ (main counting_trainer two_tasks_eval 5 (fresh_process 10)).1.1
     = (startup counting_trainer two_tasks_eval (fresh_process 10)).1.1
       ++ CallRunAllEvals
          :: report_lines [("valid_acc", 1%Z); ("valid_loss", 7%Z)] ++ [CallExit]
   ∧ (main counting_trainer two_tasks_eval 5 (fresh_process 10)).2
     = Raises (SystemExit None))
  ∧ (main float32_evaluator two_tasks_eval 5 (fresh_process 10)).2 = Raises TypeError
  ∧ (count_events is_start_epoch (main counting_trainer two_tasks 5 (fresh_process 10)).1.1
     ≤ Z.to_nat (max_epoch two_tasks))%nat.
Proof.
  split; [|split].
  - assert (main counting_trainer two_tasks_eval 5 (fresh_process 10)
            = ((main counting_trainer two_tasks_eval 5 (fresh_process 10)).1.1,
               (main counting_trainer two_tasks_eval 5 (fresh_process 10)).1.2,
               (main counting_trainer two_tasks_eval 5 (fresh_process 10)).2)) as Hrun
      by (vm_compute; reflexivity).
    destruct (eval_only_evaluates_once_and_exits counting_trainer two_tasks_eval 5
                (fresh_process 10) _ _ _ Hrun) as [Heval _].
    destruct (Heval eq_refl) as (H1 & H2 & H3 & H4).
    destruct (H4 (startup counting_trainer two_tasks_eval (fresh_process 10)).1.1
                (fresh_process 10) [("valid_acc", 1%Z); ("valid_loss", 7%Z)]
                (fresh_process 10) ltac:(vm_compute; reflexivity) eq_refl)
      as (_ & Hexit & _).
    destruct (Hexit eq_refl) as (Htrace & _ & _ & Hstatus).
    split; [exact H1|]. split; [exact H2|]. split; [exact H3|].
    split; [exact Htrace|exact Hstatus].
  - assert (main float32_evaluator two_tasks_eval 5 (fresh_process 10)
            = ((main float32_evaluator two_tasks_eval 5 (fresh_process 10)).1.1,
               (main float32_evaluator two_tasks_eval 5 (fresh_process 10)).1.2,
               (main float32_evaluator two_tasks_eval 5 (fresh_process 10)).2)) as Hrun
      by (vm_compute; reflexivity).
    destruct (eval_only_evaluates_once_and_exits float32_evaluator two_tasks_eval 5
                (fresh_process 10) _ _ _ Hrun) as [Heval _].
    destruct (Heval eq_refl) as (_ & _ & _ & H4).
    destruct (H4 (startup float32_evaluator two_tasks_eval (fresh_process 10)).1.1
                (fresh_process 10) [("valid_acc", 1%Z); ("valid_loss", 7%Z)]
                (fresh_process 10) ltac:(vm_compute; reflexivity) eq_refl)
      as (_ & _ & Hraise).
    destruct (Hraise eq_refl) as (Hstatus & _). exact Hstatus.
  - assert (main counting_trainer two_tasks 5 (fresh_process 10)
            = ((main counting_trainer two_tasks 5 (fresh_process 10)).1.1,
               (main counting_trainer two_tasks 5 (fresh_process 10)).1.2,
               (main counting_trainer two_tasks 5 (fresh_process 10)).2)) as Hrun
      by (vm_compute; reflexivity).
    destruct (eval_only_evaluates_once_and_exits counting_trainer two_tasks 5
                (fresh_process 10) _ _ _ Hrun) as [_ Htrain].
    exact (Htrain eq_refl).
Defined.

(** C6 as stated fails: an evaluation-only run whose evaluation returns
    scores that [json.dumps] does not encode makes its one evaluation and
    logs the line of each metric, then raises a [TypeError] at line 161: no
    line carries the score mapping as JSON, and the process does not exit
    successfully. *)
Lemma eval_only_raises_on_unencodable_scores :
  run_all_evals float32_evaluator (fresh_process 10)
  = Ok ([("valid_acc", 1%Z); ("valid_loss", 7%Z)], fresh_process 10)
  ∧ main float32_evaluator two_tasks_eval 5 (fresh_process 10)
    = (startup_calls
       ++ [SetCUDA true; CallBuildEnv; CallBuildModules; CallTrainer; CallEvaluator;
           CallRunAllEvals; LogMetric "valid_acc" 1%Z; LogMetric "valid_loss" 7%Z],
       fresh_process 10, Raises TypeError).
Proof. split; [reflexivity|]. vm_compute. reflexivity. Qed.

Lemma bad_device_request_fails_at_startup_witness :
  main counting_trainer cpu_and_multi_gpu 3 (fresh_process 10)
  = (startup_calls, fresh_process 10, Raises AssertionError)
  ∧ main no_accelerator two_tasks 3 (fresh_process 10)
    = (startup_calls, fresh_process 10, Raises AssertionError).
Proof.
  split.
  - assert (cpu cpu_and_multi_gpu = true ∧ multi_gpu cpu_and_multi_gpu = true) as Hboth
      by (split; reflexivity).
    destruct (bad_device_request_fails_at_startup counting_trainer cpu_and_multi_gpu 3
                (fresh_process 10) (or_introl Hboth)) as [_ Hfails].
    apply (Hfails (fresh_process 10) (fresh_process 10)); reflexivity.
  - assert (cpu two_tasks = false ∧ ∀ q, cuda_is_available no_accelerator q = false)
      as Hnone by (split; [reflexivity | intros q; reflexivity]).
    destruct (bad_device_request_fails_at_startup no_accelerator two_tasks 3
                (fresh_process 10) (or_intror Hnone)) as [_ Hfails].
    apply (Hfails (fresh_process 10) (fresh_process 10)); reflexivity.
Defined.

Lemma epoch_end_calls_are_the_masters_witness :
  omap epoch_end_kind (main counting_trainer two_tasks 5 (fresh_process 10)).1.1
  = [EpochEnded; Evaluated; SavedBest; SavedPeriodic; StoppingUpdated]
  ∧ Forall (λ ev, is_master_call ev = false)
      (main counting_trainer two_tasks_worker 5 (fresh_process 10)).1.1.
Proof.
  split.
  - assert (main counting_trainer two_tasks 5 (fresh_process 10)
            = ((main counting_trainer two_tasks 5 (fresh_process 10)).1.1,
               (main counting_trainer two_tasks 5 (fresh_process 10)).1.2,
               Returns tt)) as Hrun
      by (vm_compute; reflexivity).
    destruct (epoch_end_calls_are_the_masters counting_trainer two_tasks 5
                (fresh_process 10) _ _ _ eq_refl Hrun) as (_ & _ & Hall & _).
    exact (Hall eq_refl).
  - assert (main counting_trainer two_tasks_worker 5 (fresh_process 10)
            = ((main counting_trainer two_tasks_worker 5 (fresh_process 10)).1.1,
               (main counting_trainer two_tasks_worker 5 (fresh_process 10)).1.2,
               (main counting_trainer two_tasks_worker 5 (fresh_process 10)).2)) as Hrun
      by (vm_compute; reflexivity).
    destruct (epoch_end_calls_are_the_masters counting_trainer two_tasks_worker 5
                (fresh_process 10) _ _ _ eq_refl Hrun) as (_ & _ & _ & Hworker).
    exact (Hworker eq_refl).
Defined.

(** * Reconciliation: what else lines 206-241 show *)

Local Close Scope run_scope.
Local Open Scope py_scope.

(** The outcome of a run, apart from the state it reaches. *)
Lemma outcome_eq {S A} (s s' : S) (r r' : outcome A) : (s, r) = (s', r') → r = r'.
Proof. by intros [= _ ->]. Qed.

Lemma state_eq {S A} (s s' : S) (r r' : outcome A) : (s, r) = (s', r') → s = s'.
Proof. by intros [= -> _]. Qed.

Lemma str_or_not (v : value) : (∃ s, v = VStr s) ∨ (∀ s, v ≠ VStr s).
Proof. destruct v; try by right. left. by eexists. Qed.

(** Lines 207-234 when [eval_from_exp] is not a string: the concatenation
    of line 208 fails. *)
Lemma merge_snapshot_not_str fs params v :
  params !! "eval_from_exp" = Some v → (∀ dir, v ≠ VStr dir) →
  merge_snapshot fs params = (params, Raises TypeError).
Proof.
  intros Hv Hstr. unfold merge_snapshot. rewrite bind_getattr, Hv.
  destruct v; try (by rewrite bind_lift). by destruct (Hstr s).
Qed.

(** The test of line 206, when it holds. *)
Lemma resuming_true params :
  resuming params = (params, Returns true) →
  ∃ v, params !! "eval_from_exp" = Some v ∧ ne_empty v = true.
Proof.
  rewrite resuming_run.
  destruct (params !! "eval_only") as [eval_only|]; [|by intros ?%outcome_eq].
  destruct (truthy eval_only); [|by intros ?%outcome_eq].
  destruct (params !! "eval_from_exp") as [v|]; [|by intros ?%outcome_eq].
  intros [= Hne]%outcome_eq. by exists v.
Qed.

(** How a reconciliation that returns has gone. *)
Lemma reconcile_returns fs params params' :
  reconcile fs params = (params', Returns tt) →
  (resuming params = (params, Returns false) ∧ params' = params)
  ∨ (resuming params = (params, Returns true)
     ∧ ∃ merged dir,
         merge_snapshot fs params = (merged, Returns (VStr dir))
         ∧ after_merge fs (VStr dir) merged = (params', Returns tt)).
Proof.
  intros Hrun.
  destruct (resuming params) as [s [[]| |]] eqn:Hresume.
  - pose proof (resuming_eq params true) as Heq. rewrite Hresume in Heq.
    specialize (Heq eq_refl). apply state_eq in Heq as ->.
    right. split; [done|]. rewrite (reconcile_active _ _ Hresume) in Hrun.
    destruct (merge_snapshot fs params) as [merged [exp_str| |]] eqn:Hmerge;
      [|by apply outcome_eq in Hrun..].
    destruct (merge_snapshot_returns _ _ _ _ Hmerge) as (dir & _ & _ & -> & _).
    by exists merged, dir.
  - pose proof (resuming_eq params false) as Heq. rewrite Hresume in Heq.
    specialize (Heq eq_refl). apply state_eq in Heq as ->.
    left. split; [done|]. rewrite (reconcile_inactive _ _ Hresume) in Hrun.
    by apply state_eq in Hrun.
  - unfold reconcile, bind in Hrun. rewrite Hresume in Hrun. by apply outcome_eq in Hrun.
  - unfold reconcile, bind in Hrun. rewrite Hresume in Hrun. by apply outcome_eq in Hrun.
Qed.

(** X1.  Reconciliation returns with the parameters untouched, whatever the
    files are, exactly when the test of line 206 is false: evaluation only
    is off, or no experiment to evaluate from is named. *)
Theorem reconcile_skipped_iff params :
  resuming params = (params, Returns false)
  ↔ ∀ fs, reconcile fs params = (params, Returns tt).
Proof.
  split; [intros Hresume fs; by apply reconcile_inactive|].
  intros Hall. destruct (reconcile_returns _ _ _ (Hall no_files))
    as [[Hresume _]|[Hresume (merged & dir & Hmerge & _)]]; [done|].
  destruct (resuming_true _ Hresume) as (v & Hv & _).
  destruct (str_or_not v) as [[d ->]|Hstr].
  - rewrite (merge_snapshot_run _ _ _ Hv) in Hmerge. cbn in Hmerge.
    by apply outcome_eq in Hmerge.
  - rewrite (merge_snapshot_not_str _ _ v Hv Hstr) in Hmerge. by apply outcome_eq in Hmerge.
Qed.

(** X2.  Lines 207-230 assign nothing: when the snapshot cannot be merged,
    the parameters are those of the command line still, and the exception
    is an [AssertionError] (no [params.pkl]), a [TypeError] (the directory
    is not a string), the [KeyError] of an identity field that the snapshot
    lacks, or what loading the pickle raised. *)
Theorem failed_merge_leaves_params fs params s e :
  resuming params = (params, Returns true) →
  merge_snapshot fs params = (s, Raises e) →
  s = params
  ∧ reconcile fs params = (params, Raises e)
  ∧ ((∃ dir, params !! "eval_from_exp" = Some (VStr dir)
             ∧ isfile fs (String.append dir "/params.pkl") = false
             ∧ e = AssertionError)
     ∨ (∃ v, params !! "eval_from_exp" = Some v ∧ (∀ dir, v ≠ VStr dir) ∧ e = TypeError)
     ∨ (∃ dir pk key,
          pickle_load fs (String.append dir "/params.pkl") = Ok pk
          ∧ key ∈ identity_fields ∧ pk !! key = None ∧ e = KeyError key)
     ∨ (∃ dir, pickle_load fs (String.append dir "/params.pkl") = Raise e)).
Proof.
  intros Hresume Hmerge.
  assert (s = params ∧
    ((∃ dir, params !! "eval_from_exp" = Some (VStr dir)
             ∧ isfile fs (String.append dir "/params.pkl") = false
             ∧ e = AssertionError)
     ∨ (∃ v, params !! "eval_from_exp" = Some v ∧ (∀ dir, v ≠ VStr dir) ∧ e = TypeError)
     ∨ (∃ dir pk key,
          pickle_load fs (String.append dir "/params.pkl") = Ok pk
          ∧ key ∈ identity_fields ∧ pk !! key = None ∧ e = KeyError key)
     ∨ (∃ dir, pickle_load fs (String.append dir "/params.pkl") = Raise e)))
    as [-> Hcases].
  { destruct (resuming_true _ Hresume) as (v & Hv & _).
    destruct (str_or_not v) as [[dir ->]|Hstr'].
    - rewrite (merge_snapshot_run _ _ _ Hv) in Hmerge.
      destruct (isfile fs _) eqn:Hfile.
      + destruct (pickle_load fs _) as [pk|e'] eqn:Hload.
        * destruct (strip_snapshot pk) as [pickled_args|e'] eqn:Hstrip;
            [by apply outcome_eq in Hmerge|].
          split; [by apply state_eq in Hmerge|].
          apply outcome_eq in Hmerge. injection Hmerge as ->.
          right; right; left. exists dir, pk.
          destruct (decide (is_Some (pk !! "exp_id") ∧ is_Some (pk !! "dump_path")
                            ∧ is_Some (pk !! "exp_name"))) as [Hall|Hnot].
          { assert (strip_snapshot pk =
                      Ok (del_if_present per_run_fields
                            (delete "exp_name" (delete "dump_path" (delete "exp_id" pk)))))
              as Hok by by apply strip_snapshot_Ok.
            by rewrite Hok in Hstrip. }
          destruct (strip_snapshot_missing _ Hnot) as (key & Hkey & Hnone & Hraise).
          exists key. repeat split; [done..|]. rewrite Hraise in Hstrip. by injection Hstrip.
        * split; [by apply state_eq in Hmerge|].
          apply outcome_eq in Hmerge. injection Hmerge as ->.
          right; right; right. by exists dir.
      + split; [by apply state_eq in Hmerge|].
        apply outcome_eq in Hmerge. injection Hmerge as <-.
        left. by exists dir.
    - rewrite (merge_snapshot_not_str _ _ v Hv Hstr') in Hmerge.
      split; [by apply state_eq in Hmerge|].
      apply outcome_eq in Hmerge. injection Hmerge as <-.
      right; left. by exists v. }
  split; [done|]. split; [|done].
  rewrite (reconcile_active _ _ Hresume). by rewrite Hmerge.
Qed.

(** X2 on the command line of the example, in a directory that holds no
    file. *)
Lemma failed_merge_leaves_params_witness :
  (merge_snapshot no_files cli_params).1 = cli_params
  ∧ reconcile no_files cli_params = (cli_params, Raises AssertionError).
Proof.
  assert (resuming cli_params = (cli_params, Returns true)) as Hresume
    by (apply resuming_eq; vm_compute; reflexivity).
  assert (merge_snapshot no_files cli_params
          = ((merge_snapshot no_files cli_params).1, Raises AssertionError)) as Hmerge
    by (apply run_eq; vm_compute; reflexivity).
  destruct (failed_merge_leaves_params no_files cli_params _ _ Hresume Hmerge)
    as (Hs & Hrun & _).
  split; [exact Hs|exact Hrun].
Defined.

(** The attributes of [params] after the merge loop, against the snapshot as
    it was loaded. *)
Lemma merged_from_snapshot pk pickled_args params k :
  strip_snapshot pk = Ok pickled_args →
  merge_loop (keys_of params) pickled_args params !! k =
    match params !! k with
    | Some v => Some (if decide (k ∈ excluded_fields) then v else default v (pk !! k))
    | None => None
    end.
Proof.
  intros Hstrip. rewrite merged_lookup, (stripped_lookup _ _ _ Hstrip).
  destruct (params !! k); [|done]. by destruct (decide (k ∈ excluded_fields)).
Qed.

(** X3.  The merge loop of lines 232-234 assigns to attributes that
    [params] has already: the parameters keep their attribute names, a field
    that only the snapshot has is not copied, and a field that the snapshot
    lacks keeps its value. *)
Theorem merge_keeps_the_attribute_names fs params merged exp_str :
  merge_snapshot fs params = (merged, Returns exp_str) →
  (∀ k, is_Some (merged !! k) ↔ is_Some (params !! k))
  ∧ ∃ dir pk,
      exp_str = VStr dir
      ∧ pickle_load fs (String.append dir "/params.pkl") = Ok pk
      ∧ (∀ k, params !! k = None → merged !! k = None)
      ∧ (∀ k, pk !! k = None → merged !! k = params !! k).
Proof.
  intros Hmerge.
  destruct (merge_snapshot_returns _ _ _ _ Hmerge)
    as (dir & pk & pickled_args & -> & _ & _ & Hload & Hstrip & ->).
  split.
  - intros k. rewrite (merged_from_snapshot _ _ _ _ Hstrip).
    destruct (params !! k); [|done]. split; by eexists.
  - exists dir, pk. repeat split; [done| |]; intros k Hk;
      rewrite (merged_from_snapshot _ _ _ _ Hstrip).
    + by rewrite Hk.
    + rewrite Hk. destruct (params !! k); [|done]. by destruct (decide _).
Qed.

(** X3 on the example: [is_master] is in the snapshot only. *)
Lemma merge_keeps_the_attribute_names_witness :
  (∀ k, is_Some ((merge_snapshot exp_files cli_params).1 !! k) ↔ is_Some (cli_params !! k))
  ∧ (merge_snapshot exp_files cli_params).1 !! "is_master" = None.
Proof.
  assert (merge_snapshot exp_files cli_params
          = ((merge_snapshot exp_files cli_params).1, Returns (VStr "/exp/run1"))) as Hmerge
    by (apply run_eq; vm_compute; reflexivity).
  destruct (merge_keeps_the_attribute_names exp_files cli_params _ _ Hmerge)
    as (Hnames & dir & pk & Hdir & Hload & Honly & Hlacks).
  split; [exact Hnames|].
  apply Honly. vm_compute. reflexivity.
Defined.

(** What lines 236-241 leave of the attribute names. *)
Lemma after_merge_names fs dir ns ns' k :
  after_merge fs (VStr dir) ns = (ns', Returns tt) →
  (is_Some (ns !! k) → is_Some (ns' !! k))
  ∧ (is_Some (ns' !! k) →
     is_Some (ns !! k) ∨ k ∈ ["eval_only"; "reload_model"; "eval_size"; "reload_data"]).
Proof.
  intros Hrun.
  destruct (decide (k ∈ ["eval_only"; "reload_model"; "eval_size"; "reload_data"]))
    as [Hin|Hout].
  - split; [|by right]. intros Hk.
    destruct (after_merge_returns _ _ _ _ Hrun) as [metric Hmetric].
    rewrite (after_merge_run fs dir metric ns Hmetric) in Hrun. cbv zeta in Hrun.
    destruct (isfile fs _); [|by apply outcome_eq in Hrun].
    destruct (ns !! "eval_data") as [eval_data|]; [|by apply outcome_eq in Hrun].
    destruct (ne_empty eval_data).
    + destruct (ns !! "tasks") as [[| | | |tasks]|]; try by apply outcome_eq in Hrun.
      destruct eval_data as [| | | |path]; try by apply outcome_eq in Hrun.
      apply state_eq in Hrun as <-.
      repeat (apply elem_of_cons in Hin as [->|Hin]; [by rewrite ?lookup_insert_eq,
        ?lookup_insert_ne, ?lookup_insert_eq, ?lookup_insert_ne, ?lookup_insert_eq,
        ?lookup_insert_ne, ?lookup_insert_eq by done|]).
      by apply elem_of_nil in Hin.
    + apply state_eq in Hrun as <-.
      repeat (apply elem_of_cons in Hin as [->|Hin];
              [by rewrite ?lookup_insert_eq, ?lookup_insert_ne, ?lookup_insert_eq by done|]).
      by apply elem_of_nil in Hin.
  - rewrite (after_merge_frame _ _ _ _ _ Hrun Hout). split; [done|by left].
Qed.

Lemma reconcile_names fs params params' k :
  reconcile fs params = (params', Returns tt) →
  (is_Some (params !! k) → is_Some (params' !! k))
  ∧ (is_Some (params' !! k) →
     is_Some (params !! k)
     ∨ k ∈ ["eval_only"; "reload_model"; "eval_size"; "reload_data"]).
Proof.
  intros Hrun.
  destruct (reconcile_returns _ _ _ Hrun)
    as [[_ ->]|[_ (merged & dir & Hmerge & Hafter)]]; [split; [done|by left]|].
  destruct (merge_snapshot_returns _ _ _ _ Hmerge)
    as (dir' & pk & pickled_args & _ & _ & _ & _ & Hstrip & ->).
  destruct (after_merge_names _ _ _ _ k Hafter) as [Hkeep Hadd].
  assert (is_Some (merge_loop (keys_of params) pickled_args params !! k)
          ↔ is_Some (params !! k)) as Hmerged.
  { rewrite (merged_from_snapshot _ _ _ _ Hstrip).
    destruct (params !! k); [|done]. split; by eexists. }
  split.
  - intros Hk. apply Hkeep. by apply Hmerged.
  - intros Hk. destruct (Hadd Hk) as [Hin|Hin]; [|by right]. left. by apply Hmerged.
Qed.

(** X4.  Reconciliation removes no attribute of [params], and adds none but
    [eval_only], [reload_model], [eval_size] and [reload_data].  On
    parameters that have these four already, as those of the parser do, the
    attribute names after reconciliation are the names before. *)
Theorem reconcile_keeps_the_attribute_names fs params params' :
  reconcile fs params = (params', Returns tt) →
  (∀ k, (is_Some (params !! k) → is_Some (params' !! k))
        ∧ (is_Some (params' !! k) →
           is_Some (params !! k)
           ∨ k ∈ ["eval_only"; "reload_model"; "eval_size"; "reload_data"]))
  ∧ (Forall (λ k, is_Some (params !! k))
       ["eval_only"; "reload_model"; "eval_size"; "reload_data"] →
     ∀ k, is_Some (params' !! k) ↔ is_Some (params !! k)).
Proof.
  intros Hrun. split; [intros k; by apply (reconcile_names fs)|].
  intros Hfour k. destruct (reconcile_names fs params params' k Hrun) as [Hkeep Hadd].
  split; [|done]. intros Hk. destruct (Hadd Hk) as [Hin|Hin]; [done|].
  rewrite Forall_forall in Hfour. by apply Hfour.
Qed.

(** X4 on the example: [emb_dim] is kept, [is_master], which only the
    snapshot has, is not added. *)
Lemma reconcile_keeps_the_attribute_names_witness :
  is_Some ((reconcile exp_files cli_params).1 !! "emb_dim")
  ∧ (reconcile exp_files cli_params).1 !! "is_master" = None.
Proof.
  assert (reconcile exp_files cli_params
          = ((reconcile exp_files cli_params).1, Returns tt)) as Hrun
    by (apply run_eq; vm_compute; reflexivity).
  split.
  - apply (proj1 (reconcile_keeps_the_attribute_names exp_files cli_params _ Hrun) "emb_dim").
    vm_compute. by eexists.
  - apply eq_None_not_Some. intros Hk.
    destruct (proj2 (proj1 (reconcile_keeps_the_attribute_names exp_files cli_params _ Hrun)
                       "is_master") Hk) as [Hin|Hin].
    + vm_compute in Hin. by destruct Hin.
    + name_not_listed_in Hin.
Defined.

(** Lines 236-237 up to the reading of the validation metric. *)
Lemma after_merge_start fs dir ns :
  after_merge fs (VStr dir) ns =
    match ns !! "validation_metrics" with
    | None => (<["eval_only" := VBool true]> ns, Raises (AttributeError "validation_metrics"))
    | Some (VStr metric) => after_merge fs (VStr dir) ns
    | Some _ => (<["eval_only" := VBool true]> ns, Raises TypeError)
    end.
Proof.
  destruct (ns !! "validation_metrics") as [v|] eqn:Hv.
  - destruct v; try done; unfold after_merge;
      rewrite bind_setattr, bind_lift; cbn [add];
      rewrite bind_getattr, lookup_insert_ne, Hv by done; by rewrite bind_lift.
  - unfold after_merge. rewrite bind_setattr, bind_lift. cbn [add].
    by rewrite bind_getattr, lookup_insert_ne, Hv.
Qed.

(** X5.  [eval_from_exp] is not among the excluded fields: after
    reconciliation it holds what the snapshot holds, while the checkpoint
    to reload is looked for in the directory named on the command line,
    which line 209 has kept in [exp_str]. *)
Theorem eval_from_exp_is_the_snapshots fs params params' dir pk v :
  resuming params = (params, Returns true) →
  params !! "eval_from_exp" = Some (VStr dir) →
  pickle_load fs (String.append dir "/params.pkl") = Ok pk →
  pk !! "eval_from_exp" = Some v →
  reconcile fs params = (params', Returns tt) →
  params' !! "eval_from_exp" = Some v
  ∧ ∃ metric, params' !! "reload_model" = Some (VStr (best_path dir metric))
              ∧ isfile fs (best_path dir metric) = true.
Proof.
  intros Hresume Hdir Hload Hv Hrun.
  destruct (reconcile_returns _ _ _ Hrun)
    as [[Hno _]|[_ (merged & dir' & Hmerge & Hafter)]].
  { rewrite Hresume in Hno. by apply outcome_eq in Hno. }
  rewrite (merge_snapshot_run _ _ _ Hdir), Hload in Hmerge.
  destruct (isfile fs _); [|by apply outcome_eq in Hmerge].
  destruct (strip_snapshot pk) as [pickled_args|] eqn:Hstrip; [|by apply outcome_eq in Hmerge].
  pose proof (outcome_eq _ _ _ _ Hmerge) as [= <-].
  apply state_eq in Hmerge as <-.
  split.
  - rewrite (after_merge_frame _ _ _ _ "eval_from_exp" Hafter).
    + rewrite (merged_from_snapshot _ _ _ _ Hstrip), Hdir, Hv.
      by rewrite decide_False by name_not_listed.
    + name_not_listed.
  - destruct (after_merge_returns _ _ _ _ Hafter) as [metric Hmetric].
    exists metric. rewrite (after_merge_run fs dir metric _ Hmetric) in Hafter.
    cbv zeta in Hafter.
    destruct (isfile fs (best_path dir metric)); [|by apply outcome_eq in Hafter].
    split; [|done].
    destruct (_ !! "eval_data") as [eval_data|]; [|by apply outcome_eq in Hafter].
    destruct (ne_empty eval_data).
    + destruct (_ !! "tasks") as [[| | | |tasks]|]; try by apply outcome_eq in Hafter.
      destruct eval_data as [| | | |path]; try by apply outcome_eq in Hafter.
      apply state_eq in Hafter as <-. lookup_inserted.
    + apply state_eq in Hafter as <-. lookup_inserted.
Qed.

(** X5 on the example: the command line names [/exp/run1], the snapshot
    holds an empty [eval_from_exp]. *)
Lemma eval_from_exp_is_the_snapshots_witness :
  (reconcile exp_files cli_params).1 !! "eval_from_exp" = Some (VStr "")
  ∧ ∃ metric,
      (reconcile exp_files cli_params).1 !! "reload_model"
      = Some (VStr (best_path "/exp/run1" metric))
      ∧ isfile exp_files (best_path "/exp/run1" metric) = true.
Proof.
  apply (eval_from_exp_is_the_snapshots exp_files cli_params _ "/exp/run1" saved_snapshot).
  - apply resuming_eq. vm_compute. reflexivity.
  - vm_compute. reflexivity.
  - reflexivity.
  - vm_compute. reflexivity.
  - apply run_eq. vm_compute. reflexivity.
Defined.

(** X6.  With an empty [eval_data], lines 239-241 are skipped: the
    reconciled parameters are the merged ones with [eval_only] and
    [reload_model] assigned, so that [eval_size] and [reload_data] are left as
    the merge loop left them. *)
Theorem empty_eval_data_keeps_reload_data fs params merged exp_str params' :
  resuming params = (params, Returns true) →
  merge_snapshot fs params = (merged, Returns exp_str) →
  params !! "eval_data" = Some (VStr "") →
  reconcile fs params = (params', Returns tt) →
  (∃ dir metric,
     params' = <["reload_model" := VStr (best_path dir metric)]>
                 (<["eval_only" := VBool true]> merged))
  ∧ params' !! "eval_size" = merged !! "eval_size"
  ∧ params' !! "reload_data" = merged !! "reload_data".
Proof.
  intros Hresume Hmerge Hdata Hrun.
  assert (merged !! "eval_data" = Some (VStr "")) as Hdata'.
  { rewrite <- Hdata. apply (merge_keeps_excluded _ _ _ _ _ Hmerge).
    name_listed. }
  rewrite (reconcile_active _ _ Hresume), Hmerge in Hrun.
  destruct (merge_snapshot_returns _ _ _ _ Hmerge) as (dir & _ & _ & -> & _).
  destruct (after_merge_returns _ _ _ _ Hrun) as [metric Hmetric].
  rewrite (after_merge_run fs dir metric _ Hmetric), Hdata' in Hrun.
  cbv zeta in Hrun. cbn [ne_empty String.eqb negb] in Hrun.
  destruct (isfile fs _); [|by apply outcome_eq in Hrun].
  apply state_eq in Hrun as <-.
  split; [by exists dir, metric|]. split; lookup_inserted.
Qed.

(** X6 on the example, with no [eval_data] on the command line: [eval_size]
    is the snapshot's. *)
Lemma empty_eval_data_keeps_reload_data_witness :
  (reconcile exp_files (<["eval_data" := VStr ""]> cli_params)).1 !! "eval_size"
  = (merge_snapshot exp_files (<["eval_data" := VStr ""]> cli_params)).1 !! "eval_size"
  ∧ (reconcile exp_files (<["eval_data" := VStr ""]> cli_params)).1 !! "reload_data"
    = (merge_snapshot exp_files (<["eval_data" := VStr ""]> cli_params)).1 !! "reload_data".
Proof.
  apply (empty_eval_data_keeps_reload_data exp_files (<["eval_data" := VStr ""]> cli_params)
           _ (VStr "/exp/run1")).
  - apply resuming_eq. vm_compute. reflexivity.
  - apply run_eq. vm_compute. reflexivity.
  - vm_compute. reflexivity.
  - apply run_eq. vm_compute. reflexivity.
Defined.

(** X7.  The validation metric that line 237 puts in the path is the merged
    one, the snapshot's as a rule.  If it is missing, or is not a string
    ([None], a number), line 237 raises an [AttributeError] or a
    [TypeError]; [eval_only] is set by then, [reload_model] is not
    assigned. *)
Theorem validation_metrics_must_be_str fs params merged exp_str :
  resuming params = (params, Returns true) →
  merge_snapshot fs params = (merged, Returns exp_str) →
  (merged !! "validation_metrics" = None →
   reconcile fs params
   = (<["eval_only" := VBool true]> merged, Raises (AttributeError "validation_metrics")))
  ∧ (∀ v, merged !! "validation_metrics" = Some v → (∀ metric, v ≠ VStr metric) →
     reconcile fs params = (<["eval_only" := VBool true]> merged, Raises TypeError)).
Proof.
  intros Hresume Hmerge.
  rewrite (reconcile_active _ _ Hresume), Hmerge.
  destruct (merge_snapshot_returns _ _ _ _ Hmerge) as (dir & _ & _ & -> & _).
  rewrite after_merge_start. split.
  - by intros ->.
  - intros v -> Hstr. destruct v; try done. by destruct (Hstr s).
Qed.

(** X7 on a snapshot whose validation metric is [None]. *)
Lemma validation_metrics_must_be_str_witness :
  (reconcile exp_files_no_metric cli_params).2 = Raises TypeError
  ∧ (reconcile exp_files_no_metric cli_params).1 !! "eval_only" = Some (VBool true)
  ∧ (reconcile exp_files_no_metric cli_params).1 !! "reload_model" = Some (VStr "").
Proof.
  assert (resuming cli_params = (cli_params, Returns true)) as Hresume
    by (apply resuming_eq; vm_compute; reflexivity).
  assert (merge_snapshot exp_files_no_metric cli_params
          = ((merge_snapshot exp_files_no_metric cli_params).1, Returns (VStr "/exp/run1")))
    as Hmerge by (apply run_eq; vm_compute; reflexivity).
  destruct (validation_metrics_must_be_str _ _ _ _ Hresume Hmerge) as [_ Hrun].
  rewrite (Hrun VNone); [|vm_compute; reflexivity|done].
  cbn [fst snd]. split; [reflexivity|]. split; vm_compute; reflexivity.
Defined.

(** * Debug mode (lines 244-248) *)

(** ** The number in a generated experiment id *)

Lemma digit_value_char (d : N) : (d < 10)%N → digit_value (digit_char d) = Some d.
Proof.
  intros Hd. unfold digit_value, digit_char.
  rewrite N_ascii_embedding by lia.
  replace ((48 <=? 48 + d)%N) with true by (symmetry; apply N.leb_le; lia).
  replace ((48 + d <=? 57)%N) with true by (symmetry; apply N.leb_le; lia).
  cbn [andb]. f_equal. lia.
Qed.

Lemma decimal_go_value fuel : ∀ n acc v,
  (n < 2 ^ N.of_nat fuel)%N →
  digits_value acc = Some v →
  digits_value (decimal_go fuel n acc)
  = Some (n * 10 ^ N.of_nat (String.length acc) + v)%N.
Proof.
  induction fuel as [|fuel IH]; intros n acc v Hn Hacc.
  - cbn in Hn. assert (n = 0%N) as -> by lia. cbn [decimal_go]. rewrite Hacc. f_equal; lia.
  - cbn [decimal_go]. cbv zeta.
    assert (digits_value (String (digit_char (n mod 10)) acc)
            = Some ((n mod 10) * 10 ^ N.of_nat (String.length acc) + v)%N) as Hacc'.
    { cbn [digits_value]. rewrite digit_value_char by (apply N.mod_lt; lia).
      by rewrite Hacc. }
    destruct (n <? 10)%N eqn:Hlt.
    + apply N.ltb_lt in Hlt. rewrite Hacc'. by rewrite N.mod_small.
    + apply N.ltb_ge in Hlt.
      assert (n / 10 < 2 ^ N.of_nat fuel)%N as Hn'.
      { rewrite Nat2N.inj_succ, N.pow_succ_r in Hn by lia.
        apply N.Div0.div_lt_upper_bound. lia. }
      rewrite (IH _ _ _ Hn' Hacc'). f_equal. cbn [String.length].
      rewrite Nat2N.inj_succ, N.pow_succ_r by lia.
      pose proof (N.div_mod n 10 ltac:(lia)) as Hdiv. nia.
Qed.

Lemma decimal_go_length fuel : ∀ n acc k,
  (1 ≤ k)%nat → (n < 10 ^ N.of_nat k)%N →
  (String.length (decimal_go fuel n acc) ≤ k + String.length acc)%nat.
Proof.
  induction fuel as [|fuel IH]; intros n acc k Hk Hn; cbn [decimal_go]; [lia|].
  cbv zeta. destruct (n <? 10)%N eqn:Hlt.
  - cbn [String.length]. lia.
  - apply N.ltb_ge in Hlt. destruct k as [|[|k]]; [lia| |].
    + cbn in Hn. lia.
    + assert (n / 10 < 10 ^ N.of_nat (S k))%N as Hn'.
      { rewrite (Nat2N.inj_succ (S k)), N.pow_succ_r in Hn by lia.
        apply N.Div0.div_lt_upper_bound. lia. }
      pose proof (IH (n / 10)%N (String (digit_char (n mod 10)) acc) (S k)
                    ltac:(lia) Hn') as Hlen.
      cbn [String.length] in Hlen. lia.
Qed.

Lemma decimal_value (n : N) : digits_value (decimal n) = Some n.
Proof.
  unfold decimal. rewrite (decimal_go_value _ _ _ 0%N); [f_equal; cbn; lia| |done].
  rewrite Nat2N.inj_succ, N2Nat.id.
  destruct (decide (n = 0%N)) as [->|Hn]; [done|].
  apply N.log2_lt_pow2; lia.
Qed.

Lemma decimal_length (n : N) k :
  (1 ≤ k)%nat → (n < 10 ^ N.of_nat k)%N → (String.length (decimal n) ≤ k)%nat.
Proof.
  intros Hk Hn. unfold decimal.
  etrans; [by apply (decimal_go_length _ _ _ k)|]. cbn [String.length]. lia.
Qed.

Lemma length_append (a b : string) :
  String.length (a +:+ b) = (String.length a + String.length b)%nat.
Proof.
  induction a as [|c a IH]; [by rewrite append_empty|].
  rewrite append_cons. cbn [String.length]. by rewrite IH.
Qed.

Lemma zeros_length k : String.length (zeros k) = k.
Proof. induction k as [|k IH]; cbn; [done|by rewrite IH]. Qed.

Lemma zero_pad_length width s :
  String.length (zero_pad width s) = (width `max` String.length s)%nat.
Proof. unfold zero_pad. rewrite length_append, zeros_length. lia. Qed.

Lemma zero_pad_value width s : digits_value (zero_pad width s) = digits_value s.
Proof.
  unfold zero_pad. induction (width - String.length s)%nat as [|k IH];
    [by rewrite append_empty|].
  cbn [zeros]. rewrite append_cons. cbn [digits_value]. rewrite IH.
  replace (digit_value "0") with (Some 0%N) by reflexivity.
  destruct (digits_value s); [|done]. f_equal; lia.
Qed.

(** What ["%08i" % z] writes for a number that [random.randint(0, 100000000)]
    can return. *)
Lemma format_08i_drawn (z : Z) :
  (0 ≤ z ≤ 100000000)%Z →
  digits_value (format_08i z) = Some (Z.to_N z)
  ∧ String.length (format_08i z) = (if (z <? 100000000)%Z then 8 else 9)%nat.
Proof.
  intros Hz. unfold format_08i.
  replace (z <? 0)%Z with false by (symmetry; apply Z.ltb_ge; lia).
  split; [by rewrite zero_pad_value, decimal_value|].
  rewrite zero_pad_length.
  destruct (z <? 100000000)%Z eqn:Hlt.
  - apply Z.ltb_lt in Hlt.
    assert (String.length (decimal (Z.to_N z)) ≤ 8)%nat as Hlen; [|lia].
    apply decimal_length; [lia|]. change (10 ^ N.of_nat 8)%N with 100000000%N. lia.
  - apply Z.ltb_ge in Hlt. assert (z = 100000000%Z) as -> by lia. reflexivity.
Qed.

Lemma append_inv_l (a b c : string) : a +:+ b = a +:+ c → b = c.
Proof.
  induction a as [|x a IH]; [by rewrite !append_empty|].
  rewrite !append_cons. intros [= H]. by apply IH.
Qed.

(** ** The block *)

Lemma debug_mode_run drawn_id params :
  debug_mode drawn_id params =
    match params !! "debug" with
    | None => (params, Raises (AttributeError "debug"))
    | Some debug =>
        if truthy debug then
          match params !! "exp_id" with
          | None => (<["exp_name" := VStr "debug"]> params, Raises (AttributeError "exp_id"))
          | Some exp_id =>
              (<["debug_slurm" := VBool true]>
                 (if ne_empty exp_id then <["exp_name" := VStr "debug"]> params
                  else <["exp_id" := VStr (String.append "debug_" (format_08i drawn_id))]>
                         (<["exp_name" := VStr "debug"]> params)),
               Returns tt)
          end
        else (params, Returns tt)
    end.
Proof.
  unfold debug_mode. rewrite bind_getattr.
  destruct (params !! "debug") as [debug|]; [|done].
  destruct (truthy debug); [|done].
  rewrite bind_setattr, bind_getattr, lookup_insert_ne by done.
  destruct (params !! "exp_id") as [exp_id|]; [|done].
  by destruct (ne_empty exp_id).
Qed.

(** X8.  Debug mode is entered on a true [debug] only.  It then names the
    experiment [debug] and turns [debug_slurm] on; an experiment id that is
    given is kept, and the id is not empty afterwards; no other attribute
    changes. *)
Theorem debug_mode_effects drawn_id params debug :
  params !! "debug" = Some debug →
  (truthy debug = false → debug_mode drawn_id params = (params, Returns tt))
  ∧ (truthy debug = true →
     ∀ exp_id, params !! "exp_id" = Some exp_id →
     ∃ params' id,
       debug_mode drawn_id params = (params', Returns tt)
       ∧ params' !! "exp_name" = Some (VStr "debug")
       ∧ params' !! "debug_slurm" = Some (VBool true)
       ∧ params' !! "exp_id" = Some id
       ∧ ne_empty id = true
       ∧ (ne_empty exp_id = true → id = exp_id)
       ∧ (∀ k, k ∉ ["exp_name"; "exp_id"; "debug_slurm"] → params' !! k = params !! k)).
Proof.
  intros Hdebug. rewrite debug_mode_run, Hdebug. split; [by intros ->|].
  intros -> exp_id Hid. rewrite Hid.
  assert (∀ k, k ∉ ["exp_name"; "exp_id"; "debug_slurm"] →
               k ≠ "exp_name" ∧ k ≠ "exp_id" ∧ k ≠ "debug_slurm") as Hother.
  { intros k Hk. repeat split; intros ->; apply Hk; repeat constructor. }
  destruct (ne_empty exp_id) eqn:Hne.
  - eexists _, exp_id. split; [done|].
    split_and!; [lookup_inserted|lookup_inserted| |done|done|].
    + by rewrite !lookup_insert_ne.
    + intros k (? & ? & ?)%Hother. by rewrite !lookup_insert_ne.
  - eexists _, _. split; [done|].
    split_and!; [lookup_inserted|lookup_inserted|lookup_inserted| |done|].
    + cbn [ne_empty]. by rewrite append_cons.
    + intros k (? & ? & ?)%Hother. by rewrite !lookup_insert_ne.
Qed.

(** X8 on the command line of the example with [--debug]. *)
Lemma debug_mode_effects_witness :
  ∃ params' id,
    debug_mode 42 cli_debug_params = (params', Returns tt)
    ∧ params' !! "exp_name" = Some (VStr "debug")
    ∧ params' !! "debug_slurm" = Some (VBool true)
    ∧ params' !! "exp_id" = Some id
    ∧ ne_empty id = true
    ∧ (ne_empty (VStr "e2") = true → id = VStr "e2")
    ∧ (∀ k, k ∉ ["exp_name"; "exp_id"; "debug_slurm"] →
            params' !! k = cli_debug_params !! k).
Proof.
  apply (debug_mode_effects 42 cli_debug_params (VBool true)).
  - vm_compute. reflexivity.
  - reflexivity.
  - vm_compute. reflexivity.
Defined.

(** X9.  An experiment id that debug mode generates is [debug_] and the
    number drawn, in decimal digits: eight of them, with zeros in front,
    except for the upper bound 100000000 of the draw, which takes nine.  The
    number is read back from the id, so that two draws give the same id only
    if they are the same number. *)
Theorem generated_exp_id drawn_id params debug :
  (0 ≤ drawn_id ≤ 100000000)%Z →
  params !! "debug" = Some debug → truthy debug = true →
  params !! "exp_id" = Some (VStr "") →
  (∃ digits,
     (debug_mode drawn_id params).1 !! "exp_id" = Some (VStr (String.append "debug_" digits))
     ∧ digits_value digits = Some (Z.to_N drawn_id)
     ∧ String.length digits = (if (drawn_id <? 100000000)%Z then 8 else 9)%nat)
  ∧ (∀ drawn_id', (0 ≤ drawn_id' ≤ 100000000)%Z →
       (debug_mode drawn_id' params).1 !! "exp_id" = (debug_mode drawn_id params).1 !! "exp_id" →
       drawn_id' = drawn_id).
Proof.
  intros Hdrawn Hdebug Htrue Hid.
  assert (∀ z, (debug_mode z params).1 !! "exp_id"
               = Some (VStr (String.append "debug_" (format_08i z)))) as Hrun.
  { intros z. rewrite debug_mode_run, Hdebug, Htrue, Hid. cbn [ne_empty String.eqb negb fst].
    lookup_inserted. }
  destruct (format_08i_drawn _ Hdrawn) as [Hvalue Hlength].
  split; [by exists (format_08i drawn_id)|].
  intros z Hz. rewrite !Hrun. intros [= Heq%append_inv_l].
  destruct (format_08i_drawn _ Hz) as [Hvalue' _].
  rewrite Heq, Hvalue in Hvalue'. injection Hvalue' as Hvalue'. lia.
Qed.

(** X9 on the draw 42, and on the upper bound of the draw. *)
Lemma generated_exp_id_witness :
  (∃ digits,
     (debug_mode 42 (<["exp_id" := VStr ""]> cli_debug_params)).1 !! "exp_id"
     = Some (VStr (String.append "debug_" digits))
     ∧ digits_value digits = Some (Z.to_N 42)
     ∧ String.length digits = 8%nat)
  ∧ (debug_mode 42 (<["exp_id" := VStr ""]> cli_debug_params)).1 !! "exp_id"
    = Some (VStr "debug_00000042").
Proof.
  split.
  - apply (generated_exp_id 42 (<["exp_id" := VStr ""]> cli_debug_params) (VBool true)).
    + lia.
    + vm_compute. reflexivity.
    + reflexivity.
    + vm_compute. reflexivity.
  - vm_compute. reflexivity.
Defined.

(** * Lines 206-248: reconciliation, then debug mode *)

Lemma prepare_params_run fs drawn_id params :
  prepare_params fs drawn_id params =
    match reconcile fs params with
    | (params', Returns _) => debug_mode drawn_id params'
    | (s, Raises e) => (s, Raises e)
    | (s, OutOfFuel) => (s, OutOfFuel)
    end.
Proof. reflexivity. Qed.

(** X10.  [debug] is not among the excluded fields either: when the
    parameters are reconciled with a snapshot that holds a [debug], debug
    mode goes by the snapshot's flag, not by [--debug] on the command
    line. *)
Theorem debug_flag_is_the_snapshots fs drawn_id params params' dir pk debug :
  resuming params = (params, Returns true) →
  params !! "eval_from_exp" = Some (VStr dir) →
  pickle_load fs (String.append dir "/params.pkl") = Ok pk →
  is_Some (params !! "debug") →
  pk !! "debug" = Some debug →
  reconcile fs params = (params', Returns tt) →
  params' !! "debug" = Some debug
  ∧ (truthy debug = false →
     prepare_params fs drawn_id params = (params', Returns tt))
  ∧ (truthy debug = true → is_Some (params !! "exp_id") →
     ∃ s, prepare_params fs drawn_id params = (s, Returns tt)
          ∧ s !! "exp_name" = Some (VStr "debug")
          ∧ s !! "debug_slurm" = Some (VBool true)).
Proof.
  intros Hresume Hdir Hload [debug0 Hdebug0] Hdebug Hrun.
  assert (params' !! "debug" = Some debug) as Hflag.
  { destruct (reconcile_returns _ _ _ Hrun)
      as [[Hno _]|[_ (merged & dir' & Hmerge & Hafter)]].
    { rewrite Hresume in Hno. by apply outcome_eq in Hno. }
    rewrite (merge_snapshot_run _ _ _ Hdir), Hload in Hmerge.
    destruct (isfile fs _); [|by apply outcome_eq in Hmerge].
    destruct (strip_snapshot pk) as [pickled_args|] eqn:Hstrip;
      [|by apply outcome_eq in Hmerge].
    apply state_eq in Hmerge as <-.
    rewrite (after_merge_frame _ _ _ _ "debug" Hafter) by name_not_listed.
    rewrite (merged_from_snapshot _ _ _ _ Hstrip), Hdebug0, Hdebug.
    by rewrite decide_False by name_not_listed. }
  split; [done|].
  rewrite prepare_params_run, Hrun, debug_mode_run, Hflag. split; [by intros ->|].
  intros -> Hid. apply (reconcile_names _ _ _ "exp_id" Hrun) in Hid as [exp_id ->].
  eexists. split; [done|].
  split; [|lookup_inserted]. destruct (ne_empty exp_id); lookup_inserted.
Qed.

(** X10 on the example: [--debug] on the command line, a snapshot of a run
    without it; the experiment keeps the name given on the command line. *)
Lemma debug_flag_is_the_snapshots_witness :
  (reconcile (exp_files_debug false) cli_debug_params).1 !! "debug" = Some (VBool false)
  ∧ prepare_params (exp_files_debug false) 42 cli_debug_params
    = ((reconcile (exp_files_debug false) cli_debug_params).1, Returns tt)
  ∧ (reconcile (exp_files_debug false) cli_debug_params).1 !! "exp_name" = Some (VStr "eval").
Proof.
  destruct (debug_flag_is_the_snapshots (exp_files_debug false) 42 cli_debug_params
              (reconcile (exp_files_debug false) cli_debug_params).1
              "/exp/run1" (saved_debug_snapshot false) (VBool false))
    as (Hflag & Hoff & _).
  - apply resuming_eq. vm_compute. reflexivity.
  - vm_compute. reflexivity.
  - reflexivity.
  - vm_compute. by eexists.
  - vm_compute. reflexivity.
  - apply run_eq. vm_compute. reflexivity.
  - split; [exact Hflag|]. split; [exact (Hoff eq_refl)|]. vm_compute. reflexivity.
Defined.

(** ** Namespaces that the parser has made *)

Lemma parsed_byb_spec parser ns : parsed_byb parser ns = true → parsed_by parser ns.
Proof.
  unfold parsed_byb, parsed_by. rewrite forallb_forall. intros Hall a Ha.
  specialize (Hall a). rewrite <- list_elem_of_In in Hall. specialize (Hall Ha).
  destruct (ns !! arg_dest a) as [v|]; [|done]. exists v. split; [done|].
  apply orb_true_iff in Hall as [Hdef%bool_decide_eq_true|Hconv]; [by left|by right].
Qed.

Lemma parsed_attr ns a :
  parsed_by get_parser ns → a ∈ get_parser → is_Some (ns !! arg_dest a).
Proof. intros Hns Ha. destruct (Hns a Ha) as (v & -> & _). by eexists. Qed.

Lemma parsed_str ns name d :
  parsed_by get_parser ns →
  {| arg_dest := name; arg_kind := ArgStr; arg_default := VStr d |} ∈ get_parser →
  ∃ s, ns !! name = Some (VStr s).
Proof.
  intros Hns Ha. destruct (Hns _ Ha) as (v & Hv & [->|Hconv]); cbn in *; [by eexists|].
  destruct v; try done. by eexists.
Qed.

(** Reconciliation of parsed parameters with a parsed snapshot. *)
Lemma parsed_reconcile fs params s r :
  parsed_by get_parser params →
  (∀ path pk, pickle_load fs path = Ok pk → parsed_by get_parser pk) →
  reconcile fs params = (s, r) →
  r = Returns tt ∨ r = Raises AssertionError
  ∨ ∃ path e, pickle_load fs path = Raise e ∧ r = Raises e.
Proof.
  intros Hparams Hsnap Hrun.
  destruct (parsed_attr params {| arg_dest := "eval_only"; arg_kind := ArgBoolFlag;
                                  arg_default := VBool false |} Hparams ltac:(option_listed))
    as [eval_only Honly]. cbn in Honly.
  destruct (parsed_str params "eval_from_exp" "" Hparams ltac:(option_listed)) as [dir Hdir].
  destruct (parsed_str params "validation_metrics" "" Hparams ltac:(option_listed))
    as [metric0 Hmetric0].
  destruct (parsed_str params "eval_data" "" Hparams ltac:(option_listed)) as [path Hpath].
  destruct (parsed_str params "tasks" "ode_lyapunov" Hparams ltac:(option_listed))
    as [tasks0 Htasks0].
  pose proof (resuming_run params) as Hresume. rewrite Honly, Hdir in Hresume.
  destruct (truthy eval_only); [destruct (ne_empty (VStr dir))|].
  - rewrite (reconcile_active _ _ Hresume), (merge_snapshot_run _ _ _ Hdir) in Hrun.
    destruct (isfile fs _); [|apply outcome_eq in Hrun as <-; by right; left].
    destruct (pickle_load fs _) as [pk|e] eqn:Hload;
      [|apply outcome_eq in Hrun as <-; right; right; by eexists _, _].
    pose proof (Hsnap _ _ Hload) as Hpk.
    destruct (parsed_str pk "exp_id" "" Hpk ltac:(option_listed)) as [? Hpk1].
    destruct (parsed_str pk "dump_path" "/path/to/your/storage" Hpk ltac:(option_listed))
      as [? Hpk2].
    destruct (parsed_str pk "exp_name" "debug" Hpk ltac:(option_listed)) as [? Hpk3].
    destruct (parsed_str pk "validation_metrics" "" Hpk ltac:(option_listed))
      as [metric Hmetric].
    destruct (parsed_str pk "tasks" "ode_lyapunov" Hpk ltac:(option_listed))
      as [tasks Htasks].
    assert (strip_snapshot pk =
              Ok (del_if_present per_run_fields
                    (delete "exp_name" (delete "dump_path" (delete "exp_id" pk)))))
      as Hstrip by (apply strip_snapshot_Ok; by rewrite Hpk1, Hpk2, Hpk3).
    rewrite Hstrip in Hrun.
    rewrite (after_merge_run fs dir metric) in Hrun.
    2:{ rewrite (merged_from_snapshot _ _ _ _ Hstrip), Hmetric0, Hmetric.
        by rewrite decide_False by name_not_listed. }
    cbv zeta in Hrun.
    rewrite !(merged_from_snapshot _ _ _ _ Hstrip), Hpath, Htasks0, Htasks in Hrun.
    rewrite decide_True in Hrun by name_listed.
    rewrite decide_False in Hrun by name_not_listed. cbn [default] in Hrun.
    destruct (isfile fs _); [|apply outcome_eq in Hrun as <-; by right; left].
    destruct (ne_empty (VStr path)); apply outcome_eq in Hrun as <-; by left.
  - rewrite (reconcile_inactive _ _ Hresume) in Hrun. apply outcome_eq in Hrun as <-. by left.
  - rewrite (reconcile_inactive _ _ Hresume) in Hrun. apply outcome_eq in Hrun as <-. by left.
Qed.

(** X11.  All the attributes that lines 206-248 read are options of
    [get_parser], and those they concatenate are [str] options.  So with
    parameters that the parser has made, and a snapshot of such parameters,
    these lines raise no [AttributeError], [KeyError] or [TypeError]: they
    return, or fail on a missing file with an [AssertionError], or with what
    loading the pickle raised. *)
Theorem parsed_params_prepare fs drawn_id params s r :
  parsed_by get_parser params →
  (∀ path pk, pickle_load fs path = Ok pk → parsed_by get_parser pk) →
  prepare_params fs drawn_id params = (s, r) →
  r = Returns tt ∨ r = Raises AssertionError
  ∨ ∃ path e, pickle_load fs path = Raise e ∧ r = Raises e.
Proof.
  intros Hparams Hsnap Hrun. rewrite prepare_params_run in Hrun.
  destruct (reconcile fs params) as [params' [[]|e|]] eqn:Hrec.
  - pose proof (parsed_attr params {| arg_dest := "debug"; arg_kind := ArgStoreTrue;
                                      arg_default := VBool false |} Hparams
                  ltac:(option_listed)) as Hdebug.
    pose proof (parsed_attr params {| arg_dest := "exp_id"; arg_kind := ArgStr;
                                      arg_default := VStr "" |} Hparams
                  ltac:(option_listed)) as Hid.
    apply (reconcile_names _ _ _ "debug" Hrec) in Hdebug as [debug Hdebug].
    apply (reconcile_names _ _ _ "exp_id" Hrec) in Hid as [exp_id Hid].
    rewrite debug_mode_run, Hdebug, Hid in Hrun.
    destruct (truthy debug); apply outcome_eq in Hrun as <-; by left.
  - apply outcome_eq in Hrun as <-. by apply (parsed_reconcile fs params params').
  - apply outcome_eq in Hrun as <-. by apply (parsed_reconcile fs params params').
Qed.

(** X11 on the defaults of the parser with [--eval_only true] and
    [--eval_from_exp /exp/run1]. *)
Lemma parsed_params_prepare_witness :
  ((prepare_params parsed_files 42 parsed_cli).2 = Returns tt
   ∨ (prepare_params parsed_files 42 parsed_cli).2 = Raises AssertionError
   ∨ ∃ path e, pickle_load parsed_files path = Raise e
               ∧ (prepare_params parsed_files 42 parsed_cli).2 = Raises e)
  ∧ (prepare_params parsed_files 42 parsed_cli).1 !! "reload_model"
    = Some (VStr "/exp/run1/best-valid_acc.pth").
Proof.
  split; [|vm_compute; reflexivity].
  apply (parsed_params_prepare parsed_files 42 parsed_cli
           (prepare_params parsed_files 42 parsed_cli).1).
  - apply parsed_byb_spec. vm_compute. reflexivity.
  - intros path pk. cbn [pickle_load parsed_files].
    destruct (String.eqb path "/exp/run1/params.pkl"); [|discriminate].
    intros <-%Ok_inj. apply parsed_byb_spec. vm_compute. reflexivity.
  - by destruct (prepare_params parsed_files 42 parsed_cli).
Defined.

(** * [main]: what else lines 135-197 show *)

Local Close Scope py_scope.
Local Open Scope run_scope.

Section EmitsOnly.
Context {Score Rng Other : Type}.
Variable P : event Score → Prop.

Lemma emits_only_silent {A} (c : Run Score Rng Other A) :
  (∀ p, (c p).1.1 = []) → emits_only P c.
Proof. intros Hc p d p' r Hrun. specialize (Hc p). rewrite Hrun in Hc. cbn in Hc. by subst. Qed.

Lemma emits_only_log ev : P ev → emits_only (Rng:=Rng) (Other:=Other) P (log ev).
Proof. intros Hev p d p' r Hrun. unfold log in Hrun. injection Hrun as <- _ _. by constructor. Qed.

Lemma emits_only_call ev (g : process Rng Other → result (process Rng Other)) :
  P ev → emits_only P (call ev g).
Proof.
  intros Hev p d p' r Hrun. unfold call in Hrun.
  destruct (g p); injection Hrun as <- _ _; by constructor.
Qed.

Lemma emits_only_call_ret {A} ev (g : process Rng Other → result (A * process Rng Other)) :
  P ev → emits_only P (call_ret ev g).
Proof.
  intros Hev p d p' r Hrun. unfold call_ret in Hrun.
  destruct (g p) as [[a p1]|]; injection Hrun as <- _ _; by constructor.
Qed.

Lemma emits_only_rbind {A B} (c : Run Score Rng Other A) (k : A → Run Score Rng Other B) :
  emits_only P c → (∀ a, emits_only P (k a)) → emits_only P (x <- c ;; k x).
Proof.
  intros Hc Hk p d p' r Hrun. rewrite rbind_run in Hrun.
  destruct (c p) as [[d1 p1] r1] eqn:Hcp. specialize (Hc _ _ _ _ Hcp).
  destruct r1 as [a| |]; [|by injection Hrun as <- _ _..].
  destruct (k a p1) as [[d2 p2] r2] eqn:Hkp. specialize (Hk _ _ _ _ _ Hkp).
  unfold emit_before in Hrun. cbn in Hrun. injection Hrun as <- _ _.
  by apply Forall_app.
Qed.

Lemma emits_only_for_range n (body : Run Score Rng Other unit) :
  emits_only P body → emits_only P (for_range n body).
Proof.
  intros Hbody. induction n as [|n IH]; cbn [for_range].
  - by apply emits_only_silent.
  - apply emits_only_rbind; [done|by intros _].
Qed.

End EmitsOnly.

Section MainEmitsOnly.
Context {Score Rng Other : Type}.
Variable C : collaborators Score Rng Other.
Variable params : run_params.
Variable P : event Score → Prop.
Hypothesis P_other : ∀ ev, is_work ev = false → P ev.
Hypothesis P_work : ∀ task, P (work_event params task).

Lemma emits_only_for_task_ids order : emits_only P (for_task_ids C params order).
Proof.
  induction order as [|task_id order IH]; cbn [for_task_ids].
  - by apply emits_only_silent.
  - apply emits_only_rbind.
    { unfold task_at. destruct (tasks params !! task_id); by apply emits_only_silent. }
    intros task. apply emits_only_rbind.
    { specialize (P_work task). unfold work_event in P_work.
      destruct (export_data params); by apply emits_only_call. }
    intros _. apply emits_only_rbind; [|by intros _].
    by apply emits_only_call, P_other.
Qed.

Lemma emits_only_inner_step : emits_only P (inner_step C params).
Proof.
  unfold inner_step. apply emits_only_rbind; [|intros order; apply emits_only_for_task_ids].
  intros p d p' r Hrun. unfold permutation in Hrun.
  destruct (np_random_permutation C _ _) as [order g].
  injection Hrun as <- _ _. constructor; [by apply P_other|done].
Qed.

Lemma emits_only_while_loop fuel : emits_only P (while_loop C params fuel).
Proof.
  induction fuel as [|fuel IH]; intros p d p' r; rewrite while_loop_unfold;
    destruct (Z.ltb _ _); intros Hrun; try by injection Hrun as <- _ _.
  revert Hrun. apply emits_only_rbind; [apply emits_only_inner_step|by intros _].
Qed.

Lemma emits_only_startup : emits_only P (startup C params).
Proof.
  unfold startup.
  repeat (apply emits_only_rbind; [|intros _]);
    try (by apply emits_only_call, P_other); try (by apply emits_only_log, P_other).
  destruct (cpu params).
  - unfold rassert. destruct (negb _); by apply emits_only_silent.
  - apply emits_only_rbind; [by apply emits_only_silent|].
    intros available. unfold rassert. destruct available; by apply emits_only_silent.
Qed.

Lemma emits_only_log_items (items : list (string * Score)) :
  emits_only P (log_items C items).
Proof.
  induction items as [|[k v] items IH]; cbn [log_items].
  - by apply emits_only_silent.
  - apply emits_only_rbind; [|by intros _]. unfold log_metric.
    destruct (formats_as_float C v); [by apply emits_only_log, P_other|].
    by apply emits_only_silent.
Qed.

Lemma emits_only_log_json scores : emits_only P (log_json C scores).
Proof.
  unfold log_json. destruct (forallb _ scores); [by apply emits_only_log, P_other|].
  by apply emits_only_silent.
Qed.

Lemma emits_only_evaluate_and_exit : emits_only P (evaluate_and_exit C).
Proof.
  unfold evaluate_and_exit.
  apply emits_only_rbind; [by apply emits_only_call_ret, P_other|intros scores].
  apply emits_only_rbind; [apply emits_only_log_items|intros _].
  apply emits_only_rbind; [apply emits_only_log_json|intros _].
  apply emits_only_rbind; [by apply emits_only_log, P_other|intros _].
  by apply emits_only_silent.
Qed.

Lemma emits_only_end_of_epoch : emits_only P (end_of_epoch C params).
Proof.
  unfold end_of_epoch. destruct (is_master params); [|by apply emits_only_silent].
  apply emits_only_rbind; [by apply emits_only_call_ret, P_other|intros scores].
  apply emits_only_rbind; [by apply emits_only_log, P_other|intros _].
  apply emits_only_rbind; [apply emits_only_log_items|intros _].
  apply emits_only_rbind; [apply emits_only_log_json|intros _].
  apply emits_only_rbind; [by apply emits_only_call, P_other|intros _].
  apply emits_only_rbind; [by apply emits_only_call, P_other|intros _].
  by apply emits_only_call, P_other.
Qed.

Lemma emits_only_epoch_body fuel : emits_only P (epoch_body C params fuel).
Proof.
  unfold epoch_body, start_epoch.
  apply emits_only_rbind.
  { apply emits_only_rbind; [by apply emits_only_silent|intros epoch].
    apply emits_only_rbind; [by apply emits_only_log, P_other|intros _].
    by apply emits_only_silent. }
  intros _. apply emits_only_rbind; [apply emits_only_while_loop|intros _].
  apply emits_only_rbind; [by apply emits_only_silent|intros epoch].
  apply emits_only_rbind; [by apply emits_only_log, P_other|intros _].
  apply emits_only_end_of_epoch.
Qed.

Lemma emits_only_main fuel : emits_only P (main C params fuel).
Proof.
  unfold main, training.
  apply emits_only_rbind; [apply emits_only_startup|intros _].
  apply emits_only_rbind.
  { destruct (eval_only params);
      [apply emits_only_evaluate_and_exit|by apply emits_only_silent]. }
  intros _. apply emits_only_for_range, emits_only_epoch_body.
Qed.
End MainEmitsOnly.

Section MoreOfMain.
Context {Score Rng Other : Type}.
Variable C : collaborators Score Rng Other.
Variable params : run_params.

(** X12.  A start-up that returns has made its three calls, fixed the
    device and built the environment, the modules, the trainer and the
    evaluator, in this order; and the device request was sound: CPU without
    multi-GPU, or else an accelerator that is available. *)
Theorem startup_returns_trace p d p' :
  startup C params p = (d, p', Returns tt) →
  d = startup_trace params
  ∧ (cpu params = true → multi_gpu params = false)
  ∧ (cpu params = false → ∃ q, cuda_is_available C q = true).
Proof.
  unfold startup, startup_trace, startup_calls. intros Hrun.
  rewrite rbind_call in Hrun.
  destruct (init_distributed_mode C p) as [p1|]; [|discriminate Hrun].
  rewrite rbind_call in Hrun.
  destruct (initialize_exp C p1) as [p2|]; [|discriminate Hrun].
  rewrite rbind_call in Hrun.
  destruct (init_signal_handler C p2) as [p3|]; [|discriminate Hrun].
  assert ((cpu params = true → multi_gpu params = false)
          ∧ (cpu params = false → ∃ q, cuda_is_available C q = true)
          ∧ emit_before [CallInitDistributedMode]
              (emit_before [CallInitializeExp]
                 (emit_before [CallInitSignalHandler]
                    ((log (SetCUDA (negb (cpu params))) ;;;
                      call CallBuildEnv (build_env C) ;;;
                      call CallBuildModules (build_modules C) ;;;
                      call CallTrainer (new_trainer C) ;;;
                      call CallEvaluator (new_evaluator C)) p3)))
            = (d, p', Returns tt)) as (Hcpu & Hgpu & Hrest).
  { destruct (cpu params) eqn:Hmode.
    - rewrite rbind_rassert in Hrun.
      destruct (multi_gpu params); [discriminate Hrun|]. by split_and!.
    - rewrite rbind_assoc, rbind_read, rbind_rassert in Hrun.
      destruct (cuda_is_available C p3) eqn:Hcuda; [|discriminate Hrun].
      split_and!; [done|by eauto|done]. }
  split; [|done]. clear Hrun.
  rewrite rbind_log, rbind_call in Hrest.
  destruct (build_env C p3) as [p4|]; [|discriminate Hrest].
  rewrite rbind_call in Hrest.
  destruct (build_modules C p4) as [p5|]; [|discriminate Hrest].
  rewrite rbind_call in Hrest.
  destruct (new_trainer C p5) as [p6|]; [|discriminate Hrest].
  unfold call in Hrest.
  destruct (new_evaluator C p6) as [p7|]; [|discriminate Hrest].
  unfold emit_before in Hrest. cbn in Hrest. by injection Hrest as <- _.
Qed.

Lemma startup_depends (params' : run_params) :
  cpu params = cpu params' → multi_gpu params = multi_gpu params' →
  startup C params = startup C params'.
Proof. unfold startup. by intros -> ->. Qed.

Lemma rbind_never_returns {A B} (c : Run Score Rng Other A)
    (k k' : A → Run Score Rng Other B) p :
  never_returns c → (x <- c ;; k x) p = (x <- c ;; k' x) p.
Proof.
  intros Hnever. rewrite !rbind_run.
  destruct (c p) as [[d1 p1] [a| |]] eqn:Hc; [|done..].
  by destruct (Hnever _ _ _ _ a Hc).
Qed.

Lemma rbind_rret_r (c : Run Score Rng Other unit) p : (c ;;; rret tt) p = c p.
Proof.
  rewrite rbind_run. destruct (c p) as [[d1 p1] [[]| |]]; [|done..].
  unfold emit_before, rret. cbn. by rewrite app_nil_r.
Qed.

(** X13.  With a [max_epoch] of zero or below, a training run is over when
    the start-up is: no epoch is started, nothing is trained, evaluated or
    saved. *)
Theorem no_epoch_without_max_epoch fuel p :
  eval_only params = false → (max_epoch params ≤ 0)%Z →
  main C params fuel p = startup C params p.
Proof.
  intros Hmode Hmax. unfold main, training. rewrite Hmode.
  replace (Z.to_nat (max_epoch params)) with 0%nat by lia. cbn [for_range].
  rewrite rbind_run. destruct (startup C params p) as [[d1 p1] [[]| |]]; [|done..].
  rewrite rbind_rret. unfold emit_before, rret. cbn. by rewrite app_nil_r.
Qed.

(** X14.  An epoch that finds the epoch size at zero or below makes no
    inner step, whatever the trainer or the task list: it logs its start
    and its end and goes on to the end-of-epoch work, with the counter at
    zero. *)
Theorem epoch_without_inner_step fuel p :
  (trainer_epoch_size p ≤ 0)%Z →
  epoch_body C params fuel p
  = emit_before [LogStartEpoch (trainer_epoch p); LogEndEpoch (trainer_epoch p)]
      (end_of_epoch C params (set_n_equations 0 p)).
Proof.
  intros Hsize. unfold epoch_body, start_epoch.
  rewrite rbind_assoc, rbind_read, rbind_assoc, rbind_log, rbind_assign.
  rewrite rbind_run, while_loop_unfold.
  replace (trainer_n_equations (set_n_equations 0 p) <? trainer_epoch_size (set_n_equations 0 p))%Z
    with false by (symmetry; apply Z.ltb_ge; cbn; lia).
  rewrite emit_before_nil, rbind_read, rbind_log, emit_before_app. done.
Qed.
End MoreOfMain.

Section ModesOfMain.
Context {Score Rng Other : Type}.
Variable C : collaborators Score Rng Other.
Variable params : run_params.

(** X15.  With the collaborators behaving the same, an evaluation-only run
    of [main] is the same whatever the fields of the training loop are: of
    the fields that [main] reads, [cpu] and [multi_gpu] alone matter, not
    [is_master] (every process evaluates and exits), [tasks], [export_data]
    or [max_epoch], nor the bound on the inner steps. *)
Theorem eval_only_ignores_the_training_fields (params' : run_params) fuel fuel' p :
  eval_only params = true → eval_only params' = true →
  cpu params = cpu params' → multi_gpu params = multi_gpu params' →
  main C params fuel p = main C params' fuel' p.
Proof.
  intros Hmode Hmode' Hcpu Hgpu. unfold main.
  rewrite Hmode, Hmode', (startup_depends C params params' Hcpu Hgpu).
  rewrite !(rbind_run (startup C params')).
  destruct (startup C params' p) as [[d1 p1] [[]| |]]; [|done..].
  f_equal. apply rbind_never_returns, evaluate_and_exit_never_returns.
Qed.

(** X16.  In a training run the lines that start and end an epoch come in
    turn, a start first: an epoch is ended before the next one starts.
    When [main] returns, [max_epoch] epochs have started and ended. *)
Theorem epochs_start_and_end_in_turn fuel p d p' r :
  eval_only params = false →
  main C params fuel p = (d, p', r) →
  omap epoch_mark_kind d
    `prefix_of` concat (replicate (Z.to_nat (max_epoch params)) [Started; Ended])
  ∧ (r = Returns tt →
     omap epoch_mark_kind d
     = concat (replicate (Z.to_nat (max_epoch params)) [Started; Ended])).
Proof.
  intros Hmode Hrun.
  assert (follows epoch_mark_kind (main C params fuel)
            (concat (replicate (Z.to_nat (max_epoch params))
                       ([Started] ++ [Ended]
                        ++ end_of_epoch_kinds (is_master params) [] [] [] []))))
    as Hfollows by (apply follows_main_training; kinds_done).
  assert ([Started] ++ [Ended] ++ end_of_epoch_kinds (is_master params) [] [] [] []
          = [Started; Ended]) as Hblock
    by (unfold end_of_epoch_kinds; by destruct (is_master params)).
  rewrite Hblock in Hfollows.
  destruct (Hfollows _ _ _ _ Hrun) as [Hpre Hall]. split; [done|by apply Hall].
Qed.

(** ** What the inner loop raises *)

Lemma for_task_ids_raises order p d p' e :
  Forall (λ task_id, is_Some (tasks params !! task_id)) order →
  for_task_ids C params order p = (d, p', Raises e) →
  ∃ task q, task ∈ tasks params
            ∧ (work_call C params task q = Raise e ∨ trainer_iter C q = Raise e).
Proof.
  intros Hvalid. revert p d p'. induction Hvalid as [|task_id order [task Htask] _ IH];
    intros p d p' Hrun; [discriminate Hrun|].
  rewrite for_task_ids_cons, Htask in Hrun.
  assert (task ∈ tasks params) as Hin by by eapply list_elem_of_lookup_2.
  destruct (work_call C params task p) as [p1|e1] eqn:Hwork.
  - destruct (trainer_iter C p1) as [p2|e2] eqn:Hiter.
    + destruct (for_task_ids C params order p2) as [[d2 p3] r2] eqn:Hrest.
      unfold emit_before in Hrun. cbn in Hrun. injection Hrun as _ _ ->.
      by apply (IH _ _ _ Hrest).
    + injection Hrun as _ _ ->. exists task, p1. by auto.
  - injection Hrun as _ _ ->. exists task, p. by auto.
Qed.

Lemma drawn_ids_in_range order :
  permutes C → drawn C params order →
  Forall (λ task_id, is_Some (tasks params !! task_id)) order.
Proof.
  intros Hperm [g ->]. apply Forall_forall. intros task_id Hin.
  rewrite (Hperm _ _) in Hin. apply elem_of_seq in Hin.
  apply lookup_lt_is_Some. lia.
Qed.

Lemma inner_step_raises p d p' e :
  permutes C →
  inner_step C params p = (d, p', Raises e) →
  ∃ task q, task ∈ tasks params
            ∧ (work_call C params task q = Raise e ∨ trainer_iter C q = Raise e).
Proof.
  intros Hperm Hrun. rewrite inner_step_run in Hrun.
  destruct (for_task_ids C params _ _) as [[d2 p2] r2] eqn:Hfor.
  unfold emit_before in Hrun. cbn in Hrun. injection Hrun as _ _ ->.
  eapply for_task_ids_raises; [|exact Hfor].
  apply drawn_ids_in_range; [done|]. by eexists.
Qed.

(** X17.  [np.random.permutation] giving a rearrangement of [range(n)],
    every task id of the inner loop is in range: the loop raises no
    [IndexError] of its own, and an exception that leaves it was raised by
    the trainer, in the unit of work of a configured task or in the
    bookkeeping call after one. *)
Theorem inner_loop_raises_what_the_trainer_raises fuel p d p' e :
  permutes C →
  while_loop C params fuel p = (d, p', Raises e) →
  ∃ task q, task ∈ tasks params
            ∧ (work_call C params task q = Raise e ∨ trainer_iter C q = Raise e).
Proof.
  intros Hperm. revert p d p'. induction fuel as [|fuel IH]; intros p d p';
    rewrite while_loop_unfold; destruct (Z.ltb _ _); try discriminate.
  rewrite rbind_run.
  destruct (inner_step C params p) as [[d1 p1] [[]|e1|]] eqn:Hstep.
  - destruct (while_loop C params fuel p1) as [[d2 p2] r2] eqn:Hloop.
    unfold emit_before. cbn. intros [= _ _ ->]. by apply (IH _ _ _ Hloop).
  - intros [= _ _ ->]. by apply (inner_step_raises _ _ _ _ Hperm Hstep).
  - discriminate.
Qed.

(** ** The work of an inner loop *)

Lemma count_work_and_iter (ts : list string) :
  count_events is_permutation_call (work_and_iter (Score:=Score) params ts) = 0%nat
  ∧ count_events is_iter (work_and_iter (Score:=Score) params ts) = length ts
  ∧ count_events is_work (work_and_iter (Score:=Score) params ts) = length ts.
Proof.
  unfold count_events, work_and_iter, work_event.
  induction ts as [|task ts (IH1 & IH2 & IH3)]; [done|].
  cbn [flat_map app length]. destruct (export_data params); cbn; by rewrite ?IH1, ?IH2, ?IH3.
Qed.

Lemma count_step_blocks orders :
  Forall (λ order, length (tasks_of params order) = length (tasks params)) orders →
  count_events is_permutation_call
    (concat (map (step_block (Score:=Score) params) orders)) = length orders
  ∧ count_events is_iter (concat (map (step_block (Score:=Score) params) orders))
    = (length orders * length (tasks params))%nat
  ∧ count_events is_work (concat (map (step_block (Score:=Score) params) orders))
    = (length orders * length (tasks params))%nat.
Proof.
  induction 1 as [|order orders Hlen _ (IH1 & IH2 & IH3)]; [done|].
  cbn [map concat length]. rewrite !count_events_app, IH1, IH2, IH3.
  unfold step_block.
  change (?ev :: work_and_iter params ?ts) with ([ev] ++ work_and_iter params ts).
  rewrite !count_events_app.
  destruct (count_work_and_iter (tasks_of params order)) as (-> & -> & ->).
  rewrite Hlen. cbn. lia.
Qed.

(** X18.  In an inner loop that returns, every inner step has done one unit
    of work and one bookkeeping call for each configured task: the loop
    holds as many of either as draws times the number of tasks. *)
Theorem inner_loop_work_per_step fuel p d p' :
  permutes C →
  while_loop C params fuel p = (d, p', Returns tt) →
  count_events is_work d
  = (count_events is_permutation_call d * length (tasks params))%nat
  ∧ count_events is_iter d
    = (count_events is_permutation_call d * length (tasks params))%nat.
Proof.
  intros Hperm Hrun.
  destruct (while_loop_trace _ _ _ _ _ _ _ Hrun)
    as (orders & rest & -> & Hdrawn & _ & _ & -> & _).
  rewrite app_nil_r.
  assert (Forall (λ order, length (tasks_of params order) = length (tasks params)) orders)
    as Hlens.
  { eapply Forall_impl; [exact Hdrawn|]. intros order [g ->]. cbn beta.
    destruct (tasks_of_permutation params _ (Hperm (length (tasks params)) g)) as [Hp _].
    by rewrite Hp. }
  destruct (count_step_blocks _ Hlens) as (-> & -> & ->). done.
Qed.

(** X19.  The two modes of the inner loop exclude each other over the whole
    run: with [export_data] on, [main] never calls the training step, and
    with [export_data] off it never exports. *)
Theorem export_run_never_trains fuel p d p' r :
  main C params fuel p = (d, p', r) →
  (export_data params = true → Forall (λ ev, is_enc_dec_step ev = false) d)
  ∧ (export_data params = false → Forall (λ ev, is_export_data ev = false) d).
Proof.
  intros Hrun. split; intros Hmode.
  - apply (emits_only_main C params (λ ev, is_enc_dec_step ev = false)) in Hrun; [done| |].
    + intros ev. unfold is_work. by destruct ev.
    + intros task. unfold work_event. by rewrite Hmode.
  - apply (emits_only_main C params (λ ev, is_export_data ev = false)) in Hrun; [done| |].
    + intros ev. unfold is_work. by destruct ev.
    + intros task. unfold work_event. by rewrite Hmode.
Qed.
End ModesOfMain.

(** * The further facts of [main] on the counting trainer *)

(** X12 on the counting trainer. *)
Lemma startup_returns_trace_witness :
  (startup counting_trainer two_tasks (fresh_process 10)).1.1 = startup_trace two_tasks
  ∧ (cpu two_tasks = false → ∃ q, cuda_is_available counting_trainer q = true).
Proof.
  destruct (startup_returns_trace counting_trainer two_tasks (fresh_process 10)
              (startup counting_trainer two_tasks (fresh_process 10)).1.1
              (startup counting_trainer two_tasks (fresh_process 10)).1.2)
    as (Htrace & _ & Hgpu).
  - vm_compute. reflexivity.
  - split; [exact Htrace|exact Hgpu].
Defined.

(** X15: an evaluation on the master over two tasks, and one on a worker in
    export mode with no task. *)
Lemma eval_only_ignores_the_training_fields_witness :
  main counting_trainer two_tasks_eval 5 (fresh_process 10)
  = main counting_trainer eval_on_worker 0 (fresh_process 10).
Proof.
  apply (eval_only_ignores_the_training_fields counting_trainer two_tasks_eval
           eval_on_worker 5 0 (fresh_process 10)); reflexivity.
Defined.

(** X16 on one epoch over two tasks. *)
Lemma epochs_start_and_end_in_turn_witness :
  omap epoch_mark_kind (main counting_trainer two_tasks 5 (fresh_process 10)).1.1
  = [Started; Ended].
Proof.
  destruct (epochs_start_and_end_in_turn counting_trainer two_tasks 5 (fresh_process 10)
              (main counting_trainer two_tasks 5 (fresh_process 10)).1.1
              (main counting_trainer two_tasks 5 (fresh_process 10)).1.2
              (main counting_trainer two_tasks 5 (fresh_process 10)).2)
    as [_ Hall].
  - reflexivity.
  - vm_compute. reflexivity.
  - apply Hall. vm_compute. reflexivity.
Defined.

(** X13 on a negative [max_epoch]. *)
Lemma no_epoch_without_max_epoch_witness :
  main counting_trainer two_tasks_no_epoch 5 (fresh_process 10)
  = startup counting_trainer two_tasks_no_epoch (fresh_process 10).
Proof.
  apply (no_epoch_without_max_epoch counting_trainer two_tasks_no_epoch 5 (fresh_process 10)).
  - reflexivity.
  - vm_compute. discriminate.
Defined.

(** X14 on an epoch size of zero. *)
Lemma epoch_without_inner_step_witness :
  epoch_body counting_trainer two_tasks 5 (fresh_process 0)
  = emit_before [LogStartEpoch 0; LogEndEpoch 0]
      (end_of_epoch counting_trainer two_tasks (set_n_equations 0 (fresh_process 0))).
Proof.
  apply (epoch_without_inner_step counting_trainer two_tasks 5 (fresh_process 0)).
  vm_compute. discriminate.
Defined.

Lemma failing_trainer_permutes : permutes failing_trainer.
Proof. exact counting_trainer_permutes. Qed.

(** X17 on a trainer whose bookkeeping call fails. *)
Lemma inner_loop_raises_what_the_trainer_raises_witness :
  ∃ task q, task ∈ tasks two_tasks
            ∧ (work_call failing_trainer two_tasks task q = Raise (ExternalError "iter")
               ∨ trainer_iter failing_trainer q = Raise (ExternalError "iter")).
Proof.
  apply (inner_loop_raises_what_the_trainer_raises failing_trainer two_tasks 3
           (fresh_process 10)
           (while_loop failing_trainer two_tasks 3 (fresh_process 10)).1.1
           (while_loop failing_trainer two_tasks 3 (fresh_process 10)).1.2).
  - exact failing_trainer_permutes.
  - vm_compute. reflexivity.
Defined.

(** X18 on the counting trainer: three inner steps over two tasks. *)
Lemma inner_loop_work_per_step_witness :
  count_events is_work (while_loop counting_trainer two_tasks 5 (fresh_process 10)).1.1
  = (count_events is_permutation_call
       (while_loop counting_trainer two_tasks 5 (fresh_process 10)).1.1
     * length (tasks two_tasks))%nat
  ∧ count_events is_iter (while_loop counting_trainer two_tasks 5 (fresh_process 10)).1.1
    = (count_events is_permutation_call
         (while_loop counting_trainer two_tasks 5 (fresh_process 10)).1.1
       * length (tasks two_tasks))%nat.
Proof.
  apply (inner_loop_work_per_step counting_trainer two_tasks 5 (fresh_process 10)
           (while_loop counting_trainer two_tasks 5 (fresh_process 10)).1.1
           (while_loop counting_trainer two_tasks 5 (fresh_process 10)).1.2).
  - exact counting_trainer_permutes.
  - vm_compute. reflexivity.
Defined.

(** X19 on an export run and on a training run. *)
Lemma export_run_never_trains_witness :
  Forall (λ ev, is_enc_dec_step ev = false)
    (main counting_trainer two_tasks_export 5 (fresh_process 10)).1.1
  ∧ Forall (λ ev, is_export_data ev = false)
      (main counting_trainer two_tasks 5 (fresh_process 10)).1.1.
Proof.
  split.
  - apply (export_run_never_trains counting_trainer two_tasks_export 5 (fresh_process 10)
             _ (main counting_trainer two_tasks_export 5 (fresh_process 10)).1.2
             (main counting_trainer two_tasks_export 5 (fresh_process 10)).2);
      [|reflexivity].
    by destruct (main counting_trainer two_tasks_export 5 (fresh_process 10)) as [[? ?] ?].
  - apply (export_run_never_trains counting_trainer two_tasks 5 (fresh_process 10)
             _ (main counting_trainer two_tasks 5 (fresh_process 10)).1.2
             (main counting_trainer two_tasks 5 (fresh_process 10)).2);
      [|reflexivity].
    by destruct (main counting_trainer two_tasks 5 (fresh_process 10)) as [[? ?] ?].
Defined.
